(** * X-Bot: quota-aware posting and deduplicated reply processing

    A shallow embedding of the parts of the bot that schedule posts and
    handle replies:

    - [core/twitter_api.py]   (TwitterAPIManager: quota tracker, post, like,
                               reply discovery),
    - [core/storage.py]       (StorageManager: the [replies] table),
    - [core/reply_handler.py] (ReplyHandler: polling cycle, auto-like,
                               auto-reply, manual deep scan),
    - [core/scheduler.py]     (TaskScheduler: posting window, posting job).

    Python objects become one record of mutable state, [Sys]; methods become
    computations in a state monad over it.  Everything the bot cannot decide
    itself (the platform's answers, the language model, the clock, the
    database's key generator, the iteration order of a Python [set]) is read
    from a [World], indexed by a counter that advances at every reading, so
    that two calls with the same arguments may be answered differently.

    Left out: logging, the event bus, [time.sleep], [_last_check], the
    [tweets] and [stats] tables, and the real-time handler that
    [_setup_reply_handler] registers (nothing in the repository ever calls
    [setup_realtime_subscriptions], so it is never triggered).  The database
    answers every statement it is sent; the methods of the platform client
    may raise or answer with parts missing, as the code provides for. *)

From stdpp Require Import base option list gmap strings pretty.
From Stdlib Require Import ZArith Lia Sorted.

Open Scope string_scope.
Open Scope Z_scope.

(** ** Data *)

(** [storage.Reply].  [author_id] is optional because the platform may
    leave the field out; timestamps are microseconds since the epoch. *)
Record Reply := mkReply {
  reply_id : string;
  original_tweet_id : string;
  author_id : option string;
  content : string;
  created_at : Z;
  liked : bool
}.

(** A row of the [replies] table: the columns written by [save_reply]
    together with the primary key [id] the database generates. *)
Record ReplyRow := mkRow {
  row_id : string;
  row_reply_id : string;
  row_original_tweet_id : string;
  row_author_id : option string;
  row_content : string;
  row_created_at : Z;
  row_liked : bool
}.

(** One element of the [data] list answered by [search_recent_tweets]. *)
Record RawTweet := mkRaw {
  rt_id : string;
  rt_conversation_id : option string;
  rt_author_id : option string;
  rt_text : string;
  rt_created_at : option Z   (* [None]: the timestamp does not parse *)
}.

(** [datetime.time]: compared field by field, which for fields in range is
    the order of the microsecond of the day. *)
Record Time := mkTime {
  hour : Z;
  minute : Z;
  second : Z;
  microsecond : Z
}.

Definition time_key (t : Time) : Z :=
  ((hour t * 60 + minute t) * 60 + second t) * 1000000 + microsecond t.

Definition time_le (a b : Time) : bool := time_key a <=? time_key b.

(** [datetime.strptime(s, '%H:%M').time()] *)
Definition hm (h m : Z) : Time := mkTime h m 0 0.

(** The part of [BotConfig] the modelled code reads.  [time_range] holds
    the window bounds already parsed by [strptime]. *)
Record Config := mkConfig {
  posts_per_day : Z;                  (* x_api.quotas[plan].posts_per_day *)
  reads_per_day : Z;                  (* x_api.quotas[plan].reads_per_day *)
  likes_per_day : Z;                  (* engagement.likes_per_day *)
  auto_like_replies : bool;
  auto_reply_enabled : bool;
  max_replies_per_conversation : Z;
  time_range_start : Time;
  time_range_end : Time
}.

(** ** The world outside the bot *)

Inductive SearchResp :=
  | SearchRaises
  | SearchData (tweets_data : list RawTweet).

(** [client.get_tweet(id, tweet_fields=['author_id'])]: an exception, or a
    response whose [data] may be missing and whose [author_id] may be
    missing. *)
Inductive GetTweetResp :=
  | GetTweetRaises
  | GetTweetData (data : option (option string)).

Inductive LikeResp :=
  | LikeRaises
  | LikeData (liked_flag : bool).

Inductive GenerateResp :=
  | GenerateRaises
  | Generated (tweet_content : option string) (image_url : option string).

Record World := mkWorld {
  utcnow : nat -> Z;                                   (* datetime.utcnow() *)
  local_now : nat -> Time;                             (* datetime.now(tz).time() *)
  search_recent_tweets : nat -> string -> SearchResp;
  get_tweet : nat -> string -> GetTweetResp;
  get_me : nat -> option string;                       (* the id, when one comes back *)
  like : nat -> string -> LikeResp;
  create_tweet : nat -> string -> option string -> option string;
  media_upload : nat -> string -> option string;
  get_user : nat -> option string -> option string;    (* username of an author *)
  llm_generate_reply : nat -> Reply -> option string;
  generate_complete_post : nat -> GenerateResp;
  get_recent_tweets : nat -> Z -> list string;         (* owned tweet ids, by lookback hours *)
  new_row_id : nat -> string;                          (* primary key chosen by the database *)
  set_iter : gset string -> list string                (* list(s) for a Python set s *)
}.

(** What leaves the process, in the order it happens (latest first). *)
Inductive Event :=
  | ESearch (tweet_id : string)
  | EGetTweet (tweet_id : string)
  | EGetMe
  | EGetUser (author : option string)
  | ELike (tweet_id : string)
  | EMediaUpload (image : string)
  | ECreateTweet (text : string) (reply_to : option string)
  | EGenerate
  | ELLM (rid : string)
  | EAutoReplied (conversation rid : string).

(** ** The state of the process *)

Record Sys := mkSys {
  (* TwitterAPIManager *)
  bot_user_id : option string;
  quota_usage : gmap string Z;            (* _quota_usage *)
  last_quota_reset : Z;                   (* _last_quota_reset *)
  (* StorageManager: [None] when the client could not be created *)
  supabase : option (list ReplyRow);
  (* ReplyHandler *)
  processed_replies : gset string;        (* _processed_replies *)
  startup_check_done : bool;              (* _startup_check_done *)
  conversation_replies : list (string * Z); (* _conversation_replies, in insertion order *)
  (* TaskScheduler._job_stats *)
  successful : Z;
  failed : Z;
  skipped : Z;
  (* bookkeeping of the model *)
  tick : nat;
  trace : list Event
}.

Definition set_quota (f : gmap string Z -> gmap string Z) (s : Sys) : Sys :=
  mkSys (bot_user_id s) (f (quota_usage s)) (last_quota_reset s) (supabase s)
        (processed_replies s) (startup_check_done s) (conversation_replies s)
        (successful s) (failed s) (skipped s) (tick s) (trace s).

Definition set_last_reset (t : Z) (s : Sys) : Sys :=
  mkSys (bot_user_id s) (quota_usage s) t (supabase s)
        (processed_replies s) (startup_check_done s) (conversation_replies s)
        (successful s) (failed s) (skipped s) (tick s) (trace s).

Definition set_supabase (db : option (list ReplyRow)) (s : Sys) : Sys :=
  mkSys (bot_user_id s) (quota_usage s) (last_quota_reset s) db
        (processed_replies s) (startup_check_done s) (conversation_replies s)
        (successful s) (failed s) (skipped s) (tick s) (trace s).

Definition set_processed (f : gset string -> gset string) (s : Sys) : Sys :=
  mkSys (bot_user_id s) (quota_usage s) (last_quota_reset s) (supabase s)
        (f (processed_replies s)) (startup_check_done s) (conversation_replies s)
        (successful s) (failed s) (skipped s) (tick s) (trace s).

Definition set_startup (b : bool) (s : Sys) : Sys :=
  mkSys (bot_user_id s) (quota_usage s) (last_quota_reset s) (supabase s)
        (processed_replies s) b (conversation_replies s)
        (successful s) (failed s) (skipped s) (tick s) (trace s).

Definition set_conversations (f : list (string * Z) -> list (string * Z)) (s : Sys) : Sys :=
  mkSys (bot_user_id s) (quota_usage s) (last_quota_reset s) (supabase s)
        (processed_replies s) (startup_check_done s) (f (conversation_replies s))
        (successful s) (failed s) (skipped s) (tick s) (trace s).

Definition set_job_stats (ok ko sk : Z) (s : Sys) : Sys :=
  mkSys (bot_user_id s) (quota_usage s) (last_quota_reset s) (supabase s)
        (processed_replies s) (startup_check_done s) (conversation_replies s)
        ok ko sk (tick s) (trace s).

Definition set_tick (n : nat) (s : Sys) : Sys :=
  mkSys (bot_user_id s) (quota_usage s) (last_quota_reset s) (supabase s)
        (processed_replies s) (startup_check_done s) (conversation_replies s)
        (successful s) (failed s) (skipped s) n (trace s).

Definition set_trace (f : list Event -> list Event) (s : Sys) : Sys :=
  mkSys (bot_user_id s) (quota_usage s) (last_quota_reset s) (supabase s)
        (processed_replies s) (startup_check_done s) (conversation_replies s)
        (successful s) (failed s) (skipped s) (tick s) (f (trace s)).

(** ** A state monad over [Sys] *)

Definition M (A : Type) : Type := Sys -> A * Sys.

Definition ret {A} (a : A) : M A := fun s => (a, s).

Definition bind {A B} (m : M A) (k : A -> M B) : M B :=
  fun s => let '(a, s') := m s in k a s'.

Definition gets {A} (f : Sys -> A) : M A := fun s => (f s, s).

Definition modify (f : Sys -> Sys) : M unit := fun s => (tt, f s).

#[global] Instance M_ret : MRet M := @ret.
#[global] Instance M_bind : MBind M := fun A B k m => bind m k.

(** Reading the world: the answer of the current instant; time moves on. *)
Definition ask {A} (f : nat -> A) : M A :=
  fun s => (f (tick s), set_tick (S (tick s)) s).

Definition emit (e : Event) : M unit := modify (set_trace (cons e)).

(** Python truthiness of an optional string. *)
Definition truthy (o : option string) : bool :=
  match o with
  | Some s => negb (String.eqb s "")
  | None => false
  end.

Definition opt_string_eqb (a b : option string) : bool :=
  bool_decide (a = b).

(** ** TwitterAPIManager: the quota tracker *)

Definition day_us : Z := 86400000000.

(** [timedelta.days]: whole days, rounded towards minus infinity. *)
Definition timedelta_days (delta : Z) : Z := delta / day_us.

Definition fresh_usage : gmap string Z :=
  <["posts" := 0]> (<["reads" := 0]> (<["likes" := 0]> ∅)).

Definition usage_of (operation : string) (s : Sys) : Z :=
  default 0 (quota_usage s !! operation).

(** The daily limit of an operation; [None] is [float('inf')]. *)
Definition daily_limit_of (cfg : Config) (operation : string) : option Z :=
  if String.eqb operation "posts" then Some (posts_per_day cfg)
  else if String.eqb operation "reads" then Some (reads_per_day cfg)
  else if String.eqb operation "likes" then Some (likes_per_day cfg)
  else None.

Definition exceeds (limit : option Z) (current_usage count : Z) : bool :=
  match limit with
  | Some daily_limit => (0 <? daily_limit) && (daily_limit <? current_usage + count)
  | None => false
  end.

Section Bot.

Variable w : World.
Variable cfg : Config.

(** [TwitterAPIManager._check_quota] *)
Definition _check_quota (operation : string) (count : Z) : M bool :=
  now ← ask (utcnow w);
  last ← gets last_quota_reset;
  (if 1 <=? timedelta_days (now - last)
   then modify (fun s => set_last_reset now (set_quota (fun _ => fresh_usage) s))
   else ret tt);;
  current_usage ← gets (usage_of operation);
  if exceeds (daily_limit_of cfg operation) current_usage count
  then ret false
  else ret true.

(** [TwitterAPIManager._update_quota] *)
Definition _update_quota (operation : string) (count : Z) : M unit :=
  modify (fun s => set_quota (<[operation := usage_of operation s + count]>) s).

(** ** TwitterAPIManager: writes and reads *)

(** [TwitterAPIManager.post_tweet].  An exception of [create_tweet] is
    re-raised by the body and turned into [None] by [safe_execute] (severity
    HIGH), so the [retry] decorator never sees a failure; [create_tweet]
    answering [None] stands for both. *)
Definition post_tweet (text : string) (image_url reply_to : option string)
  : M (option string) :=
  ok ← _check_quota "posts" 1;
  if negb ok then ret None
  else
    (match image_url with
     | Some src =>
         if truthy image_url
         then emit (EMediaUpload src);; _ ← ask (fun n => media_upload w n src); ret tt
         else ret tt
     | None => ret tt
     end);;
    let in_reply_to := if truthy reply_to then reply_to else None in
    emit (ECreateTweet text in_reply_to);;
    tweet_id ← ask (fun n => create_tweet w n text in_reply_to);
    if truthy tweet_id
    then _update_quota "posts" 1;; ret tweet_id
    else ret None.

(** The author test shared by the two places that look a tweet up before
    liking it: [bot_user_id and author_id == bot_user_id]. *)
Definition is_own (bot author : option string) : bool :=
  truthy bot && opt_string_eqb author bot.

(** [TwitterAPIManager.like_tweet] *)
Definition like_tweet (tweet_id : string) : M bool :=
  ok ← _check_quota "likes" 1;
  if negb ok then ret false
  else
    emit (EGetTweet tweet_id);;
    tweet_response ← ask (fun n => get_tweet w n tweet_id);
    bot ← gets bot_user_id;
    match tweet_response with
    | GetTweetRaises => ret false          (* "If we can't check, better to skip" *)
    | GetTweetData tweet_data =>
        let own :=
          match tweet_data with
          | Some tweet_author_id => is_own bot tweet_author_id
          | None => false
          end in
        if own then ret false
        else
          emit EGetMe;;
          user_id ← ask (get_me w);
          if negb (truthy user_id) then ret false
          else
            emit (ELike tweet_id);;
            response ← ask (fun n => like w n tweet_id);
            match response with
            | LikeData true => _update_quota "likes" 1;; ret true
            | LikeData false => ret false
            | LikeRaises => ret false
            end
    end.

(** The loop of [get_tweet_replies] over the answered tweets. *)
Fixpoint collect_replies (bot : option string) (tweet_id : string)
    (tweets_data : list RawTweet) : M (list Reply) :=
  match tweets_data with
  | [] => ret []
  | tweet :: rest =>
      if negb (opt_string_eqb (rt_conversation_id tweet) (Some tweet_id))
      then collect_replies bot tweet_id rest
      else if is_own bot (rt_author_id tweet)
      then collect_replies bot tweet_id rest
      else
        created ← (match rt_created_at tweet with
                   | Some t => ret t
                   | None => ask (utcnow w)
                   end);
        replies ← collect_replies bot tweet_id rest;
        ret (mkReply (rt_id tweet) tweet_id (rt_author_id tweet) (rt_text tweet)
                     created false :: replies)
  end.

(** [TwitterAPIManager.get_tweet_replies].  The search query names the
    placeholder account [YOUR_USERNAME], so the platform excludes nothing;
    what is excluded is decided by the loop. *)
Definition get_tweet_replies (tweet_id : string) (max_results : Z) : M (list Reply) :=
  ok ← _check_quota "reads" max_results;
  if negb ok then ret []
  else
    emit (ESearch tweet_id);;
    response ← ask (fun n => search_recent_tweets w n tweet_id);
    match response with
    | SearchRaises => ret []
    | SearchData [] => ret []
    | SearchData tweets_data =>
        bot ← gets bot_user_id;
        replies ← collect_replies bot tweet_id tweets_data;
        _update_quota "reads" (Z.of_nat (length tweets_data));;
        ret replies
    end.

(** The [daily_limits] entry of [get_quota_status]: a number, or the string
    ['unlimited']. *)
Inductive Limit :=
  | IntLimit (n : Z)
  | Unlimited.

Definition posts_limit_status : Limit :=
  if 0 <? posts_per_day cfg then IntLimit (posts_per_day cfg) else Unlimited.

(** ** StorageManager: the [replies] table

    The database is taken to answer every statement it is sent; the only
    failure kept is the missing client ([supabase] is [None]). *)

Definition has_reply_id (rid : string) (row : ReplyRow) : bool :=
  String.eqb (row_reply_id row) rid.

Definition with_liked (row : ReplyRow) : ReplyRow :=
  mkRow (row_id row) (row_reply_id row) (row_original_tweet_id row)
        (row_author_id row) (row_content row) (row_created_at row) true.

(** [update({'liked': True}).eq('reply_id', rid)] *)
Definition update_liked (rid : string) (rows : list ReplyRow) : list ReplyRow :=
  map (fun row => if has_reply_id rid row then with_liked row else row) rows.

(** [StorageManager.get_existing_reply_ids] *)
Definition get_existing_reply_ids (reply_ids : list string) : M (list string) :=
  db ← gets supabase;
  match db, reply_ids with
  | None, _ => ret []
  | _, [] => ret []
  | Some rows, _ =>
      ret (List.filter (fun rid => bool_decide (rid ∈ reply_ids)) (map row_reply_id rows))
  end.

(** [StorageManager.save_reply] *)
Definition save_reply (reply : Reply) : M (option string) :=
  db ← gets supabase;
  match db with
  | None => ret None
  | Some rows =>
      match List.filter (has_reply_id (reply_id reply)) rows with
      | existing :: _ =>
          (if liked reply
           then modify (set_supabase (Some (update_liked (reply_id reply) rows)))
           else ret tt);;
          ret (Some (row_id existing))
      | [] =>
          new_id ← ask (new_row_id w);
          modify (set_supabase (Some (rows ++
            [mkRow new_id (reply_id reply) (original_tweet_id reply) (author_id reply)
                   (content reply) (created_at reply) (liked reply)])%list));;
          ret (Some new_id)
      end
  end.

(** [StorageManager.mark_reply_liked] *)
Definition mark_reply_liked (rid : string) : M bool :=
  db ← gets supabase;
  match db with
  | None => ret false
  | Some rows =>
      modify (set_supabase (Some (update_liked rid rows)));;
      ret (existsb (has_reply_id rid) rows)
  end.

(** ** ReplyHandler *)

(** The [stats] dictionary of one polling cycle. *)
Record CycleStats := mkStats {
  checked_tweets : Z;
  new_replies : Z;
  likes_sent : Z;
  replies_sent : Z;
  errors : Z;
  startup_check : bool
}.

Definition count_new (st : CycleStats) : CycleStats :=
  mkStats (checked_tweets st) (new_replies st + 1) (likes_sent st) (replies_sent st)
          (errors st) (startup_check st).

Definition count_like (st : CycleStats) : CycleStats :=
  mkStats (checked_tweets st) (new_replies st) (likes_sent st + 1) (replies_sent st)
          (errors st) (startup_check st).

Definition count_reply (st : CycleStats) : CycleStats :=
  mkStats (checked_tweets st) (new_replies st) (likes_sent st) (replies_sent st + 1)
          (errors st) (startup_check st).

(** [_conversation_replies] is a [dict]: it keeps its keys in the order
    of their first insertion. *)
Fixpoint dict_get (key : string) (d : list (string * Z)) : option Z :=
  match d with
  | [] => None
  | (k, v) :: rest => if String.eqb k key then Some v else dict_get key rest
  end.

Fixpoint dict_set (key : string) (v : Z) (d : list (string * Z)) : list (string * Z) :=
  match d with
  | [] => [(key, v)]
  | (k, x) :: rest =>
      if String.eqb k key then (k, v) :: rest else (k, x) :: dict_set key v rest
  end.

(** [sorted(items, key=lambda x: x[1], reverse=True)]: by decreasing count,
    items of equal count in their original order. *)
Fixpoint insert_desc (x : string * Z) (l : list (string * Z)) : list (string * Z) :=
  match l with
  | [] => [x]
  | y :: rest => if x.2 <? y.2 then y :: insert_desc x rest else x :: l
  end.

Definition sorted_desc (items : list (string * Z)) : list (string * Z) :=
  foldr insert_desc [] items.

(** [l[-n:]] *)
Definition last_n {A} (n : nat) (l : list A) : list A :=
  drop (length l - n)%nat l.

Definition cache_cap : nat := 1000.
Definition cache_keep : nat := 500.
Definition conversations_cap : nat := 100.
Definition conversations_keep : nat := 50.

(** The two clean-ups at the end of [check_and_handle_replies]. *)
Definition trim_processed (cache : gset string) : gset string :=
  if bool_decide (cache_cap < size cache)%nat
  then list_to_set (last_n cache_keep (set_iter w cache))
  else cache.

Definition trim_conversations (d : list (string * Z)) : list (string * Z) :=
  if bool_decide (conversations_cap < length d)%nat
  then take conversations_keep (sorted_desc d)
  else d.

Fixpoint foldM {A B} (f : B -> A -> M B) (l : list A) (b : B) : M B :=
  match l with
  | [] => ret b
  | a :: rest => b' ← f b a; foldM f rest b'
  end.

(** [ReplyHandler._auto_like_reply] *)
Definition _auto_like_reply (rid : string) : M bool :=
  bot ← gets bot_user_id;
  own ← (if truthy bot
         then
           emit (EGetTweet rid);;
           tweet_response ← ask (fun n => get_tweet w n rid);
           match tweet_response with
           | GetTweetData (Some tweet_author_id) =>
               ret (opt_string_eqb tweet_author_id bot)
           | GetTweetData None => ret false
           | GetTweetRaises => ret false     (* "Could not verify tweet author" *)
           end
         else ret false);
  if (own : bool) then ret false
  else like_tweet rid.

(** [ReplyHandler._generate_reply_content], through [_generate_llm_reply]:
    the author's name is looked up, the model is asked, and the answer is
    kept when it is non-empty and at most 280 characters long. *)
Definition _generate_reply_content (reply : Reply) : M (option string) :=
  emit (EGetUser (author_id reply));;
  _ ← ask (fun n => get_user w n (author_id reply));
  emit (ELLM (reply_id reply));;
  response ← ask (fun n => llm_generate_reply w n reply);
  match response with
  | Some text =>
      if truthy response && (Z.of_nat (String.length text) <=? 280)
      then ret (Some text)
      else ret None
  | None => ret None
  end.

(** [ReplyHandler._auto_reply_to_comment] *)
Definition _auto_reply_to_comment (reply : Reply) : M bool :=
  let conversation_key := original_tweet_id reply in
  d ← gets conversation_replies;
  let current_replies := default 0 (dict_get conversation_key d) in
  if max_replies_per_conversation cfg <=? current_replies then ret false
  else
    response_content ← _generate_reply_content reply;
    match response_content with
    | None => ret false
    | Some text =>
        response_tweet_id ← post_tweet text None (Some (reply_id reply));
        if truthy response_tweet_id
        then
          modify (set_conversations (dict_set conversation_key (current_replies + 1)));;
          emit (EAutoReplied conversation_key (reply_id reply));;
          ret true
        else ret false
    end.

(** "Auto-like si activé": the like, and the mark in the database. *)
Definition like_if_enabled (reply : Reply) (stats : CycleStats) : M CycleStats :=
  if auto_like_replies cfg
  then
    ok ← _auto_like_reply (reply_id reply);
    if (ok : bool)
    then mark_reply_liked (reply_id reply);; ret (count_like stats)
    else ret stats
  else ret stats.

(** "Auto-réponse si activée" *)
Definition answer_if_enabled (reply : Reply) (stats : CycleStats) : M CycleStats :=
  if auto_reply_enabled cfg
  then
    ok ← _auto_reply_to_comment reply;
    if (ok : bool) then ret (count_reply stats) else ret stats
  else ret stats.

(** What both scans do with a reply they decide to act on. *)
Definition engage (reply : Reply) (stats : CycleStats) : M CycleStats :=
  stats ← like_if_enabled reply stats;
  answer_if_enabled reply stats.

(** The body of the inner loop of [check_and_handle_replies]. *)
Definition handle_reply (existing_reply_ids : gset string)
    (stats : CycleStats) (reply : Reply) : M CycleStats :=
  cache ← gets processed_replies;
  if bool_decide (reply_id reply ∈ cache) then ret stats
  else if bool_decide (reply_id reply ∈ existing_reply_ids)
  then modify (set_processed (union {[reply_id reply]}));; ret stats
  else
    modify (set_processed (union {[reply_id reply]}));;
    let stats := count_new stats in
    saved_id ← save_reply reply;
    if truthy saved_id then engage reply stats else ret stats.

(** One page of discovered replies: the batch existence query, then the
    inner loop. *)
Definition process_page (replies : list Reply) (stats : CycleStats) : M CycleStats :=
  existing ← get_existing_reply_ids (map reply_id replies);
  foldM (handle_reply (list_to_set existing)) replies stats.

(** The body of the outer loop: one owned tweet. *)
Definition handle_tweet (stats : CycleStats) (tweet_id : string) : M CycleStats :=
  replies ← get_tweet_replies tweet_id 10;
  match replies with
  | [] => ret stats
  | _ => process_page replies stats
  end.

(** [ReplyHandler.check_and_handle_replies].  [None] is the [{'error': ..}]
    answer: without a database client [get_recent_tweets] raises before
    anything else has happened. *)
Definition check_and_handle_replies : M (option CycleStats) :=
  db ← gets supabase;
  match db with
  | None => ret None
  | Some _ =>
      started ← gets startup_check_done;
      our_tweets ← ask (fun n => get_recent_tweets w n (if started then 24 else 168));
      modify (set_startup true);;
      let stats := mkStats (Z.of_nat (length our_tweets)) 0 0 0 0 (negb started) in
      stats ← foldM handle_tweet our_tweets stats;
      modify (set_processed trim_processed);;
      modify (set_conversations trim_conversations);;
      ret (Some stats)
  end.

(** [ReplyHandler.reset_processed_cache] *)
Definition reset_processed_cache : M unit :=
  modify (set_processed (fun _ => ∅)).

(** The inner loop of [manual_deep_scan]. *)
Definition deep_scan_reply (original_cache : gset string)
    (stats : CycleStats) (reply : Reply) : M CycleStats :=
  if bool_decide (reply_id reply ∈ original_cache) then ret stats
  else
    let stats := count_new stats in
    save_reply reply;;
    engage reply stats.

Definition deep_scan_tweet (original_cache : gset string)
    (stats : CycleStats) (tweet_id : string) : M CycleStats :=
  replies ← get_tweet_replies tweet_id 10;
  foldM (deep_scan_reply original_cache) replies stats.

(** [ReplyHandler.manual_deep_scan] *)
Definition manual_deep_scan (days : Z) : M (option CycleStats) :=
  db ← gets supabase;
  match db with
  | None => ret None
  | Some _ =>
      our_tweets ← ask (fun n => get_recent_tweets w n (days * 24));
      let stats := mkStats (Z.of_nat (length our_tweets)) 0 0 0 0 false in
      original_cache ← gets processed_replies;
      modify (set_processed (fun _ => ∅));;
      stats ← foldM (deep_scan_tweet original_cache) our_tweets stats;
      modify (set_processed (fun _ => original_cache));;
      ret (Some stats)
  end.

(** ** TaskScheduler: the posting job *)

(** The comparison of [_is_in_posting_hours]. *)
Definition in_posting_hours (start_time end_time now : Time) : bool :=
  if time_le start_time end_time
  then time_le start_time now && time_le now end_time
  else time_le start_time now || time_le now end_time.

Definition _is_in_posting_hours : M bool :=
  now ← ask (local_now w);
  ret (in_posting_hours (time_range_start cfg) (time_range_end cfg) now).

(** [TaskScheduler._check_posting_quota] on the status built by
    [get_quota_status]. *)
Definition _check_posting_quota (posts_used : Z) (posts_limit : Limit) : bool :=
  match posts_limit with
  | IntLimit n => negb (n <=? posts_used)
  | Unlimited => true
  end.

Definition count_skipped : M unit :=
  modify (fun s => set_job_stats (successful s) (failed s) (skipped s + 1) s).

Definition count_failed : M unit :=
  modify (fun s => set_job_stats (successful s) (failed s + 1) (skipped s) s).

Definition count_successful : M unit :=
  modify (fun s => set_job_stats (successful s + 1) (failed s) (skipped s) s).

(** [TaskScheduler._generate_and_post_job].  A posted tweet counts as
    successful whether or not it could be saved afterwards. *)
Definition _generate_and_post_job : M unit :=
  inside ← _is_in_posting_hours;
  if negb inside then count_skipped
  else
    posts_used ← gets (usage_of "posts");
    if negb (_check_posting_quota posts_used posts_limit_status) then count_skipped
    else
      emit EGenerate;;
      generated ← ask (generate_complete_post w);
      match generated with
      | GenerateRaises => count_failed
      | Generated None _ => count_failed
      | Generated (Some tweet_content) image_url =>
          if negb (truthy (Some tweet_content)) then count_failed
          else
            tweet_id ← post_tweet tweet_content image_url None;
            if truthy tweet_id then count_successful else count_failed
      end.

End Bot.

(** * More of the bot

    Methods of the same classes that stand beside the ones above.  What
    they ask of the platform beyond [World] is taken as a parameter. *)

(** [storage.TweetStats]; [collected_at] is filled in by [__post_init__]. *)
Record TweetStats := mkTweetStats {
  stats_tweet_id : string;
  stats_likes : Z;
  stats_retweets : Z;
  stats_replies : Z;
  stats_impressions : Z;
  stats_collected_at : Z
}.

(** The [data] of a tweet looked up with its metrics: two dictionaries,
    either of which may be absent. *)
Record TweetMetrics := mkTweetMetrics {
  public_metrics : option (gmap string Z);
  non_public_metrics : option (gmap string Z)
}.

Inductive MetricsResp :=
  | MetricsRaises
  | MetricsData (data : option TweetMetrics).

(** [d.get(key, 0)] on a dictionary that defaults to [{}] *)
Definition metric (d : option (gmap string Z)) (key : string) : Z :=
  default 0 (d ≫= (fun m => m !! key)).

(** One tweet answered to the search of [search_viral_tweets], and the
    dictionary the method builds from it. *)
Record ViralRaw := mkViralRaw {
  vr_id : string;
  vr_text : string;
  vr_author_id : option string;
  vr_created_at : option string;
  vr_public_metrics : option (gmap string Z)
}.

Record ViralTweet := mkViralTweet {
  vt_id : string;
  vt_text : string;
  vt_author_id : option string;
  vt_created_at : option string;
  vt_metrics : gmap string Z;
  virality_score : Z
}.

Inductive ViralResp :=
  | ViralRaises
  | ViralData (tweets_data : list ViralRaw).

(** [likes + (retweets * 3) + (replies * 2)] on [public_metrics or {}] *)
Definition score_of (raw : ViralRaw) : ViralTweet :=
  let metrics := default ∅ (vr_public_metrics raw) in
  let likes := default 0 (metrics !! "like_count") in
  let retweets := default 0 (metrics !! "retweet_count") in
  let replies := default 0 (metrics !! "reply_count") in
  mkViralTweet (vr_id raw) (vr_text raw) (vr_author_id raw) (vr_created_at raw)
               metrics (likes + retweets * 3 + replies * 2).

(** [l.sort(key=..., reverse=True)]: by decreasing key, equal keys in their
    original order. *)
Fixpoint insert_by {A} (key : A -> Z) (x : A) (l : list A) : list A :=
  match l with
  | [] => [x]
  | y :: rest => if key x <? key y then y :: insert_by key x rest else x :: l
  end.

Definition sort_desc_by {A} (key : A -> Z) (l : list A) : list A :=
  foldr (insert_by key) [] l.

(** [' OR '.join(keywords)] *)
Fixpoint join_or (keywords : list string) : string :=
  match keywords with
  | [] => ""
  | [k] => k
  | k :: rest => k +:+ " OR " +:+ join_or rest
  end.

(** [TaskScheduler._calculate_active_hours] computes these minutes and
    returns them divided by [60.0]. *)
Definition active_minutes (start_time end_time : Time) : Z :=
  let start_minutes := hour start_time * 60 + minute start_time in
  let end_minutes := hour end_time * 60 + minute end_time in
  if end_minutes <=? start_minutes
  then (24 * 60 - start_minutes) + end_minutes
  else end_minutes - start_minutes.

Section MoreBot.

Variable w : World.
Variable cfg : Config.

(** [client.get_tweet(id, tweet_fields=['public_metrics', ..])] and the
    search of [search_viral_tweets], by instant. *)
Variable get_tweet_with_metrics : nat -> string -> MetricsResp.
Variable search_viral : nat -> string -> ViralResp.

(** [TwitterAPIManager.reset_quota_counters] *)
Definition reset_quota_counters : M unit :=
  modify (set_quota (fun _ => fresh_usage));;
  now ← ask (utcnow w);
  modify (set_last_reset now).

(** [TwitterAPIManager.get_tweet_metrics] *)
Definition get_tweet_metrics (tweet_id : string) : M (option TweetStats) :=
  ok ← _check_quota w cfg "reads" 1;
  if negb ok then ret None
  else
    emit (EGetTweet tweet_id);;
    response ← ask (fun n => get_tweet_with_metrics n tweet_id);
    match response with
    | MetricsRaises => ret None
    | MetricsData None => ret None
    | MetricsData (Some tweet_data) =>
        collected ← ask (utcnow w);
        _update_quota "reads" 1;;
        ret (Some (mkTweetStats tweet_id
                     (metric (public_metrics tweet_data) "like_count")
                     (metric (public_metrics tweet_data) "retweet_count")
                     (metric (public_metrics tweet_data) "reply_count")
                     (metric (non_public_metrics tweet_data) "impression_count")
                     collected))
    end.

(** [TwitterAPIManager.search_viral_tweets]; the search is recorded with
    its query. *)
Definition search_viral_tweets (keywords : list string) (max_results : Z)
  : M (list ViralTweet) :=
  ok ← _check_quota w cfg "reads" max_results;
  if negb ok then ret []
  else
    let query := "(" +:+ join_or keywords +:+ ") lang:fr -is:retweet" in
    emit (ESearch query);;
    response ← ask (fun n => search_viral n query);
    match response with
    | ViralRaises => ret []
    | ViralData [] => ret []
    | ViralData tweets_data =>
        _update_quota "reads" (Z.of_nat (length tweets_data));;
        ret (sort_desc_by virality_score (map score_of tweets_data))
    end.

(** [StorageManager.reply_exists] *)
Definition reply_exists (rid : string) : M bool :=
  db ← gets supabase;
  match db with
  | None => ret false
  | Some rows => ret (existsb (has_reply_id rid) rows)
  end.

(** [ReplyHandler.force_startup_check] *)
Definition force_startup_check : M (option CycleStats) :=
  modify (set_startup false);;
  check_and_handle_replies w cfg.

(** [TaskScheduler._check_replies_job]; [reply_check_24h] is the setting
    [engagement.reply_check_24h]. *)
Definition _check_replies_job (reply_check_24h : bool) : M unit :=
  outside ← (if reply_check_24h
             then ret false
             else inside ← _is_in_posting_hours w cfg; ret (negb inside));
  if (outside : bool) then count_skipped
  else
    stats ← check_and_handle_replies w cfg;
    match stats with
    | None => count_failed
    | Some _ => count_successful
    end.

End MoreBot.

(** * Notions used to state the properties *)

(** The day of the calendar (UTC) a timestamp falls on. *)
Definition calendar_day (t : Z) : Z := t / day_us.

(** "If the wall-clock day has advanced since the last reset, all counters
    are zeroed and the reset timestamp updated", for one call of
    [_check_quota]. *)
Definition resets_when_day_advances (w : World) (cfg : Config)
    (operation : string) (count : Z) (s : Sys) : Prop :=
  calendar_day (last_quota_reset s) < calendar_day (utcnow w (tick s)) ->
  quota_usage (_check_quota w cfg operation count s).2 = fresh_usage /\
  last_quota_reset (_check_quota w cfg operation count s).2 = utcnow w (tick s).

(** Likes issued for a reply, and conversation counters incremented for
    it, as recorded in a trace. *)
Definition is_like_of (r : string) (e : Event) : bool :=
  match e with
  | ELike q => String.eqb q r
  | _ => false
  end.

Definition is_autoreply_to (r : string) (e : Event) : bool :=
  match e with
  | EAutoReplied _ q => String.eqb q r
  | _ => false
  end.

Definition likes_of (r : string) (tr : list Event) : nat :=
  length (List.filter (is_like_of r) tr).

Definition autoreplies_to (r : string) (tr : list Event) : nat :=
  length (List.filter (is_autoreply_to r) tr).

(** Auto-replies counted for a conversation. *)
Definition is_autoreply_in (conversation : string) (e : Event) : bool :=
  match e with
  | EAutoReplied c _ => String.eqb c conversation
  | _ => false
  end.

Definition autoreplies_in (conversation : string) (tr : list Event) : nat :=
  length (List.filter (is_autoreply_in conversation) tr).

(** The reply identifiers held by the persistent store, oldest row first. *)
Definition stored_ids (s : Sys) : list string :=
  match supabase s with
  | Some rows => map row_reply_id rows
  | None => []
  end.

(** The database client exists. *)
Definition connected (s : Sys) : bool :=
  match supabase s with
  | Some _ => true
  | None => false
  end.

(** What a computation may leave untouched: the stored rows, the cache and
    the account; and what was done for one reply. *)
Definition data_view (s : Sys) : option (list ReplyRow) * gset string * option string :=
  (supabase s, processed_replies s, bot_user_id s).

Definition acts_view (r : string) (s : Sys) : nat * nat :=
  (likes_of r (trace s), autoreplies_to r (trace s)).

Definition keeps {A B} (V : Sys -> B) (m : M A) : Prop :=
  forall s, V (m s).2 = V s.

(** Between two states, at most [dl] more likes and [da] more counted
    auto-replies for [r], and none taken back. *)
Definition grows (r : string) (dl da : nat) (s s' : Sys) : Prop :=
  (likes_of r (trace s) <= likes_of r (trace s') <= likes_of r (trace s) + dl)%nat /\
  (autoreplies_to r (trace s) <= autoreplies_to r (trace s')
     <= autoreplies_to r (trace s) + da)%nat.

(** A step taken for the reply [q] that leaves the stored identifiers and
    the cache alone. *)
Definition untouched_but (r : string) (dl da : nat) (q : string) (s s' : Sys) : Prop :=
  stored_ids s' = stored_ids s /\
  processed_replies s' = processed_replies s /\
  grows r dl da s s' /\
  (q <> r -> acts_view r s' = acts_view r s).

(** What holds between two states of one polling cycle, for a reply [r]:
    the cache and the table only grow, [r] is liked and answered at most
    once, only to end up cached and stored, and not at all when it was cached
    or stored to begin with. *)
Definition within_cycle (r : string) (s s' : Sys) : Prop :=
  processed_replies s ⊆ processed_replies s' /\
  (forall x, x ∈ stored_ids s -> x ∈ stored_ids s') /\
  grows r 1 1 s s' /\
  (acts_view r s' <> acts_view r s ->
     r ∈ processed_replies s' /\ r ∈ stored_ids s') /\
  (r ∈ processed_replies s \/ r ∈ stored_ids s -> acts_view r s' = acts_view r s).

(** The same across cycles, where the cache may have been trimmed,
    cleared or lost. *)
Definition lifetime (r : string) (s s' : Sys) : Prop :=
  (forall x, x ∈ stored_ids s -> x ∈ stored_ids s') /\
  grows r 1 1 s s' /\
  (acts_view r s' <> acts_view r s -> r ∈ stored_ids s') /\
  (r ∈ stored_ids s -> acts_view r s' = acts_view r s).

(** Every conversation counter is within the cap. *)
Definition counters_within (cap : Z) (s : Sys) : Prop :=
  Forall (fun kv : string * Z => kv.2 <= cap) (conversation_replies s).

(** A restart of the process: the constructors run again.  The quota
    counters, the cache, the conversation counters and the job tallies start
    afresh, the account is asked for again; the table is where it was. *)
Definition restart (w : World) : M unit :=
  emit EGetMe;;
  me ← ask (get_me w);
  now ← ask (utcnow w);
  modify (fun s => mkSys me fresh_usage now (supabase s) ∅ false [] 0 0 0
                         (tick s) (trace s)).

(** What may happen to a reply handler over time. *)
Inductive Op :=
  | OpCycle          (* check_and_handle_replies *)
  | OpResetCache     (* reset_processed_cache *)
  | OpRestart.

Definition run_op (w : World) (cfg : Config) (op : Op) : M unit :=
  match op with
  | OpCycle => check_and_handle_replies w cfg;; mret tt
  | OpResetCache => reset_processed_cache
  | OpRestart => restart w
  end.

Fixpoint run_ops (w : World) (cfg : Config) (ops : list Op) : M unit :=
  match ops with
  | [] => mret tt
  | op :: rest => run_op w cfg op;; run_ops w cfg rest
  end.

(** [n] firings of the posting job, one after the other. *)
Fixpoint run_jobs (w : World) (cfg : Config) (n : nat) : M unit :=
  match n with
  | O => mret tt
  | S k => _generate_and_post_job w cfg;; run_jobs w cfg k
  end.

(** "No more than L successful posts occur in one rolling day": whenever
    all the clock readings lie less than a day apart. *)
Definition at_most_limit_in_a_day (w : World) (cfg : Config) (n : nat) (s : Sys) : Prop :=
  (forall i j, utcnow w i - utcnow w j < day_us) ->
  successful (run_jobs w cfg n s).2 - successful s <= posts_per_day cfg.

(** "Inside [start, end]", a window with [start > end] wrapping midnight:
    after the start or before the end. *)
Definition inside_window (start_time end_time now : Time) : Prop :=
  if decide (time_key start_time <= time_key end_time)
  then time_key start_time <= time_key now <= time_key end_time
  else time_key start_time <= time_key now \/ time_key now <= time_key end_time.

(** "A firing outside the window is skipped; one inside is attempted", for
    one firing of the posting job. *)
Definition window_decides_attempt (w : World) (cfg : Config) (s : Sys) : Prop :=
  let now := local_now w (tick s) in
  let s' := (_generate_and_post_job w cfg s).2 in
  (~ inside_window (time_range_start cfg) (time_range_end cfg) now ->
     skipped s' = skipped s + 1 /\ trace s' = trace s) /\
  (inside_window (time_range_start cfg) (time_range_end cfg) now ->
     exists text, ECreateTweet text None ∈ trace s').

(** The cache after the identifiers of [history] were added one by one,
    the first of the list first. *)
Definition cache_after (history : list string) : gset string :=
  foldl (fun cache rid => {[rid]} ∪ cache) ∅ history.

(** What Python promises of [list(s)] for a set [s]: its elements, each
    once, in some order. *)
Definition set_iter_lists_elements (w : World) : Prop :=
  forall s, set_iter w s ≡ₚ elements s.

(** The counter of an operation is within its daily limit, where it has
    one. *)
Definition usage_within (cfg : Config) (operation : string) (s : Sys) : Prop :=
  forall daily_limit, daily_limit_of cfg operation = Some daily_limit ->
    0 < daily_limit -> usage_of operation s <= daily_limit.

Definition quota_respected (cfg : Config) (s : Sys) : Prop :=
  forall operation, usage_within cfg operation s.

(** The page size [get_tweet_replies] asks the search for:
    [min(max(max_results, 10), 100)]. *)
Definition search_page_size (max_results : Z) : Z :=
  Z.min (Z.max max_results 10) 100.

(** The platform never answers a search with more than [n] tweets. *)
Definition answers_at_most (w : World) (n : Z) : Prop :=
  forall i q tweets_data,
    search_recent_tweets w i q = SearchData tweets_data ->
    Z.of_nat (length tweets_data) <= n.

(** A property of the state that a computation hands on. *)
Definition preserves {A} (P : Sys -> Prop) (m : M A) : Prop :=
  forall s, P s -> P (m s).2.

(** The tallies of the scheduler, and how many firings they account for. *)
Definition job_stats (s : Sys) : Z * Z * Z := (successful s, failed s, skipped s).

Definition firings (s : Sys) : Z := successful s + failed s + skipped s.

(** Counted auto-replies, likes asked of the platform and tweets submitted
    to it, as recorded in a trace. *)
Definition is_autoreplied (e : Event) : bool :=
  match e with
  | EAutoReplied _ _ => true
  | _ => false
  end.

Definition is_like (e : Event) : bool :=
  match e with
  | ELike _ => true
  | _ => false
  end.

Definition is_create (e : Event) : bool :=
  match e with
  | ECreateTweet _ _ => true
  | _ => false
  end.

Definition count_events (p : Event -> bool) (tr : list Event) : Z :=
  Z.of_nat (length (List.filter p tr)).

(** A time of day as [datetime.time] accepts it, and its minute of the
    day. *)
Definition valid_time (t : Time) : Prop :=
  0 <= hour t < 24 /\ 0 <= minute t < 60 /\
  0 <= second t < 60 /\ 0 <= microsecond t < 1000000.

Definition minute_of_day (t : Time) : Z := hour t * 60 + minute t.

(** The rows of the table that hold a given reply. *)
Definition rows_of (rid : string) (s : Sys) : list ReplyRow :=
  match supabase s with
  | Some rows => List.filter (has_reply_id rid) rows
  | None => []
  end.

(** The statistics of a scan against what happened, between two of its
    points: the tweets checked and the kind of scan are as they were; every
    reply counted as sent was counted for its conversation and submitted;
    every like counted was asked of the platform; and nothing is counted
    that was not first counted as a new reply. *)
Definition accounted (p p' : CycleStats * Sys) : Prop :=
  let st := p.1 in
  let st' := p'.1 in
  let tr := trace p.2 in
  let tr' := trace p'.2 in
  checked_tweets st' = checked_tweets st /\
  startup_check st' = startup_check st /\
  replies_sent st' - replies_sent st
    = count_events is_autoreplied tr' - count_events is_autoreplied tr /\
  replies_sent st' - replies_sent st
    <= count_events is_create tr' - count_events is_create tr /\
  0 <= likes_sent st' - likes_sent st
    <= count_events is_like tr' - count_events is_like tr /\
  0 <= replies_sent st' - replies_sent st <= new_replies st' - new_replies st /\
  likes_sent st' - likes_sent st <= new_replies st' - new_replies st.

(** The account is [bot], and [rid] has been liked [n] times. *)
Definition liked_times (bot : option string) (rid : string) (n : nat) (s : Sys) : Prop :=
  bot_user_id s = bot /\ likes_of rid (trace s) = n.

(** Every row marked as liked is the row of a reply for which a like was
    asked of the platform. *)
Definition likes_recorded_truthfully (s : Sys) : Prop :=
  forall row, row ∈ default [] (supabase s) -> row_liked row = true ->
    ELike (row_reply_id row) ∈ trace s.

(** No reply is held by two rows. *)
Definition one_row_per_reply (s : Sys) : Prop := NoDup (stored_ids s).

(** * Scenarios *)

(** A state as the constructors leave it, and a world in which nothing is
    found and every call is answered favourably; the worlds of the examples
    below are variations of it. *)
Definition initial_sys (bot : option string) (db : option (list ReplyRow)) : Sys :=
  mkSys bot fresh_usage 0 db ∅ false [] 0 0 0 0%nat [].

Definition calm_world : World :=
  mkWorld (fun _ => 0) (fun _ => hm 12 0)
          (fun _ _ => SearchData [])
          (fun _ _ => GetTweetData (Some (Some "alice")))
          (fun _ => Some "bot")
          (fun _ _ => LikeData true)
          (fun n _ _ => Some ("tweet-" +:+ pretty n))
          (fun _ _ => None)
          (fun _ _ => Some "alice")
          (fun _ _ => Some "Thanks for your reply!")
          (fun _ => Generated (Some "Good morning") None)
          (fun _ _ => [])
          (fun n => "row-" +:+ pretty n)
          elements.

Definition basic_config : Config :=
  mkConfig 5 100 100 true true 1 (hm 9 0) (hm 21 0).

(** The same world with another clock. *)
Definition with_utcnow (clock : nat -> Z) (w : World) : World :=
  mkWorld clock (local_now w) (search_recent_tweets w) (get_tweet w) (get_me w)
          (like w) (create_tweet w) (media_upload w) (get_user w)
          (llm_generate_reply w) (generate_complete_post w) (get_recent_tweets w)
          (new_row_id w) (set_iter w).

(** Last reset at 23:00 with the five posts of the day used up; in
    [after_midnight_world] the next check comes at 00:30. *)
Definition late_evening_sys : Sys :=
  mkSys (Some "bot") (<["posts" := 5]> fresh_usage) 82800000000 (Some [])
        ∅ false [] 0 0 0 0%nat [].

Definition after_midnight_world : World :=
  with_utcnow (fun _ => 88200000000) calm_world.

(** A limit of two posts a day; the first firing comes one second before
    the counters are a day old, the next two right after. *)
Definition two_a_day : Config :=
  mkConfig 2 100 100 true true 1 (hm 9 0) (hm 21 0).

Definition day_turns_world : World :=
  with_utcnow (fun n => if (n <? 4)%nat then 86399000000 else 86400000000) calm_world.

(** The page of the example: the cache holds r1 and r2, the table r2 and
    r3, and r1 .. r4 are discovered under the owned tweet t1. *)
Definition row_of (rid : string) : ReplyRow :=
  mkRow ("row-" +:+ rid) rid "t1" (Some "alice") "hello" 0 false.

Definition reply_of (rid : string) : Reply :=
  mkReply rid "t1" (Some "alice") "hello" 0 false.

Definition example_sys : Sys :=
  mkSys (Some "bot") fresh_usage 0 (Some [row_of "r2"; row_of "r3"])
        {["r1"; "r2"]} true [] 0 0 0 0%nat [].

Definition example_page : list Reply :=
  [reply_of "r1"; reply_of "r2"; reply_of "r3"; reply_of "r4"].

Definition no_stats : CycleStats := mkStats 0 0 0 0 0 false.

(** A table holding r1, already liked. *)
Definition liked_r1_sys : Sys :=
  mkSys (Some "bot") fresh_usage 0 (Some [with_liked (row_of "r1")])
        ∅ true [] 0 0 0 0%nat [].

(** A world in which the owned tweet t1 has one reply, r1, by alice. *)
Definition one_reply_world : World :=
  mkWorld (fun _ => 0) (fun _ => hm 12 0)
          (fun _ tweet_id =>
             SearchData [mkRaw "r1" (Some tweet_id) (Some "alice") "nice" (Some 0)])
          (fun _ _ => GetTweetData (Some (Some "alice")))
          (fun _ => Some "bot")
          (fun _ _ => LikeData true)
          (fun n _ _ => Some ("tweet-" +:+ pretty n))
          (fun _ _ => None)
          (fun _ _ => Some "alice")
          (fun _ _ => Some "Thanks for your reply!")
          (fun _ => Generated (Some "Good morning") None)
          (fun _ _ => ["t1"])
          (fun n => "row-" +:+ pretty n)
          elements.

(** A world in which looking a tweet up answers without [data] (as for a
    tweet that is deleted or not visible), everything else as in
    [one_reply_world]. *)
Definition no_data_world : World :=
  mkWorld (fun _ => 0) (fun _ => hm 12 0)
          (fun _ tweet_id =>
             SearchData [mkRaw "r1" (Some tweet_id) (Some "alice") "nice" (Some 0)])
          (fun _ _ => GetTweetData None)
          (fun _ => Some "bot")
          (fun _ _ => LikeData true)
          (fun n _ _ => Some ("tweet-" +:+ pretty n))
          (fun _ _ => None)
          (fun _ _ => Some "alice")
          (fun _ _ => Some "Thanks for your reply!")
          (fun _ => Generated (Some "Good morning") None)
          (fun _ _ => ["t1"])
          (fun n => "row-" +:+ pretty n)
          elements.

(** The states of the deep-scan scenario: one polling cycle, a restart, then
    [manual_deep_scan(30)]. *)
Definition after_first_cycle : Sys :=
  (check_and_handle_replies one_reply_world basic_config
     (initial_sys (Some "bot") (Some []))).2.

Definition after_restart : Sys := (restart one_reply_world after_first_cycle).2.

Definition after_deep_scan : Sys :=
  (manual_deep_scan one_reply_world basic_config 30 after_restart).2.

(** 101 owned tweets, t0 to t100; in a first round each gets a reply, in a
    second round each gets another one.  At most one auto-reply per
    conversation is configured, likes are off, the quotas are generous. *)
Definition many_tweets : list string :=
  map (fun n => "t" +:+ pretty n) (seq 0 101).

Definition round_world (round : string) : World :=
  mkWorld (fun _ => 0) (fun _ => hm 12 0)
          (fun _ tweet_id =>
             SearchData [mkRaw (round +:+ "-" +:+ tweet_id) (Some tweet_id)
                               (Some "alice") "nice" (Some 0)])
          (fun _ _ => GetTweetData (Some (Some "alice")))
          (fun _ => Some "bot")
          (fun _ _ => LikeData true)
          (fun n _ _ => Some ("tweet-" +:+ pretty n))
          (fun _ _ => None)
          (fun _ _ => Some "alice")
          (fun _ _ => Some "Thanks for your reply!")
          (fun _ => Generated (Some "Good morning") None)
          (fun _ _ => many_tweets)
          (fun n => "row-" +:+ pretty n)
          elements.

Definition one_per_conversation : Config :=
  mkConfig 1000 100000 1000 false true 1 (hm 9 0) (hm 21 0).

Definition after_first_round : Sys :=
  (check_and_handle_replies (round_world "a") one_per_conversation
     (initial_sys (Some "bot") (Some []))).2.

Definition after_second_round : Sys :=
  (check_and_handle_replies (round_world "b") one_per_conversation
     after_first_round).2.

(** 1001 identifiers, "0" to "1000". *)
Definition thousand_and_one : list string := map pretty (seq 0 1001).

(** The world of [one_reply_world], except that every look-up of a tweet
    names the bot as its author. *)
Definition own_reply_world : World :=
  mkWorld (fun _ => 0) (fun _ => hm 12 0)
          (fun _ tweet_id =>
             SearchData [mkRaw "r1" (Some tweet_id) (Some "alice") "nice" (Some 0)])
          (fun _ _ => GetTweetData (Some (Some "bot")))
          (fun _ => Some "bot")
          (fun _ _ => LikeData true)
          (fun n _ _ => Some ("tweet-" +:+ pretty n))
          (fun _ _ => None)
          (fun _ _ => Some "alice")
          (fun _ _ => Some "Thanks for your reply!")
          (fun _ => Generated (Some "Good morning") None)
          (fun _ _ => ["t1"])
          (fun n => "row-" +:+ pretty n)
          elements.

(** A world in which every search is answered with a full page of ten
    tweets, and a state in which [n] reads of the day are used up. *)
Definition full_pages_world : World :=
  mkWorld (fun _ => 0) (fun _ => hm 12 0)
          (fun _ tweet_id =>
             SearchData (replicate 10
               (mkRaw "r1" (Some tweet_id) (Some "alice") "nice" (Some 0))))
          (fun _ _ => GetTweetData (Some (Some "alice")))
          (fun _ => Some "bot")
          (fun _ _ => LikeData true)
          (fun n _ _ => Some ("tweet-" +:+ pretty n))
          (fun _ _ => None)
          (fun _ _ => Some "alice")
          (fun _ _ => Some "Thanks for your reply!")
          (fun _ => Generated (Some "Good morning") None)
          (fun _ _ => ["t1"])
          (fun n => "row-" +:+ pretty n)
          elements.

Definition reads_used (n : Z) : Sys :=
  mkSys (Some "bot") (<["reads" := n]> fresh_usage) 0 (Some [])
        ∅ false [] 0 0 0 0%nat [].

(** A configuration whose likes limit is zero. *)
Definition no_like_limit : Config :=
  mkConfig 5 100 0 true true 1 (hm 9 0) (hm 21 0).

(** * Properties *)

(** ** Unfolding the monad *)

Ltac munfold :=
  unfold mbind, M_bind, mret, M_ret, bind, ret, gets, modify, ask, emit in *.

Section Keeps.

Context {B : Type} (V : Sys -> B).

Lemma keeps_ret {A} (a : A) : keeps V (mret a).
Proof. by intros s. Qed.

Lemma keeps_bind {A C} (m : M A) (k : A -> M C) :
  keeps V m -> (forall a, keeps V (k a)) -> keeps V (m ≫= k).
Proof.
  intros Hm Hk s. unfold mbind, M_bind, bind.
  specialize (Hm s). destruct (m s) as [a s1]. cbn in *.
  by rewrite Hk.
Qed.

Lemma keeps_gets {A} (f : Sys -> A) : keeps V (gets f).
Proof. by intros s. Qed.

Lemma keeps_modify (f : Sys -> Sys) : (forall s, V (f s) = V s) -> keeps V (modify f).
Proof. intros H s. apply H. Qed.

Lemma keeps_ask {A} (f : nat -> A) :
  (forall n s, V (set_tick n s) = V s) -> keeps V (ask f).
Proof. intros H s. apply H. Qed.

Lemma keeps_emit (e : Event) :
  (forall s, V (set_trace (cons e) s) = V s) -> keeps V (emit e).
Proof. intros H s. apply H. Qed.

Lemma keeps_map {A C} (g : B -> C) (m : M A) :
  keeps V m -> keeps (fun s => g (V s)) m.
Proof. intros H s. by rewrite H. Qed.

Lemma keeps_foldM {A C} (f : C -> A -> M C) (l : list A) (c : C) :
  (forall c a, keeps V (f c a)) -> keeps V (foldM f l c).
Proof.
  intros Hf. revert c. induction l as [|a l IH]; intros c; cbn.
  - apply keeps_ret.
  - apply keeps_bind; [apply Hf | intros; apply IH].
Qed.

End Keeps.

Create HintDb keeps discriminated.

Ltac keeps_step :=
  lazymatch goal with
  | |- keeps _ (mret _) => apply keeps_ret
  | |- keeps _ (ret _) => apply (keeps_ret _)
  | |- keeps _ (mbind _ _) => apply keeps_bind; [|intros ?]
  | |- keeps _ (gets _) => apply keeps_gets
  | |- keeps _ (modify _) => apply keeps_modify; intros; reflexivity
  | |- keeps _ (ask _) => apply keeps_ask; intros; reflexivity
  | |- keeps _ (emit _) =>
      first [ apply keeps_emit; intros; reflexivity | solve [eauto with keeps] ]
  | |- keeps _ (foldM _ _ _) => apply keeps_foldM; intros
  | |- keeps _ (match ?x with _ => _ end) => destruct x
  | |- keeps _ _ => solve [eauto with keeps]
  end.

Ltac keeps_auto := repeat keeps_step.

(** Case analysis on whatever a computation branches on. *)
Ltac mbreak :=
  repeat (cbn;
    match goal with
    | |- context [match ?x with _ => _ end] =>
        lazymatch x with
        | context [match _ with _ => _ end] => fail
        | _ => destruct x eqn:?
        end
    end);
  cbn.

Lemma String_eqb_refl (a : string) : String.eqb a a = true.
Proof. apply String.eqb_eq. reflexivity. Qed.

Lemma opt_string_eqb_true (a b : option string) :
  opt_string_eqb a b = true <-> a = b.
Proof. unfold opt_string_eqb. apply bool_decide_eq_true. Qed.

(** ** The quota tracker *)

Section Quota.

Variable w : World.
Variable cfg : Config.

Lemma usage_of_fresh operation s :
  usage_of operation (set_last_reset (utcnow w (tick s)) (set_quota (fun _ => fresh_usage) s)) = 0.
Proof.
  unfold usage_of, fresh_usage. cbn.
  destruct (decide (operation = "posts")) as [->|H1]; [by rewrite lookup_insert_eq|].
  rewrite lookup_insert_ne by done.
  destruct (decide (operation = "reads")) as [->|H2]; [by rewrite lookup_insert_eq|].
  rewrite lookup_insert_ne by done.
  destruct (decide (operation = "likes")) as [->|H3]; [by rewrite lookup_insert_eq|].
  by rewrite lookup_insert_ne.
Qed.

(** Less than a day after the last reset, the check only reads. *)
Lemma _check_quota_no_reset operation count s :
  timedelta_days (utcnow w (tick s) - last_quota_reset s) < 1 ->
  _check_quota w cfg operation count s =
    (negb (exceeds (daily_limit_of cfg operation) (usage_of operation s) count),
     set_tick (S (tick s)) s).
Proof.
  intros Hd. unfold _check_quota. munfold. cbn.
  destruct (1 <=? _) eqn:E; [apply Z.leb_le in E; lia|].
  cbn. by destruct (exceeds _ _ _).
Qed.

(** From a day on, the counters are zeroed first. *)
Lemma _check_quota_reset operation count s :
  1 <= timedelta_days (utcnow w (tick s) - last_quota_reset s) ->
  _check_quota w cfg operation count s =
    (negb (exceeds (daily_limit_of cfg operation) 0 count),
     set_last_reset (utcnow w (tick s))
       (set_quota (fun _ => fresh_usage) (set_tick (S (tick s)) s))).
Proof.
  intros Hd. unfold _check_quota. munfold. cbn.
  destruct (1 <=? _) eqn:E; [|apply Z.leb_gt in E; lia].
  cbn.
  pose proof (usage_of_fresh operation (set_tick (S (tick s)) s)) as Hu.
  cbn in Hu. unfold usage_of in *. cbn in *. rewrite Hu.
  by destruct (exceeds _ _ _).
Qed.

Lemma timedelta_days_ge_1 delta : 1 <= timedelta_days delta <-> day_us <= delta.
Proof.
  unfold timedelta_days, day_us. split; intros H.
  - pose proof (Z.mul_div_le delta 86400000000 eq_refl). lia.
  - apply Z.div_le_lower_bound; lia.
Qed.

End Quota.

(** ** C4: when the counters are reset *)

(** C4, as stated, fails: the last reset was at 23:00 and the check comes at
    00:30 of the next calendar day, yet nothing is reset. *)
Lemma C4_counterexample :
  ~ resets_when_day_advances after_midnight_world basic_config "posts" 1 late_evening_sys.
Proof.
  unfold resets_when_day_advances. intros H.
  destruct H as [Hq _]; [by vm_compute|].
  apply (f_equal (fun m => m !! "posts")) in Hq.
  vm_compute in Hq. discriminate.
Qed.

(** At that check the sixth post of the evening before is still refused. *)
Lemma late_evening_check_refused :
  (_check_quota after_midnight_world basic_config "posts" 1 late_evening_sys).1 = false.
Proof. by vm_compute. Qed.

(** C4 (amended): a call of [_check_quota] made at least one whole day
    (24 hours) after the last reset first zeroes the posts, reads and likes
    counters and moves the reset timestamp to the current time, and only then
    compares, so its answer depends on the zeroed counters; a call made
    earlier leaves counters and timestamp as they are. *)
Theorem C4_reset_after_one_day (w : World) (cfg : Config)
    (operation : string) (count : Z) (s : Sys) :
  let now := utcnow w (tick s) in
  let r := _check_quota w cfg operation count s in
  (day_us <= now - last_quota_reset s ->
     quota_usage r.2 = fresh_usage /\
     last_quota_reset r.2 = now /\
     r.1 = negb (exceeds (daily_limit_of cfg operation) 0 count)) /\
  (now - last_quota_reset s < day_us ->
     quota_usage r.2 = quota_usage s /\
     last_quota_reset r.2 = last_quota_reset s /\
     r.1 = negb (exceeds (daily_limit_of cfg operation) (usage_of operation s) count)).
Proof.
  cbv zeta. split; intros Hd.
  - rewrite _check_quota_reset by (by apply timedelta_days_ge_1). by cbn.
  - rewrite _check_quota_no_reset; [by cbn|].
    destruct (Z.lt_ge_cases (timedelta_days (utcnow w (tick s) - last_quota_reset s)) 1)
      as [?|Hge]; [done|].
    apply timedelta_days_ge_1 in Hge. lia.
Qed.

Lemma C4_reset_after_one_day_witness :
  quota_usage (_check_quota (with_utcnow (fun _ => 200000000000) calm_world)
                 basic_config "posts" 1 late_evening_sys).2 = fresh_usage.
Proof.
  refine (proj1 (proj1 (C4_reset_after_one_day
            (with_utcnow (fun _ => 200000000000) calm_world)
            basic_config "posts" 1 late_evening_sys) _)).
  cbn. unfold day_us. lia.
Defined.

(** ** C10: [save_reply] on a stored identifier *)

Lemma filter_has_reply_id_nonempty rid (rows : list ReplyRow) :
  rid ∈ map row_reply_id rows ->
  exists existing rest, List.filter (has_reply_id rid) rows = existing :: rest.
Proof.
  intros Hin. apply list_elem_of_In, in_map_iff in Hin as (row & Hrid & Hrow).
  assert (In row (List.filter (has_reply_id rid) rows)) as Hf.
  { apply filter_In. split; [done|]. unfold has_reply_id. rewrite Hrid.
    apply String_eqb_refl. }
  destruct (List.filter _ rows) as [|existing rest]; [done|]. eauto.
Qed.

Lemma update_liked_keeps_liked rid (rows : list ReplyRow) i old :
  rows !! i = Some old -> row_liked old = true ->
  update_liked rid rows !! i = Some old.
Proof.
  intros Hi Hl. unfold update_liked.
  change (map ?f rows) with (f <$> rows). rewrite list_lookup_fmap, Hi. cbn.
  destruct (has_reply_id rid old); [|done].
  destruct old; cbn in *; subst; done.
Qed.

(** C10: when the identifier of the reply is already stored, [save_reply]
    answers the identifier of the stored record; with [liked] false the whole
    state, and so the record, is left as it is; and whatever the incoming
    flag, a stored row whose [liked] is true stays exactly as it was. *)
Theorem C10_save_reply_frame (w : World) (s : Sys) (rows : list ReplyRow) (reply : Reply) :
  supabase s = Some rows ->
  reply_id reply ∈ map row_reply_id rows ->
  (exists existing, existing ∈ rows /\ row_reply_id existing = reply_id reply /\
      (save_reply w reply s).1 = Some (row_id existing)) /\
  (liked reply = false -> (save_reply w reply s).2 = s) /\
  (exists rows', supabase (save_reply w reply s).2 = Some rows' /\
      length rows' = length rows /\
      forall i old, rows !! i = Some old -> row_liked old = true -> rows' !! i = Some old).
Proof.
  intros Hdb Hin.
  destruct (filter_has_reply_id_nonempty _ _ Hin) as (existing & rest & Hf).
  assert (In existing (List.filter (has_reply_id (reply_id reply)) rows)) as Hex
    by (rewrite Hf; by left).
  apply filter_In in Hex as [Hex Hid]. apply String.eqb_eq in Hid.
  unfold save_reply. munfold. cbn. rewrite Hdb, Hf.
  destruct (liked reply) eqn:Hl; cbn.
  - split; [exists existing; by rewrite <- list_elem_of_In in Hex|].
    split; [done|]. eexists. split; [done|]. split.
    + unfold update_liked. by rewrite length_map.
    + intros i old. apply update_liked_keeps_liked.
  - split; [exists existing; by rewrite <- list_elem_of_In in Hex|].
    split; [done|]. exists rows. by rewrite Hdb.
Qed.

Lemma C10_save_reply_frame_witness :
  (save_reply calm_world (reply_of "r1") liked_r1_sys).2 = liked_r1_sys.
Proof.
  refine (proj1 (proj2 (C10_save_reply_frame calm_world liked_r1_sys
            [with_liked (row_of "r1")] (reply_of "r1") eq_refl _)) eq_refl).
  cbn. by left.
Defined.

(** ** What each method leaves untouched *)

Section Frames.

Variable w : World.
Variable cfg : Config.
Variable r : string.

Lemma _check_quota_data operation count : keeps data_view (_check_quota w cfg operation count).
Proof. unfold _check_quota. keeps_auto. Qed.

Lemma _check_quota_trace operation count : keeps trace (_check_quota w cfg operation count).
Proof. unfold _check_quota. keeps_auto. Qed.

Lemma _update_quota_data operation count : keeps data_view (_update_quota operation count).
Proof. unfold _update_quota. keeps_auto. Qed.

Lemma _update_quota_trace operation count : keeps trace (_update_quota operation count).
Proof. unfold _update_quota. keeps_auto. Qed.

Lemma keeps_acts_of_trace {A} (m : M A) : keeps trace m -> keeps (acts_view r) m.
Proof. intros H s. unfold acts_view. by rewrite H. Qed.

Hint Resolve _check_quota_data _check_quota_trace _update_quota_data
  _update_quota_trace : keeps.
Hint Extern 5 (keeps (acts_view _) _) =>
  (apply keeps_acts_of_trace; solve [eauto with keeps]) : keeps.

Lemma emit_like_other q : q <> r -> keeps (acts_view r) (emit (ELike q)).
Proof.
  intros Hq s. unfold acts_view, likes_of, autoreplies_to. cbn.
  apply String.eqb_neq in Hq. by rewrite Hq.
Qed.

Lemma emit_autoreplied_other conv q : q <> r -> keeps (acts_view r) (emit (EAutoReplied conv q)).
Proof.
  intros Hq s. unfold acts_view, likes_of, autoreplies_to. cbn.
  apply String.eqb_neq in Hq. by rewrite Hq.
Qed.

Hint Resolve emit_like_other emit_autoreplied_other : keeps.

Lemma post_tweet_data text image reply_to :
  keeps data_view (post_tweet w cfg text image reply_to).
Proof. unfold post_tweet. keeps_auto. Qed.

Lemma post_tweet_acts text image reply_to :
  keeps (acts_view r) (post_tweet w cfg text image reply_to).
Proof. unfold post_tweet. keeps_auto. Qed.

Lemma post_tweet_conversations text image reply_to :
  keeps conversation_replies (post_tweet w cfg text image reply_to).
Proof. unfold post_tweet, _check_quota, _update_quota. keeps_auto. Qed.

Lemma like_tweet_data q : keeps data_view (like_tweet w cfg q).
Proof. unfold like_tweet. keeps_auto. Qed.

Lemma like_tweet_other q : q <> r -> keeps (acts_view r) (like_tweet w cfg q).
Proof. intros Hq. unfold like_tweet. keeps_auto. Qed.

Lemma collect_replies_data bot tweet_id tweets_data :
  keeps data_view (collect_replies w bot tweet_id tweets_data).
Proof. induction tweets_data as [|tweet rest IH]; cbn; keeps_auto. Qed.

Lemma collect_replies_trace bot tweet_id tweets_data :
  keeps trace (collect_replies w bot tweet_id tweets_data).
Proof. induction tweets_data as [|tweet rest IH]; cbn; keeps_auto. Qed.

Hint Resolve post_tweet_data post_tweet_acts like_tweet_data like_tweet_other
  collect_replies_data collect_replies_trace : keeps.

Lemma get_tweet_replies_data tweet_id max_results :
  keeps data_view (get_tweet_replies w cfg tweet_id max_results).
Proof. unfold get_tweet_replies. keeps_auto. Qed.

Lemma get_tweet_replies_acts tweet_id max_results :
  keeps (acts_view r) (get_tweet_replies w cfg tweet_id max_results).
Proof. unfold get_tweet_replies. keeps_auto. Qed.

Lemma _auto_like_reply_data q : keeps data_view (_auto_like_reply w cfg q).
Proof. unfold _auto_like_reply. keeps_auto. Qed.

Lemma _auto_like_reply_other q : q <> r -> keeps (acts_view r) (_auto_like_reply w cfg q).
Proof. intros Hq. unfold _auto_like_reply. keeps_auto. Qed.

Lemma _generate_reply_content_data reply : keeps data_view (_generate_reply_content w reply).
Proof. unfold _generate_reply_content. keeps_auto. Qed.

Lemma _generate_reply_content_acts reply :
  keeps (acts_view r) (_generate_reply_content w reply).
Proof. unfold _generate_reply_content. keeps_auto. Qed.

Hint Resolve get_tweet_replies_data get_tweet_replies_acts _auto_like_reply_data
  _auto_like_reply_other _generate_reply_content_data _generate_reply_content_acts : keeps.

Lemma _auto_reply_to_comment_data reply : keeps data_view (_auto_reply_to_comment w cfg reply).
Proof. unfold _auto_reply_to_comment. keeps_auto. Qed.

Lemma _auto_reply_to_comment_other reply :
  reply_id reply <> r -> keeps (acts_view r) (_auto_reply_to_comment w cfg reply).
Proof. intros Hq. unfold _auto_reply_to_comment. keeps_auto. Qed.

Lemma save_reply_trace reply : keeps trace (save_reply w reply).
Proof. unfold save_reply. keeps_auto. Qed.

Lemma mark_reply_liked_trace q : keeps trace (mark_reply_liked q).
Proof. unfold mark_reply_liked. keeps_auto. Qed.

Lemma get_existing_reply_ids_id ids : keeps id (get_existing_reply_ids ids).
Proof. unfold get_existing_reply_ids. keeps_auto. Qed.

Hint Resolve _auto_reply_to_comment_data _auto_reply_to_comment_other
  save_reply_trace mark_reply_liked_trace : keeps.

Lemma grows_refl_of_keeps s s' : acts_view r s' = acts_view r s -> grows r 0 0 s s'.
Proof. unfold acts_view, grows. intros [= -> ->]. lia. Qed.

Lemma grows_trans a b c d s1 s2 s3 :
  grows r a b s1 s2 -> grows r c d s2 s3 -> grows r (a + c) (b + d) s1 s3.
Proof. unfold grows. lia. Qed.

Lemma grows_weaken a b c d s1 s2 :
  (a <= c)%nat -> (b <= d)%nat -> grows r a b s1 s2 -> grows r c d s1 s2.
Proof. unfold grows. lia. Qed.

Lemma like_tweet_grows q s : grows r 1 0 s (like_tweet w cfg q s).2.
Proof.
  unfold like_tweet. munfold.
  pose proof (_check_quota_trace "likes" 1 s) as Ht.
  destruct (_check_quota w cfg "likes" 1 s) as [ok s1]. cbn in Ht.
  unfold grows, likes_of, autoreplies_to.
  mbreak; rewrite ?Ht; lia.
Qed.

Lemma _auto_like_reply_grows q s : grows r 1 0 s (_auto_like_reply w cfg q s).2.
Proof.
  unfold _auto_like_reply. munfold. cbn.
  destruct (truthy (bot_user_id s)); cbn.
  - destruct (get_tweet w (tick s) q) as [|[a|]]; cbn;
      try destruct (opt_string_eqb a (bot_user_id s)); cbn;
      try (unfold grows, likes_of, autoreplies_to; cbn; lia);
      match goal with
      | |- grows r 1 0 s (like_tweet w cfg q ?s0).2 =>
          apply (grows_trans 0 0 1 0 s s0); [|apply like_tweet_grows];
          unfold grows, likes_of, autoreplies_to; cbn; lia
      end.
  - apply like_tweet_grows.
Qed.

Lemma _auto_reply_to_comment_grows reply s :
  grows r 0 1 s (_auto_reply_to_comment w cfg reply s).2.
Proof.
  unfold _auto_reply_to_comment. munfold. cbn.
  destruct (_ <=? _); cbn; [unfold grows; lia|].
  pose proof (_generate_reply_content_acts reply s) as Hg.
  destruct (_generate_reply_content w reply s) as [[text|] s1]; cbn in *;
    [|by apply (grows_weaken 0 0); [lia|lia|apply grows_refl_of_keeps]].
  pose proof (post_tweet_acts text None (Some (reply_id reply)) s1) as Hp.
  destruct (post_tweet _ _ _ _ _ s1) as [tid s2]. cbn in *.
  rewrite Hg in Hp. unfold acts_view in Hp. injection Hp as Hl Ha.
  unfold grows, likes_of, autoreplies_to in *.
  destruct (truthy tid); cbn; [destruct (String.eqb _ r); cbn|]; lia.
Qed.

Lemma update_liked_ids q (rows : list ReplyRow) :
  map row_reply_id (update_liked q rows) = map row_reply_id rows.
Proof.
  unfold update_liked. rewrite map_map. apply map_ext.
  intros row. by destruct (has_reply_id q row).
Qed.

Lemma mark_reply_liked_stored q : keeps stored_ids (mark_reply_liked q).
Proof.
  intros s. unfold mark_reply_liked, stored_ids. munfold. cbn.
  destruct (supabase s) as [rows|] eqn:E; cbn; [|by rewrite E].
  apply update_liked_ids.
Qed.

Lemma mark_reply_liked_processed q : keeps processed_replies (mark_reply_liked q).
Proof. unfold mark_reply_liked. keeps_auto. Qed.

Lemma stored_ids_of_data s s' : data_view s' = data_view s -> stored_ids s' = stored_ids s.
Proof. unfold data_view, stored_ids. by intros [= -> _ _]. Qed.

Lemma processed_of_data s s' :
  data_view s' = data_view s -> processed_replies s' = processed_replies s.
Proof. unfold data_view. by intros [= _ -> _]. Qed.

(** Liking and answering leave the cache and the stored identifiers alone
    and act at most once each. *)
Lemma like_if_enabled_effect reply stats s :
  untouched_but r 1 0 (reply_id reply) s (like_if_enabled w cfg reply stats s).2.
Proof.
  unfold like_if_enabled, untouched_but. munfold.
  destruct (auto_like_replies cfg); cbn; [|split_and!; try done; unfold grows; lia].
  pose proof (_auto_like_reply_grows (reply_id reply) s) as Hg.
  pose proof (_auto_like_reply_data (reply_id reply) s) as Hd.
  pose proof (fun H => _auto_like_reply_other (reply_id reply) H s) as Ho.
  destruct (_auto_like_reply w cfg (reply_id reply) s) as [ok s0]. cbn in *.
  destruct ok; cbn.
  - pose proof (mark_reply_liked_stored (reply_id reply) s0) as Hm.
    pose proof (mark_reply_liked_processed (reply_id reply) s0) as Hmp.
    pose proof (mark_reply_liked_trace (reply_id reply) s0) as Hmt.
    destruct (mark_reply_liked (reply_id reply) s0) as [b s1]. cbn in *.
    rewrite Hm, Hmp, (stored_ids_of_data _ _ Hd), (processed_of_data _ _ Hd).
    split_and!; [done|done| |].
    + unfold grows in *. by rewrite Hmt.
    + intros Hne. specialize (Ho Hne).
      unfold acts_view in *. by rewrite Hmt.
  - rewrite (stored_ids_of_data _ _ Hd), (processed_of_data _ _ Hd).
    split_and!; [done|done|done|]. intros Hne. apply (Ho Hne).
Qed.

Lemma answer_if_enabled_effect reply stats s :
  untouched_but r 0 1 (reply_id reply) s (answer_if_enabled w cfg reply stats s).2.
Proof.
  unfold answer_if_enabled, untouched_but. munfold.
  destruct (auto_reply_enabled cfg); cbn; [|split_and!; try done; unfold grows; lia].
  pose proof (_auto_reply_to_comment_grows reply s) as Hg.
  pose proof (_auto_reply_to_comment_data reply s) as Hd.
  pose proof (fun H => _auto_reply_to_comment_other reply H s) as Ho.
  destruct (_auto_reply_to_comment w cfg reply s) as [ok s2]. cbn in *.
  assert (stored_ids s2 = stored_ids s /\ processed_replies s2 = processed_replies s /\
          grows r 0 1 s s2 /\ (reply_id reply <> r -> acts_view r s2 = acts_view r s))
    as Hall.
  { rewrite (stored_ids_of_data _ _ Hd), (processed_of_data _ _ Hd).
    split_and!; [done|done|done|]. intros Hne. apply (Ho Hne). }
  destruct ok; apply Hall.
Qed.

Lemma engage_effect reply stats s :
  untouched_but r 1 1 (reply_id reply) s (engage w cfg reply stats s).2.
Proof.
  unfold engage. munfold.
  pose proof (like_if_enabled_effect reply stats s) as (H1 & H2 & H3 & H4).
  destruct (like_if_enabled w cfg reply stats s) as [stats1 s1]. cbn in *.
  pose proof (answer_if_enabled_effect reply stats1 s1) as (K1 & K2 & K3 & K4).
  unfold untouched_but. rewrite K1, K2, H1, H2. split_and!; [done|done| |].
  - apply (grows_trans 1 0 0 1 s s1); done.
  - intros Hne. rewrite K4, H4; done.
Qed.

Lemma engage_new_replies reply stats s :
  new_replies (engage w cfg reply stats s).1 = new_replies stats.
Proof.
  unfold engage, like_if_enabled, answer_if_enabled. munfold.
  destruct (auto_like_replies cfg); cbn.
  - destruct (_auto_like_reply w cfg (reply_id reply) s) as [[] s0]; cbn.
    + destruct (mark_reply_liked (reply_id reply) s0) as [b s1]; cbn.
      destruct (auto_reply_enabled cfg); cbn; [|done].
      by destruct (_auto_reply_to_comment w cfg reply s1) as [[] s2].
    + destruct (auto_reply_enabled cfg); cbn; [|done].
      by destruct (_auto_reply_to_comment w cfg reply s0) as [[] s2].
  - destruct (auto_reply_enabled cfg); cbn; [|done].
    by destruct (_auto_reply_to_comment w cfg reply s) as [[] s2].
Qed.

Lemma has_reply_id_filter_nil rid (rows : list ReplyRow) :
  List.filter (has_reply_id rid) rows = [] <-> rid ∉ map row_reply_id rows.
Proof.
  split.
  - intros Hf Hin. destruct (filter_has_reply_id_nonempty _ _ Hin) as (? & ? & E).
    by rewrite Hf in E.
  - intros Hn. destruct (List.filter _ rows) as [|row rest] eqn:E; [done|].
    exfalso. apply Hn.
    assert (In row (List.filter (has_reply_id rid) rows)) as Hr by (rewrite E; by left).
    apply filter_In in Hr as [Hr Hid]. apply String.eqb_eq in Hid.
    apply list_elem_of_In, in_map_iff. eauto.
Qed.

(** [save_reply] inserts exactly when the identifier is not yet stored. *)
Lemma save_reply_effect reply s :
  let res := save_reply w reply s in
  processed_replies res.2 = processed_replies s /\
  (reply_id reply ∈ stored_ids s -> stored_ids res.2 = stored_ids s) /\
  (reply_id reply ∉ stored_ids s -> is_Some (supabase s) ->
     stored_ids res.2 = (stored_ids s ++ [reply_id reply])%list) /\
  (supabase s = None -> res = (None, s)) /\
  (truthy res.1 = true -> reply_id reply ∈ stored_ids res.2).
Proof.
  unfold save_reply, stored_ids. munfold. cbn.
  destruct (supabase s) as [rows|] eqn:Hdb; cbn.
  2:{ rewrite Hdb. split_and!; try done; by intros _ [? ?]. }
  destruct (List.filter _ rows) as [|existing rest] eqn:Hf.
  - apply has_reply_id_filter_nil in Hf. cbn.
    split_and!; try done.
    + intros _ _. by rewrite map_app.
    + intros _. rewrite map_app. cbn. apply elem_of_app. right. by left.
  - assert (reply_id reply ∈ map row_reply_id rows) as Hin.
    { destruct (decide (reply_id reply ∈ map row_reply_id rows)) as [|Hn]; [done|].
      apply has_reply_id_filter_nil in Hn. by rewrite Hn in Hf. }
    destruct (liked reply); cbn; rewrite ?Hdb, ?update_liked_ids; split_and!; done.
Qed.

(** The inner loop body, case by case. *)
Lemma handle_reply_cached E stats reply s :
  reply_id reply ∈ processed_replies s ->
  handle_reply w cfg E stats reply s = (stats, s).
Proof.
  intros Hc. unfold handle_reply. munfold. cbn. by rewrite bool_decide_eq_true_2.
Qed.

Lemma handle_reply_existing E stats reply s :
  reply_id reply ∉ processed_replies s -> reply_id reply ∈ E ->
  handle_reply w cfg E stats reply s =
    (stats, set_processed (union {[reply_id reply]}) s).
Proof.
  intros Hc He. unfold handle_reply. munfold. cbn.
  rewrite bool_decide_eq_false_2 by done. by rewrite bool_decide_eq_true_2.
Qed.

Lemma handle_reply_new E stats reply s :
  reply_id reply ∉ processed_replies s -> reply_id reply ∉ E ->
  let res := handle_reply w cfg E stats reply s in
  processed_replies res.2 = {[reply_id reply]} ∪ processed_replies s /\
  new_replies res.1 = new_replies stats + 1 /\
  (reply_id reply ∈ stored_ids s -> stored_ids res.2 = stored_ids s) /\
  (reply_id reply ∉ stored_ids s -> is_Some (supabase s) ->
     stored_ids res.2 = (stored_ids s ++ [reply_id reply])%list) /\
  grows r 1 1 s res.2 /\
  (reply_id reply <> r -> acts_view r res.2 = acts_view r s) /\
  (acts_view r res.2 <> acts_view r s -> r ∈ stored_ids res.2).
Proof.
  intros Hc He. unfold handle_reply. munfold. cbn.
  rewrite !bool_decide_eq_false_2 by done.
  pose proof (save_reply_effect reply (set_processed (union {[reply_id reply]}) s))
    as (Hp & Hin & Hout & _ & Hsaved).
  pose proof (save_reply_trace reply (set_processed (union {[reply_id reply]}) s)) as Ht.
  destruct (save_reply w reply _) as [saved_id s1]. cbn in *.
  change (stored_ids (set_processed (union {[reply_id reply]}) s)) with (stored_ids s) in *.
  assert (acts_view r s1 = acts_view r s) as Hv by (unfold acts_view; by rewrite Ht).
  destruct (truthy saved_id) eqn:Htr; cbn.
  - pose proof (engage_effect reply (count_new stats) s1) as (K1 & K2 & K3 & K4).
    pose proof (engage_new_replies reply (count_new stats) s1) as Kn.
    destruct (engage w cfg reply (count_new stats) s1) as [stats2 s2]. cbn in *.
    rewrite K1, K2, Hp, Kn. split_and!; try done.
    + unfold grows, acts_view in *. injection Hv as Hl Ha. by rewrite <- Hl, <- Ha.
    + intros Hne. rewrite K4; done.
    + intros Hact. destruct (decide (reply_id reply = r)) as [<-|Hne].
      * by apply Hsaved.
      * exfalso. apply Hact. rewrite K4; done.
  - rewrite Hp. split_and!; try done.
    + by apply grows_weaken with 0%nat 0%nat; [lia|lia|apply grows_refl_of_keeps].
Qed.

Lemma connected_of_data s s' : data_view s' = data_view s -> connected s' = connected s.
Proof. unfold data_view, connected. by intros [= -> _ _]. Qed.

Lemma connected_is_Some s : connected s = true <-> is_Some (supabase s).
Proof.
  unfold connected. destruct (supabase s); split; done.
Qed.

Lemma save_reply_connected reply : keeps connected (save_reply w reply).
Proof.
  intros s. unfold save_reply, connected. munfold. cbn.
  destruct (supabase s) as [rows|] eqn:Hdb; cbn; [|by rewrite Hdb].
  destruct (List.filter _ rows); [done|]. destruct (liked reply); cbn; by rewrite ?Hdb.
Qed.

Lemma mark_reply_liked_connected q : keeps connected (mark_reply_liked q).
Proof.
  intros s. unfold mark_reply_liked, connected. munfold. cbn.
  destruct (supabase s) as [rows|] eqn:Hdb; cbn; by rewrite ?Hdb.
Qed.

Lemma keeps_connected_of_data {A} (m : M A) : keeps data_view m -> keeps connected m.
Proof. intros H s. apply connected_of_data, H. Qed.

Hint Resolve save_reply_connected mark_reply_liked_connected : keeps.
Hint Extern 5 (keeps connected _) =>
  (apply keeps_connected_of_data; solve [eauto with keeps]) : keeps.

Lemma handle_reply_connected E stats reply : keeps connected (handle_reply w cfg E stats reply).
Proof.
  unfold handle_reply, engage, like_if_enabled, answer_if_enabled. keeps_auto.
Qed.

(** The inner loop over one page.  [emitted] are the identifiers it acts
    on, in order; they are exactly what it appends to the table. *)
Lemma page_loop E replies : forall stats s,
  connected s = true ->
  (forall x, x ∈ map reply_id replies -> x ∈ stored_ids s ->
     x ∈ E \/ x ∈ processed_replies s) ->
  let res := foldM (handle_reply w cfg E) replies stats s in
  exists emitted,
    stored_ids res.2 = (stored_ids s ++ emitted)%list /\
    NoDup emitted /\
    (forall x, x ∈ emitted <->
       (x ∈ map reply_id replies /\ x ∉ processed_replies s /\ x ∉ E)) /\
    processed_replies res.2 = list_to_set (map reply_id replies) ∪ processed_replies s /\
    new_replies res.1 = new_replies stats + Z.of_nat (length emitted) /\
    grows r 1 1 s res.2 /\
    (r ∉ emitted -> acts_view r res.2 = acts_view r s) /\
    connected res.2 = true.
Proof.
  induction replies as [|reply rest IH]; intros stats s Hdb Hinv; cbn.
  - exists []. rewrite app_nil_r. split_and!.
    + done.
    + constructor.
    + intros x. rewrite elem_of_nil. tauto.
    + by rewrite union_empty_l_L.
    + cbn. lia.
    + unfold grows; lia.
    + done.
    + done.
  - munfold.
    assert (forall x, x ∈ map reply_id rest -> x ∈ stored_ids s ->
              x ∈ E \/ x ∈ processed_replies s) as Hinv'.
    { intros x Hx. apply Hinv. cbn. by right. }
    destruct (decide (reply_id reply ∈ processed_replies s)) as [Hc|Hc].
    { rewrite (handle_reply_cached _ _ _ _ Hc).
      destruct (IH stats s Hdb Hinv') as (em & H1 & H2 & H3 & H4 & H5 & H6 & H7 & H8).
      exists em. split_and!; try done.
      - intros x. rewrite H3, elem_of_cons. clear -Hc. naive_solver.
      - rewrite H4. clear -Hc. set_solver. }
    destruct (decide (reply_id reply ∈ E)) as [He|He].
    { rewrite (handle_reply_existing _ _ _ _ Hc He).
      destruct (IH stats (set_processed (union {[reply_id reply]}) s) Hdb)
        as (em & H1 & H2 & H3 & H4 & H5 & H6 & H7 & H8).
      { intros x Hx Hs. destruct (Hinv' x Hx Hs) as [?|?]; [by left|].
        right. cbn. apply elem_of_union. by right. }
      cbn in *.
      exists em. split_and!; try done.
      - intros x. rewrite H3, elem_of_cons, elem_of_union, elem_of_singleton.
        clear -He. naive_solver.
      - rewrite H4. clear. set_solver. }
    assert (reply_id reply ∉ stored_ids s) as Hns.
    { intros Hs. destruct (Hinv (reply_id reply)) as [?|?]; [cbn; by left|done..]. }
    pose proof (handle_reply_new E stats reply s Hc He) as (K1 & K2 & _ & K4 & K5 & K6 & _).
    pose proof (handle_reply_connected E stats reply s) as Kc.
    destruct (handle_reply w cfg E stats reply s) as [stats1 s1]. cbn in *.
    specialize (K4 Hns (proj1 (connected_is_Some s) Hdb)).
    destruct (IH stats1 s1) as (em & H1 & H2 & H3 & H4 & H5 & H6 & H7 & H8).
    { by rewrite Kc. }
    { intros x Hx Hs. rewrite K1, elem_of_union, elem_of_singleton.
      rewrite K4 in Hs. apply elem_of_app in Hs as [Hs|Hs].
      - destruct (Hinv' x Hx Hs) as [?|?]; tauto.
      - apply list_elem_of_singleton in Hs. tauto. }
    assert (reply_id reply ∉ em) as Hnem.
    { rewrite H3, K1, elem_of_union, elem_of_singleton. tauto. }
    exists (reply_id reply :: em). split_and!.
    + rewrite H1, K4. by rewrite <- app_assoc.
    + by constructor.
    + intros x. rewrite !elem_of_cons, H3, K1, elem_of_union, elem_of_singleton.
      clear -Hc He. destruct (decide (x = reply_id reply)) as [->|Hx]; tauto.
    + rewrite H4, K1. clear. set_solver.
    + rewrite H5, K2. cbn [length]. lia.
    + destruct (decide (reply_id reply = r)) as [Heq|Hne].
      * rewrite Heq in Hnem.
        specialize (H7 Hnem). unfold acts_view in H7. injection H7 as Hl Ha.
        unfold grows in *. rewrite Hl, Ha. done.
      * specialize (K6 Hne). unfold acts_view in K6. injection K6 as Hl Ha.
        unfold grows in *. rewrite <- Hl, <- Ha. done.
    + intros Hr. apply not_elem_of_cons in Hr as [Hne Hem].
      rewrite (H7 Hem). apply K6. congruence.
    + done.
Qed.

Lemma get_existing_reply_ids_spec ids s x :
  x ∈ (get_existing_reply_ids ids s).1 <-> x ∈ ids /\ x ∈ stored_ids s.
Proof.
  unfold get_existing_reply_ids, stored_ids. munfold. cbn.
  destruct (supabase s) as [rows|]; [|cbn; set_solver].
  destruct ids as [|i ids]; [cbn; set_solver|]. cbn [fst].
  rewrite list_elem_of_In, filter_In, bool_decide_eq_true, <- list_elem_of_In.
  tauto.
Qed.

(** One page, with the existence query in front. *)
Lemma process_page_effect replies stats s :
  connected s = true ->
  let existing := (get_existing_reply_ids (map reply_id replies) s).1 in
  let res := process_page w cfg replies stats s in
  exists emitted,
    stored_ids res.2 = (stored_ids s ++ emitted)%list /\
    NoDup emitted /\
    (forall x, x ∈ emitted <->
       (x ∈ map reply_id replies /\ x ∉ processed_replies s /\ x ∉ existing)) /\
    processed_replies res.2 = list_to_set (map reply_id replies) ∪ processed_replies s /\
    new_replies res.1 = new_replies stats + Z.of_nat (length emitted) /\
    grows r 1 1 s res.2 /\
    (r ∉ emitted -> acts_view r res.2 = acts_view r s) /\
    connected res.2 = true.
Proof.
  intros Hdb. cbv zeta. unfold process_page. munfold.
  pose proof (get_existing_reply_ids_id (map reply_id replies) s) as Hid.
  pose proof (get_existing_reply_ids_spec (map reply_id replies) s) as Hspec.
  destruct (get_existing_reply_ids (map reply_id replies) s) as [existing s0].
  cbn in Hid, Hspec. subst s0. cbn [fst].
  destruct (page_loop (list_to_set existing) replies stats s Hdb)
    as (em & H1 & H2 & H3 & H4 & H5 & H6 & H7 & H8).
  { intros x Hx Hs. left. apply elem_of_list_to_set, Hspec. done. }
  exists em. split_and!; try done.
  intros x. rewrite H3, elem_of_list_to_set. done.
Qed.

Lemma within_cycle_refl s : within_cycle r s s.
Proof.
  unfold within_cycle, grows. split_and!; try done; lia.
Qed.

Lemma within_cycle_trans s1 s2 s3 :
  within_cycle r s1 s2 -> within_cycle r s2 s3 -> within_cycle r s1 s3.
Proof.
  intros (A1 & A2 & A3 & A4 & A5) (B1 & B2 & B3 & B4 & B5).
  assert (acts_view r s2 = acts_view r s1 \/ acts_view r s3 = acts_view r s2) as Hor.
  { destruct (decide (acts_view r s2 = acts_view r s1)) as [|Hne]; [by left|].
    right. apply B5. left. by apply A4. }
  unfold within_cycle. split_and!.
  - by transitivity (processed_replies s2).
  - auto.
  - destruct Hor as [Ho|Ho]; unfold acts_view, grows in *;
      injection Ho as Hl Ha; [rewrite <- Hl, <- Ha | rewrite Hl, Ha]; done.
  - intros Hne. destruct (decide (acts_view r s3 = acts_view r s2)) as [Heq|Hne2].
    + rewrite Heq in Hne. destruct (A4 Hne) as [? ?]. split; [by apply B1|by apply B2].
    + by apply B4.
  - intros Hin. rewrite B5, A5; [done|done|].
    destruct Hin as [?|?]; [left; by apply A1|right; by apply A2].
Qed.

Lemma within_cycle_of_keeps s s' :
  data_view s' = data_view s -> acts_view r s' = acts_view r s -> within_cycle r s s'.
Proof.
  intros Hd Ha. unfold within_cycle.
  rewrite (processed_of_data _ _ Hd), (stored_ids_of_data _ _ Hd).
  split_and!; try done.
  apply (grows_weaken 0 0); [lia|lia|by apply grows_refl_of_keeps].
Qed.

Lemma handle_tweet_within stats tweet_id s :
  connected s = true ->
  within_cycle r s (handle_tweet w cfg stats tweet_id s).2 /\
  connected (handle_tweet w cfg stats tweet_id s).2 = true.
Proof.
  intros Hdb. unfold handle_tweet. munfold.
  pose proof (get_tweet_replies_data tweet_id 10 s) as Hd.
  pose proof (get_tweet_replies_acts tweet_id 10 s) as Ha.
  destruct (get_tweet_replies w cfg tweet_id 10 s) as [replies s0]. cbn in Hd, Ha.
  pose proof (within_cycle_of_keeps _ _ Hd Ha) as Hw0.
  assert (connected s0 = true) as Hdb0 by (by rewrite (connected_of_data _ _ Hd)).
  destruct replies as [|reply rest]; [done|].
  pose proof (get_existing_reply_ids_spec (map reply_id (reply :: rest)) s0) as Hspec.
  destruct (process_page_effect (reply :: rest) stats s0 Hdb0)
    as (em & H1 & H2 & H3 & H4 & H5 & H6 & H7 & H8).
  split; [|done].
  apply (within_cycle_trans _ s0); [done|].
  unfold within_cycle. split_and!.
  - rewrite H4. apply union_subseteq_r.
  - intros x Hx. rewrite H1. apply elem_of_app. by left.
  - done.
  - intros Hne. destruct (decide (r ∈ em)) as [Hin|Hnin]; [|by apply H7 in Hnin].
    split.
    + rewrite H4. apply elem_of_union. left. apply elem_of_list_to_set. by apply H3.
    + rewrite H1. apply elem_of_app. by right.
  - intros Hin. apply H7. intros Hem. apply H3 in Hem as (Hids & Hnc & Hne).
    destruct Hin as [?|Hs]; [done|]. apply Hne, Hspec. done.
Qed.

Lemma tweets_within tweets : forall stats s,
  connected s = true ->
  within_cycle r s (foldM (handle_tweet w cfg) tweets stats s).2.
Proof.
  induction tweets as [|tweet rest IH]; intros stats s Hdb; cbn.
  - apply within_cycle_refl.
  - munfold. destruct (handle_tweet_within stats tweet s Hdb) as [Hw Hc].
    destruct (handle_tweet w cfg stats tweet s) as [stats1 s1]. cbn in *.
    apply (within_cycle_trans _ s1); [done|by apply IH].
Qed.

(** One whole polling cycle, for the reply [r]. *)
Lemma cycle_effect s :
  let s' := (check_and_handle_replies w cfg s).2 in
  lifetime r s s' /\
  (r ∈ processed_replies s -> acts_view r s' = acts_view r s).
Proof.
  cbv zeta. unfold check_and_handle_replies. munfold. cbn.
  destruct (supabase s) as [rows|] eqn:Hdb; cbn.
  2:{ unfold lifetime, grows. split_and!; try done; lia. }
  set (s0 := set_startup true (set_tick (S (tick s)) s)).
  set (tweets := get_recent_tweets w (tick s) _).
  set (stats := mkStats _ _ _ _ _ _).
  assert (connected s0 = true) as Hc by (unfold connected; cbn; by rewrite Hdb).
  pose proof (tweets_within tweets stats s0 Hc) as HW.
  destruct (foldM (handle_tweet w cfg) tweets stats s0) as [stats1 s1].
  destruct HW as (W1 & W2 & W3 & W4 & W5).
  split; [unfold lifetime; split_and!|].
  - exact W2.
  - exact W3.
  - intros Hne. exact (proj2 (W4 Hne)).
  - intros Hs. exact (W5 (or_intror Hs)).
  - intros Hs. exact (W5 (or_introl Hs)).
Qed.

End Frames.

(** ** C7: what a page emits *)

Lemma example_page_emits_r4 :
  let res := process_page one_reply_world basic_config example_page no_stats example_sys in
  (get_existing_reply_ids (map reply_id example_page) example_sys).1 = ["r2"; "r3"] /\
  stored_ids res.2 = ["r2"; "r3"; "r4"] /\
  new_replies res.1 = 1 /\
  likes_of "r4" (trace res.2) = 1%nat /\
  (forall x, x ∈ ["r1"; "r2"; "r3"] -> likes_of x (trace res.2) = 0%nat).
Proof.
  cbv zeta. split_and!; try by vm_compute.
  intros x Hx. repeat (apply elem_of_cons in Hx as [->|Hx]; [by vm_compute|]).
  by apply elem_of_nil in Hx.
Qed.



(** ** C1: a reply is acted on once *)

Section Lifetime.

Variable w : World.
Variable cfg : Config.
Variable r : string.

Lemma lifetime_of_keeps s s' :
  stored_ids s' = stored_ids s -> acts_view r s' = acts_view r s -> lifetime r s s'.
Proof.
  intros Hs Ha. unfold lifetime. rewrite Hs. split_and!; try done.
  apply (grows_weaken r 0 0); [lia|lia|by apply grows_refl_of_keeps].
Qed.

Lemma lifetime_trans s1 s2 s3 :
  lifetime r s1 s2 -> lifetime r s2 s3 -> lifetime r s1 s3.
Proof.
  intros (A1 & A2 & A3 & A4) (B1 & B2 & B3 & B4).
  assert (acts_view r s2 = acts_view r s1 \/ acts_view r s3 = acts_view r s2) as Hor.
  { destruct (decide (acts_view r s2 = acts_view r s1)) as [|Hne]; [by left|].
    right. apply B4. by apply A3. }
  unfold lifetime. split_and!.
  - auto.
  - destruct Hor as [Ho|Ho]; unfold acts_view, grows in *;
      injection Ho as Hl Ha; [rewrite <- Hl, <- Ha | rewrite Hl, Ha]; done.
  - intros Hne. destruct (decide (acts_view r s3 = acts_view r s2)) as [Heq|Hne2].
    + rewrite Heq in Hne. by apply B1, A3.
    + by apply B3.
  - intros Hin. rewrite B4, A4; [done|done|by apply A1].
Qed.

Lemma run_op_lifetime op s : lifetime r s (run_op w cfg op s).2.
Proof.
  destruct op; cbn.
  - unfold mbind, M_bind, bind.
    pose proof (cycle_effect w cfg r s) as [Hl _].
    by destruct (check_and_handle_replies w cfg s).
  - by apply lifetime_of_keeps.
  - by apply lifetime_of_keeps.
Qed.

Lemma run_ops_lifetime ops : forall s, lifetime r s (run_ops w cfg ops s).2.
Proof.
  induction ops as [|op rest IH]; intros s; cbn.
  - by apply lifetime_of_keeps.
  - unfold mbind, M_bind, bind.
    pose proof (run_op_lifetime op s) as Hop.
    destruct (run_op w cfg op s) as [[] s1]. cbn in Hop.
    apply (lifetime_trans _ s1); [done|apply IH].
Qed.

End Lifetime.


(** A reply found again after a restart, and again after a clearing of the
    cache: liked once, answered once. *)
Lemma r1_acted_on_once :
  let s' := (run_ops one_reply_world basic_config
               [OpCycle; OpRestart; OpCycle; OpResetCache; OpCycle]
               (initial_sys (Some "bot") (Some []))).2 in
  likes_of "r1" (trace s') = 1%nat /\ autoreplies_to "r1" (trace s') = 1%nat.
Proof. by vm_compute. Qed.


(** ** C3 and C6: the posting job *)

Section PostingJob.

Variable w : World.
Variable cfg : Config.

Lemma timedelta_days_lt_1 delta : delta < day_us -> timedelta_days delta < 1.
Proof.
  intros H. destruct (Z.lt_ge_cases (timedelta_days delta) 1) as [|Hge]; [done|].
  apply timedelta_days_ge_1 in Hge. lia.
Qed.

Lemma usage_of_update operation count s :
  usage_of operation (_update_quota operation count s).2 = usage_of operation s + count.
Proof. unfold usage_of, _update_quota. munfold. cbn. by rewrite lookup_insert_eq. Qed.

(** A firing that finds the posts counter at the limit is skipped before
    anything is generated or sent. *)
Lemma job_skipped_at_limit s :
  0 < posts_per_day cfg ->
  posts_per_day cfg <= usage_of "posts" s ->
  let s' := (_generate_and_post_job w cfg s).2 in
  trace s' = trace s /\ skipped s' = skipped s + 1 /\
  successful s' = successful s /\ failed s' = failed s /\
  quota_usage s' = quota_usage s /\ last_quota_reset s' = last_quota_reset s.
Proof.
  intros HL Hu. unfold _generate_and_post_job, _is_in_posting_hours. munfold. cbn.
  destruct (in_posting_hours _ _ _); cbn; [|done].
  unfold posts_limit_status. destruct (0 <? posts_per_day cfg) eqn:E;
    [|apply Z.ltb_ge in E; lia].
  cbn. destruct (posts_per_day cfg <=? _) eqn:E2; [done|]. apply Z.leb_gt in E2.
  unfold usage_of in *. cbn in *. lia.
Qed.

(** While the counters are less than a day old, a firing raises the posts
    counter exactly when it succeeds, and never above the limit. *)
Lemma job_without_reset s :
  0 < posts_per_day cfg ->
  usage_of "posts" s <= posts_per_day cfg ->
  (forall i, utcnow w i - last_quota_reset s < day_us) ->
  let s' := (_generate_and_post_job w cfg s).2 in
  last_quota_reset s' = last_quota_reset s /\
  usage_of "posts" s' - usage_of "posts" s = successful s' - successful s /\
  0 <= successful s' - successful s <= 1 /\
  usage_of "posts" s' <= posts_per_day cfg.
Proof.
  intros HL Hu Hclock.
  unfold _generate_and_post_job, _is_in_posting_hours, count_skipped, count_failed,
    count_successful. munfold. cbn.
  destruct (in_posting_hours _ _ _); cbn; [|unfold usage_of in *; cbn; lia].
  unfold posts_limit_status. destruct (0 <? posts_per_day cfg) eqn:E;
    [|apply Z.ltb_ge in E; lia].
  cbn. destruct (posts_per_day cfg <=? _) eqn:E2; cbn;
    [unfold usage_of in *; cbn; lia|].
  apply Z.leb_gt in E2.
  change (usage_of "posts" (set_tick (S (tick s)) s)) with (usage_of "posts" s) in E2.
  destruct (generate_complete_post w (S (tick s))) as [|[text|] image]; cbn;
    try (unfold usage_of in *; cbn; lia).
  destruct (String.eqb text ""); cbn; [unfold usage_of in *; cbn; lia|].
  unfold post_tweet. munfold.
  rewrite _check_quota_no_reset by (cbn; apply timedelta_days_lt_1, Hclock).
  cbn. unfold exceeds. rewrite E. cbn.
  match goal with
  | |- context [posts_per_day cfg <? ?u + 1] =>
      change u with (usage_of "posts" s);
      destruct (posts_per_day cfg <? usage_of "posts" s + 1) eqn:E3
  end; [apply Z.ltb_lt in E3; lia|].
  cbn.
  mbreak; try congruence;
    unfold usage_of in *; cbn; rewrite ?lookup_insert_eq; cbn; lia.
Qed.

Lemma run_jobs_without_reset n : forall s,
  0 < posts_per_day cfg ->
  usage_of "posts" s <= posts_per_day cfg ->
  (forall i, utcnow w i - last_quota_reset s < day_us) ->
  let s' := (run_jobs w cfg n s).2 in
  last_quota_reset s' = last_quota_reset s /\
  usage_of "posts" s' - usage_of "posts" s = successful s' - successful s /\
  0 <= successful s' - successful s /\
  usage_of "posts" s' <= posts_per_day cfg.
Proof.
  induction n as [|n IH]; intros s HL Hu Hclock; cbn.
  - lia.
  - unfold mbind, M_bind, bind.
    pose proof (job_without_reset s HL Hu Hclock) as (J1 & J2 & J3 & J4).
    destruct (_generate_and_post_job w cfg s) as [[] s1]. cbn in *.
    destruct (IH s1 HL J4) as (K1 & K2 & K3 & K4).
    { intros i. rewrite J1. apply Hclock. }
    lia.
Qed.

Lemma run_jobs_at_limit n : forall s,
  0 < posts_per_day cfg ->
  posts_per_day cfg <= usage_of "posts" s ->
  let s' := (run_jobs w cfg n s).2 in
  trace s' = trace s /\ skipped s' = skipped s + Z.of_nat n /\
  successful s' = successful s.
Proof.
  induction n as [|n IH]; intros s HL Hu; cbn.
  - split_and!; [done|lia|done].
  - unfold mbind, M_bind, bind.
    pose proof (job_skipped_at_limit s HL Hu) as (J1 & J2 & J3 & J4 & J5 & J6).
    destruct (_generate_and_post_job w cfg s) as [[] s1]. cbn in *.
    destruct (IH s1 HL) as (K1 & K2 & K3).
    { unfold usage_of in *. by rewrite J5. }
    rewrite K1, K2, K3, J1, J2, J3. split_and!; [done|lia|done].
Qed.

(** Once the scheduler's own test has let a firing through, the quota
    check of [post_tweet] lets it through as well, reset or no reset. *)
Lemma _check_quota_after_posting_check s0 s :
  quota_usage s0 = quota_usage s ->
  _check_posting_quota (usage_of "posts" s) (posts_limit_status cfg) = true ->
  (_check_quota w cfg "posts" 1 s0).1 = true.
Proof.
  intros Hq Hcheck. unfold _check_posting_quota, posts_limit_status in Hcheck.
  destruct (Z.lt_ge_cases (timedelta_days (utcnow w (tick s0) - last_quota_reset s0)) 1)
    as [Hlt|Hge].
  - rewrite _check_quota_no_reset by done. cbn. unfold exceeds.
    destruct (0 <? posts_per_day cfg); [|done]. cbn.
    replace (usage_of "posts" s0) with (usage_of "posts" s)
      by (unfold usage_of; by rewrite Hq).
    apply negb_true_iff, Z.leb_gt in Hcheck. apply negb_true_iff, Z.ltb_ge. lia.
  - rewrite _check_quota_reset by done. cbn. unfold exceeds.
    destruct (0 <? posts_per_day cfg) eqn:E; [|done]. cbn.
    apply Z.ltb_lt in E. apply negb_true_iff, Z.ltb_ge. lia.
Qed.

Lemma _check_quota_job_stats operation count :
  keeps (fun s => (successful s, failed s, skipped s)) (_check_quota w cfg operation count).
Proof. unfold _check_quota. keeps_auto. Qed.

Lemma in_posting_hours_spec start_time end_time now :
  in_posting_hours start_time end_time now = true <->
  inside_window start_time end_time now.
Proof.
  unfold in_posting_hours, inside_window, time_le.
  destruct (decide (time_key start_time <= time_key end_time)) as [Hle|Hgt].
  - rewrite (proj2 (Z.leb_le _ _) Hle), andb_true_iff, !Z.leb_le. done.
  - rewrite (proj2 (Z.leb_gt _ _)) by lia. rewrite orb_true_iff, !Z.leb_le. done.
Qed.

(** A firing outside the window only counts a skip. *)
Lemma job_outside_window s :
  in_posting_hours (time_range_start cfg) (time_range_end cfg) (local_now w (tick s)) = false ->
  let s' := (_generate_and_post_job w cfg s).2 in
  skipped s' = skipped s + 1 /\ successful s' = successful s /\
  failed s' = failed s /\ trace s' = trace s /\ quota_usage s' = quota_usage s.
Proof.
  intros Hout. unfold _generate_and_post_job, _is_in_posting_hours. munfold. cbn.
  by rewrite Hout.
Qed.

(** A firing inside the window that passes the quota test and gets a text
    ends with that text submitted. *)
Lemma job_inside_window s text image :
  in_posting_hours (time_range_start cfg) (time_range_end cfg) (local_now w (tick s)) = true ->
  _check_posting_quota (usage_of "posts" s) (posts_limit_status cfg) = true ->
  generate_complete_post w (S (tick s)) = Generated (Some text) image ->
  text <> "" ->
  let s' := (_generate_and_post_job w cfg s).2 in
  head (trace s') = Some (ECreateTweet text None) /\ skipped s' = skipped s.
Proof.
  intros Hin Hcheck Hgen Htext.
  unfold _generate_and_post_job, _is_in_posting_hours. munfold. cbn.
  rewrite Hin. cbn.
  change (usage_of "posts" (set_tick (S (tick s)) s)) with (usage_of "posts" s).
  rewrite Hcheck. cbn. rewrite Hgen. cbn.
  apply String.eqb_neq in Htext. rewrite Htext. cbn.
  unfold post_tweet. munfold.
  set (s0 := set_tick _ (set_trace _ _)).
  pose proof (_check_quota_after_posting_check s0 s eq_refl Hcheck) as Hok.
  pose proof (_check_quota_trace w cfg "posts" 1 s0) as Ht.
  pose proof (_check_quota_job_stats "posts" 1 s0) as Hj.
  destruct (_check_quota w cfg "posts" 1 s0) as [ok s1]. cbn in Hok, Ht, Hj. subst ok.
  injection Hj as _ _ Hsk.
  cbn. mbreak; done.
Qed.

End PostingJob.



Lemma seven_firings_five_posts :
  let s' := (run_jobs calm_world basic_config 7 (initial_sys (Some "bot") (Some []))).2 in
  successful s' = 5 /\ skipped s' = 2 /\ failed s' = 0 /\ usage_of "posts" s' = 5.
Proof. by vm_compute. Qed.



(** The window of the example: 08:59 is out, 09:00 and 21:00 are in; and a
    window across midnight. *)
Lemma window_examples :
  in_posting_hours (hm 9 0) (hm 21 0) (hm 8 59) = false /\
  in_posting_hours (hm 9 0) (hm 21 0) (mkTime 8 59 59 999999) = false /\
  in_posting_hours (hm 9 0) (hm 21 0) (hm 9 0) = true /\
  in_posting_hours (hm 9 0) (hm 21 0) (hm 21 0) = true /\
  in_posting_hours (hm 9 0) (hm 21 0) (mkTime 21 0 0 1) = false /\
  in_posting_hours (hm 22 0) (hm 6 0) (hm 23 30) = true /\
  in_posting_hours (hm 22 0) (hm 6 0) (hm 22 0) = true /\
  in_posting_hours (hm 22 0) (hm 6 0) (hm 6 0) = true /\
  in_posting_hours (hm 22 0) (hm 6 0) (hm 3 15) = true /\
  in_posting_hours (hm 22 0) (hm 6 0) (hm 12 0) = false /\
  in_posting_hours (hm 22 0) (hm 6 0) (hm 21 59) = false.
Proof. by vm_compute. Qed.



(** ** C5: the bot's own replies *)

Section OwnReplies.

Variable w : World.
Variable cfg : Config.

Lemma is_own_true bot author :
  is_own bot author = true <-> truthy bot = true /\ author = bot.
Proof. unfold is_own. rewrite andb_true_iff, opt_string_eqb_true. done. Qed.

(** Discovery: with the account identifier known, no reply of the bot's own
    comes out of the loop, whatever the platform answers. *)
Lemma collect_replies_excludes_own bot tweet_id tweets_data : forall s,
  truthy bot = true ->
  Forall (fun reply => author_id reply <> bot)
         (collect_replies w bot tweet_id tweets_data s).1.
Proof.
  induction tweets_data as [|tweet rest IH]; intros s Hbot; cbn.
  - constructor.
  - destruct (negb _); [by apply IH|].
    destruct (is_own bot (rt_author_id tweet)) eqn:Hown; [by apply IH|].
    assert (rt_author_id tweet <> bot) as Hne.
    { intros Heq.
      assert (is_own bot (rt_author_id tweet) = true) by (by apply is_own_true).
      congruence. }
    munfold.
    destruct (rt_created_at tweet) as [t|]; cbn.
    + specialize (IH s Hbot).
      destruct (collect_replies w bot tweet_id rest s) as [replies s2]. cbn in *.
      by constructor.
    + specialize (IH (set_tick (S (tick s)) s) Hbot).
      destruct (collect_replies w bot tweet_id rest _) as [replies s2]. cbn in *.
      by constructor.
Qed.

Lemma get_tweet_replies_excludes_own tweet_id max_results s :
  truthy (bot_user_id s) = true ->
  Forall (fun reply => author_id reply <> bot_user_id s)
         (get_tweet_replies w cfg tweet_id max_results s).1.
Proof.
  intros Hbot. unfold get_tweet_replies. munfold.
  pose proof (_check_quota_data w cfg "reads" max_results s) as Hd.
  destruct (_check_quota w cfg "reads" max_results s) as [ok s1]. cbn in Hd.
  assert (bot_user_id s1 = bot_user_id s) as Hb by (unfold data_view in Hd; congruence).
  destruct ok; cbn -[collect_replies]; [|constructor].
  destruct (search_recent_tweets w (tick s1) tweet_id) as [|[|tweet rest]];
    cbn -[collect_replies]; try constructor.
  rewrite Hb.
  pose proof (collect_replies_excludes_own (bot_user_id s) tweet_id (tweet :: rest)
                (set_tick (S (tick s1)) (set_trace (cons (ESearch tweet_id)) s1)) Hbot) as Hc.
  destruct (collect_replies _ _ _ _ _) as [replies s2]. done.
Qed.

(** The like path: when the look-up names the bot as the author, or when it
    raises, no like is issued. *)
Lemma like_tweet_skips_own tweet_id s s1 ok :
  _check_quota w cfg "likes" 1 s = (ok, s1) ->
  truthy (bot_user_id s) = true ->
  get_tweet w (tick s1) tweet_id = GetTweetData (Some (bot_user_id s)) ->
  (like_tweet w cfg tweet_id s).1 = false /\
  forall r, likes_of r (trace (like_tweet w cfg tweet_id s).2) = likes_of r (trace s).
Proof.
  intros Hq Hbot Hresp. unfold like_tweet. munfold. rewrite Hq.
  pose proof (_check_quota_data w cfg "likes" 1 s) as Hd.
  pose proof (_check_quota_trace w cfg "likes" 1 s) as Ht.
  rewrite Hq in Hd, Ht. cbn in Hd, Ht.
  assert (bot_user_id s1 = bot_user_id s) as Hb by (unfold data_view in Hd; congruence).
  destruct ok; cbn; [|by rewrite Ht].
  rewrite Hresp, Hb. cbn.
  rewrite (proj2 (is_own_true _ _)) by done. cbn. by rewrite Ht.
Qed.

Lemma like_tweet_skips_on_error tweet_id s s1 ok :
  _check_quota w cfg "likes" 1 s = (ok, s1) ->
  get_tweet w (tick s1) tweet_id = GetTweetRaises ->
  (like_tweet w cfg tweet_id s).1 = false /\
  forall r, likes_of r (trace (like_tweet w cfg tweet_id s).2) = likes_of r (trace s).
Proof.
  intros Hq Hresp. unfold like_tweet. munfold. rewrite Hq.
  pose proof (_check_quota_trace w cfg "likes" 1 s) as Ht.
  rewrite Hq in Ht. cbn in Ht.
  destruct ok; cbn; [|by rewrite Ht].
  rewrite Hresp. cbn. by rewrite Ht.
Qed.

End OwnReplies.

(** C5, where the code departs from it: the look-up of the author answers
    without data, so the author cannot be verified; the like is issued all the
    same, directly and through the handler's own pre-check. *)
Theorem C5_like_issued_when_author_unresolved :
  let s := initial_sys (Some "bot") (Some []) in
  get_tweet no_data_world 1%nat "r1" = GetTweetData None /\
  (like_tweet no_data_world basic_config "r1" s).1 = true /\
  ELike "r1" ∈ trace (like_tweet no_data_world basic_config "r1" s).2 /\
  (_auto_like_reply no_data_world basic_config "r1" s).1 = true /\
  likes_of "r1" (trace (_auto_like_reply no_data_world basic_config "r1" s).2) = 1%nat.
Proof.
  cbv zeta. split_and!; try by vm_compute.
  assert (trace (like_tweet no_data_world basic_config "r1"
                   (initial_sys (Some "bot") (Some []))).2
          = [ELike "r1"; EGetMe; EGetTweet "r1"]) as -> by (by vm_compute).
  by left.
Qed.

(** ** C9: the manual deep scan *)

(** C9, where the code departs from it: r1 was discovered, stored, liked and
    answered by a polling cycle; after a restart it is still in the table,
    and the deep scan likes it and answers it a second time. *)
Theorem C9_deep_scan_acts_again_on_stored_reply :
  "r1" ∈ stored_ids after_restart /\
  processed_replies after_restart = ∅ /\
  likes_of "r1" (trace after_restart) = 1%nat /\
  autoreplies_to "r1" (trace after_restart) = 1%nat /\
  likes_of "r1" (trace after_deep_scan) = 2%nat /\
  autoreplies_to "r1" (trace after_deep_scan) = 2%nat /\
  stored_ids after_deep_scan = ["r1"].
Proof.
  split_and!; try by vm_compute.
  assert (stored_ids after_restart = ["r1"]) as -> by (by vm_compute).
  by left.
Qed.

(** What stops the deep scan is the cache it was meant to bypass: without
    the restart, r1 is in the cache and the scan passes it over. *)
Lemma deep_scan_skips_cached_reply :
  "r1" ∈ processed_replies after_first_cycle /\
  trace (manual_deep_scan one_reply_world basic_config 30 after_first_cycle).2
    = ESearch "t1" :: trace after_first_cycle.
Proof.
  split; [|by vm_compute].
  assert (processed_replies after_first_cycle = {["r1"]}) as -> by (by vm_compute).
  by apply elem_of_singleton.
Qed.

(** ** C2: the conversation cap *)

(** At the cap nothing is generated and nothing is posted. *)
Lemma _auto_reply_to_comment_at_cap (w : World) (cfg : Config) (reply : Reply) (s : Sys) :
  max_replies_per_conversation cfg
    <= default 0 (dict_get (original_tweet_id reply) (conversation_replies s)) ->
  _auto_reply_to_comment w cfg reply s = (false, s).
Proof.
  intros Hcap. unfold _auto_reply_to_comment. munfold. cbn.
  by rewrite (proj2 (Z.leb_le _ _) Hcap).
Qed.

(** The counters themselves never pass the cap, whatever a polling cycle
    meets. *)
Section Counters.

Variable w : World.
Variable cfg : Config.

Lemma dict_set_within cap key v d :
  v <= cap ->
  Forall (fun kv : string * Z => kv.2 <= cap) d ->
  Forall (fun kv : string * Z => kv.2 <= cap) (dict_set key v d).
Proof.
  intros Hv. induction 1 as [|[k x] d Hx Hd IH]; cbn.
  - by repeat constructor.
  - destruct (String.eqb k key); constructor; done.
Qed.

Lemma insert_desc_within cap x d :
  x.2 <= cap ->
  Forall (fun kv : string * Z => kv.2 <= cap) d ->
  Forall (fun kv : string * Z => kv.2 <= cap) (insert_desc x d).
Proof.
  intros Hx. induction 1 as [|y d Hy Hd IH]; cbn.
  - by repeat constructor.
  - destruct (x.2 <? y.2); repeat constructor; done.
Qed.

Lemma trim_conversations_within cap d :
  Forall (fun kv : string * Z => kv.2 <= cap) d ->
  Forall (fun kv : string * Z => kv.2 <= cap) (trim_conversations d).
Proof.
  intros Hd. unfold trim_conversations. destruct (bool_decide _); [|done].
  apply Forall_take. unfold sorted_desc.
  induction Hd as [|x d Hx Hd IH]; cbn; [constructor|by apply insert_desc_within].
Qed.

Lemma _generate_reply_content_conversations reply :
  keeps conversation_replies (_generate_reply_content w reply).
Proof. unfold _generate_reply_content. keeps_auto. Qed.

Lemma _auto_reply_to_comment_within reply s :
  counters_within (max_replies_per_conversation cfg) s ->
  counters_within (max_replies_per_conversation cfg) (_auto_reply_to_comment w cfg reply s).2.
Proof.
  unfold counters_within, _auto_reply_to_comment. munfold. cbn. intros Hs.
  destruct (_ <=? _) eqn:Hcap; cbn; [done|]. apply Z.leb_gt in Hcap.
  pose proof (_generate_reply_content_conversations reply s) as Hg.
  destruct (_generate_reply_content w reply s) as [[text|] s1]; cbn in *;
    [|by rewrite Hg].
  pose proof (post_tweet_conversations w cfg text None (Some (reply_id reply)) s1) as Hp.
  destruct (post_tweet _ _ _ _ _ s1) as [tid s2]. cbn in *.
  destruct (truthy tid); cbn; rewrite Hp, Hg; [|done].
  apply dict_set_within; [lia|done].
Qed.

Lemma like_if_enabled_conversations reply stats :
  keeps conversation_replies (like_if_enabled w cfg reply stats).
Proof.
  unfold like_if_enabled, _auto_like_reply, like_tweet, _check_quota, _update_quota,
    mark_reply_liked.
  keeps_auto.
Qed.

Lemma save_reply_conversations reply : keeps conversation_replies (save_reply w reply).
Proof. unfold save_reply. keeps_auto. Qed.

Lemma collect_replies_conversations bot tweet_id tweets_data :
  keeps conversation_replies (collect_replies w bot tweet_id tweets_data).
Proof. induction tweets_data as [|tweet rest IH]; cbn; keeps_auto. Qed.

Lemma get_tweet_replies_conversations tweet_id max_results :
  keeps conversation_replies (get_tweet_replies w cfg tweet_id max_results).
Proof.
  unfold get_tweet_replies, _check_quota, _update_quota. keeps_auto.
  all: apply collect_replies_conversations.
Qed.

Lemma handle_reply_within E stats reply s :
  counters_within (max_replies_per_conversation cfg) s ->
  counters_within (max_replies_per_conversation cfg) (handle_reply w cfg E stats reply s).2.
Proof.
  unfold handle_reply. munfold. cbn. intros Hs.
  destruct (bool_decide _); cbn; [done|]. destruct (bool_decide _); cbn; [done|].
  pose proof (save_reply_conversations reply (set_processed (union {[reply_id reply]}) s))
    as Hsave.
  destruct (save_reply w reply _) as [saved_id s1]. cbn in *.
  assert (counters_within (max_replies_per_conversation cfg) s1) as Hs1
    by (unfold counters_within; by rewrite Hsave).
  destruct (truthy saved_id); cbn; [|done].
  unfold engage. munfold.
  pose proof (like_if_enabled_conversations reply (count_new stats) s1) as Hl.
  destruct (like_if_enabled w cfg reply (count_new stats) s1) as [stats2 s2]. cbn in *.
  assert (counters_within (max_replies_per_conversation cfg) s2) as Hs2
    by (unfold counters_within; by rewrite Hl).
  unfold answer_if_enabled. munfold. destruct (auto_reply_enabled cfg); cbn; [|done].
  pose proof (_auto_reply_to_comment_within reply s2 Hs2) as Ha.
  by destruct (_auto_reply_to_comment w cfg reply s2) as [[] s3].
Qed.

Lemma page_within E replies : forall stats s,
  counters_within (max_replies_per_conversation cfg) s ->
  counters_within (max_replies_per_conversation cfg)
    (foldM (handle_reply w cfg E) replies stats s).2.
Proof.
  induction replies as [|reply rest IH]; intros stats s Hs; cbn; [done|].
  munfold. pose proof (handle_reply_within E stats reply s Hs) as H1.
  destruct (handle_reply w cfg E stats reply s) as [stats1 s1]. by apply IH.
Qed.

Lemma handle_tweet_counters stats tweet_id s :
  counters_within (max_replies_per_conversation cfg) s ->
  counters_within (max_replies_per_conversation cfg) (handle_tweet w cfg stats tweet_id s).2.
Proof.
  intros Hs. unfold handle_tweet, process_page. munfold.
  pose proof (get_tweet_replies_conversations tweet_id 10 s) as Hg.
  destruct (get_tweet_replies w cfg tweet_id 10 s) as [replies s1]. cbn in Hg.
  assert (counters_within (max_replies_per_conversation cfg) s1) as Hs1
    by (unfold counters_within; by rewrite Hg).
  destruct replies as [|reply rest]; [done|].
  pose proof (get_existing_reply_ids_id (map reply_id (reply :: rest)) s1) as Hid.
  destruct (get_existing_reply_ids (map reply_id (reply :: rest)) s1) as [existing s2].
  cbn in Hid. subst s2. by apply page_within.
Qed.

Lemma cycle_counters s :
  counters_within (max_replies_per_conversation cfg) s ->
  counters_within (max_replies_per_conversation cfg) (check_and_handle_replies w cfg s).2.
Proof.
  intros Hs. unfold check_and_handle_replies. munfold. cbn.
  destruct (supabase s); cbn; [|done].
  set (s0 := set_startup true (set_tick (S (tick s)) s)).
  set (tweets := get_recent_tweets w (tick s) _).
  set (stats := mkStats _ _ _ _ _ _).
  assert (forall tw st s1, counters_within (max_replies_per_conversation cfg) s1 ->
            counters_within (max_replies_per_conversation cfg)
              (foldM (handle_tweet w cfg) tw st s1).2) as Hloop.
  { induction tw as [|t tw IH]; intros st s1 H1; cbn; [done|].
    munfold. pose proof (handle_tweet_counters st t s1 H1) as H2.
    destruct (handle_tweet w cfg st t s1) as [st2 s2]. by apply IH. }
  pose proof (Hloop tweets stats s0 Hs) as Hend.
  destruct (foldM (handle_tweet w cfg) tweets stats s0) as [stats1 s1]. cbn in *.
  by apply trim_conversations_within.
Qed.

End Counters.

(** C2, where the code departs from it: with a cap of one auto-reply per
    conversation, 101 conversations are answered in one cycle; the clean-up
    at its end keeps 50 counters and forgets the one of t100, and the next
    reply under t100 is answered again. *)
Theorem C2_cap_exceeded_after_eviction :
  max_replies_per_conversation one_per_conversation = 1 /\
  autoreplies_in "t100" (trace after_first_round) = 1%nat /\
  length (conversation_replies after_first_round) = 50%nat /\
  dict_get "t100" (conversation_replies after_first_round) = None /\
  autoreplies_in "t100" (trace after_second_round) = 2%nat.
Proof. split_and!; by vm_compute. Qed.

(** ** C8: trimming the processed cache *)

Section Trim.

Variable w : World.
Hypothesis iter_ok : set_iter_lists_elements w.

Lemma set_iter_NoDup (cache : gset string) : NoDup (set_iter w cache).
Proof. rewrite (iter_ok cache). apply NoDup_elements. Qed.

Lemma set_iter_length (cache : gset string) : length (set_iter w cache) = size cache.
Proof. by rewrite (iter_ok cache). Qed.

Lemma set_iter_to_set (cache : gset string) : list_to_set (set_iter w cache) = cache.
Proof. rewrite (iter_ok cache). apply list_to_set_elements_L. Qed.

Lemma trim_processed_small cache :
  (size cache <= cache_cap)%nat -> trim_processed w cache = cache.
Proof.
  intros H. unfold trim_processed. rewrite bool_decide_eq_false_2; [done|lia].
Qed.

Lemma trim_processed_big cache :
  (cache_cap < size cache)%nat ->
  trim_processed w cache = list_to_set (last_n cache_keep (set_iter w cache)).
Proof. intros H. unfold trim_processed. by rewrite bool_decide_eq_true_2. Qed.

(** What does hold of the clean-up: the cache comes out a subset of what it
    was, never above the cap, and with exactly 500 entries when it was above
    it. *)
Lemma trim_processed_bounds cache :
  trim_processed w cache ⊆ cache /\
  (size (trim_processed w cache) <= cache_cap)%nat /\
  ((cache_cap < size cache)%nat -> size (trim_processed w cache) = cache_keep).
Proof.
  destruct (decide (cache_cap < size cache)%nat) as [Hbig|Hsmall].
  - rewrite trim_processed_big by done. unfold last_n.
    assert (size (list_to_set (C := gset string)
                    (drop (length (set_iter w cache) - cache_keep) (set_iter w cache)))
            = cache_keep) as Hsize.
    { rewrite size_list_to_set.
      - rewrite length_drop, set_iter_length. unfold cache_cap, cache_keep in *. lia.
      - apply (sublist_NoDup _ (set_iter w cache));
          [apply set_iter_NoDup|apply sublist_drop]. }
    split_and!.
    + intros x Hx. apply elem_of_list_to_set in Hx.
      apply subseteq_drop in Hx. rewrite <- (set_iter_to_set cache).
      by apply elem_of_list_to_set.
    + rewrite Hsize. unfold cache_cap, cache_keep. lia.
    + done.
  - rewrite trim_processed_small by lia. split_and!; [done|lia|lia].
Qed.

Lemma cache_after_spec history : cache_after history = list_to_set history.
Proof.
  unfold cache_after.
  assert (forall acc : gset string,
            foldl (fun cache rid => {[rid]} ∪ cache) acc history
            = list_to_set history ∪ acc) as H.
  { induction history as [|x h IH]; intros acc; cbn.
    - by rewrite union_empty_l_L.
    - rewrite IH. clear. set_solver. }
  rewrite H. by rewrite union_empty_r_L.
Qed.

End Trim.

(** C8, where the code departs from it: the cache is a set, and a set keeps
    no record of the order of insertion.  Whatever order the set is listed in,
    every cache above the cap is reached by some order of insertion for which
    the clean-up drops the identifier added last and keeps the one added
    first. *)
Theorem C8_trim_forgets_insertion_order (w : World) (cache : gset string) :
  set_iter_lists_elements w ->
  (cache_cap < size cache)%nat ->
  exists history newest oldest,
    NoDup history /\ cache_after history = cache /\
    last history = Some newest /\ head history = Some oldest /\
    newest ∉ trim_processed w cache /\ oldest ∈ trim_processed w cache.
Proof.
  intros Hok Hbig.
  pose proof (set_iter_NoDup w Hok cache) as Hnd.
  pose proof (set_iter_length w Hok cache) as Hlen.
  pose proof (set_iter_to_set w Hok cache) as Hset.
  rewrite (trim_processed_big w cache Hbig). unfold last_n.
  destruct (set_iter w cache) as [|x l] eqn:El.
  { cbn in Hlen. unfold cache_cap in Hbig. lia. }
  destruct (last (x :: l)) as [y|] eqn:Hlast; [|by apply last_None in Hlast].
  exists (reverse (x :: l)), x, y. split_and!.
  - by rewrite reverse_Permutation.
  - rewrite cache_after_spec, <- Hset. apply list_to_set_perm_L, reverse_Permutation.
  - by rewrite last_reverse.
  - by rewrite head_reverse.
  - rewrite elem_of_list_to_set. cbn [length] in *.
    replace (S (length l) - cache_keep)%nat with (S (length l - cache_keep))
      by (unfold cache_cap, cache_keep in *; lia).
    cbn. intros Hx. apply subseteq_drop in Hx. by apply NoDup_cons in Hnd as [? _].
  - rewrite elem_of_list_to_set.
    apply (list_elem_of_lookup_2 _ (cache_keep - 1)).
    rewrite lookup_drop, <- Hlast, last_lookup. f_equal.
    cbn [length] in *. unfold cache_cap, cache_keep in *. lia.
Qed.

Lemma thousand_and_one_size : size (list_to_set thousand_and_one : gset string) = 1001%nat.
Proof. by vm_compute. Qed.

Lemma C8_trim_forgets_insertion_order_witness :
  exists history newest oldest,
    NoDup history /\ cache_after history = list_to_set thousand_and_one /\
    last history = Some newest /\ head history = Some oldest /\
    newest ∉ trim_processed calm_world (list_to_set thousand_and_one) /\
    oldest ∈ trim_processed calm_world (list_to_set thousand_and_one).
Proof.
  apply (C8_trim_forgets_insertion_order calm_world (list_to_set thousand_and_one)).
  - intros s. reflexivity.
  - rewrite thousand_and_one_size. unfold cache_cap. lia.
Defined.

(** * More properties *)

(** ** The quota tracker, beyond the posting job *)

Section QuotaGate.

Variable w : World.
Variable cfg : Config.

Lemma _check_quota_cases operation count s :
  exists s1, _check_quota w cfg operation count s
             = (negb (exceeds (daily_limit_of cfg operation) (usage_of operation s1) count), s1)
    /\ trace s1 = trace s /\ data_view s1 = data_view s
    /\ conversation_replies s1 = conversation_replies s
    /\ job_stats s1 = job_stats s
    /\ tick s1 = S (tick s)
    /\ startup_check_done s1 = startup_check_done s
    /\ ((quota_usage s1 = quota_usage s /\ last_quota_reset s1 = last_quota_reset s /\
         utcnow w (tick s) - last_quota_reset s < day_us)
        \/ (quota_usage s1 = fresh_usage /\ last_quota_reset s1 = utcnow w (tick s) /\
            day_us <= utcnow w (tick s) - last_quota_reset s)).
Proof.
  destruct (Z.lt_ge_cases (timedelta_days (utcnow w (tick s) - last_quota_reset s)) 1)
    as [Hlt|Hge].
  - rewrite _check_quota_no_reset by done. exists (set_tick (S (tick s)) s).
    split; [reflexivity|].
    split_and!; try done. left. split_and!; try done.
    destruct (Z.lt_ge_cases (utcnow w (tick s) - last_quota_reset s) day_us) as [|H]; [done|].
    apply timedelta_days_ge_1 in H. lia.
  - rewrite _check_quota_reset by done.
    exists (set_last_reset (utcnow w (tick s))
              (set_quota (fun _ => fresh_usage) (set_tick (S (tick s)) s))).
    split.
    + f_equal. f_equal. f_equal. symmetry.
      apply (usage_of_fresh w operation (set_tick (S (tick s)) s)).
    + split_and!; try done. right. split_and!; try done.
      by apply timedelta_days_ge_1.
Qed.

Lemma usage_of_fresh_usage operation s :
  quota_usage s = fresh_usage -> usage_of operation s = 0.
Proof.
  intros H. unfold usage_of. rewrite H. unfold fresh_usage.
  destruct (decide (operation = "posts")) as [->|H1]; [by rewrite lookup_insert_eq|].
  rewrite lookup_insert_ne by done.
  destruct (decide (operation = "reads")) as [->|H2]; [by rewrite lookup_insert_eq|].
  rewrite lookup_insert_ne by done.
  destruct (decide (operation = "likes")) as [->|H3]; [by rewrite lookup_insert_eq|].
  by rewrite lookup_insert_ne.
Qed.

End QuotaGate.

(** X1: an operation whose configured daily limit is zero or negative, or
    that has no limit at all (any name other than posts, reads and likes), is
    never refused by [_check_quota], whatever the counters, the requested
    count and the clock: a limit of 0 does not switch the operation off. *)
Theorem X1_check_quota_without_limit (w : World) (cfg : Config)
    (operation : string) (count : Z) (s : Sys) :
  (forall daily_limit, daily_limit_of cfg operation = Some daily_limit -> daily_limit <= 0) ->
  (_check_quota w cfg operation count s).1 = true.
Proof.
  intros Hlim.
  destruct (_check_quota_cases w cfg operation count s) as (s1 & -> & _).
  cbn. unfold exceeds. destruct (daily_limit_of cfg operation) as [L|]; [|done].
  specialize (Hlim L eq_refl).
  destruct (0 <? L) eqn:E; [apply Z.ltb_lt in E; lia|done].
Qed.

Lemma X1_check_quota_without_limit_witness :
  (_check_quota calm_world no_like_limit "likes" 1000
     (initial_sys (Some "bot") (Some []))).1 = true.
Proof.
  apply X1_check_quota_without_limit.
  intros daily_limit H. vm_compute in H. injection H as <-. lia.
Defined.

(** X2: less than a day after the last reset, a gateway call that finds
    its counter at the limit returns its failure value at once: apart from
    the reading of the clock nothing changes, so nothing is sent to the
    platform and nothing is counted. *)
Theorem X2_at_the_limit_nothing_is_sent (w : World) (cfg : Config) (s : Sys)
    (text : string) (image reply_to : option string) (tweet_id : string) (max_results : Z) :
  utcnow w (tick s) - last_quota_reset s < day_us ->
  (0 < posts_per_day cfg <= usage_of "posts" s ->
     post_tweet w cfg text image reply_to s = (None, set_tick (S (tick s)) s)) /\
  (0 < likes_per_day cfg <= usage_of "likes" s ->
     like_tweet w cfg tweet_id s = (false, set_tick (S (tick s)) s)) /\
  (0 < reads_per_day cfg < usage_of "reads" s + max_results ->
     get_tweet_replies w cfg tweet_id max_results s = ([], set_tick (S (tick s)) s)).
Proof.
  intros Hclock. apply timedelta_days_lt_1 in Hclock.
  split_and!; intros [HL Hu].
  - unfold post_tweet. munfold. rewrite _check_quota_no_reset by done.
    cbn. unfold exceeds.
    rewrite (proj2 (Z.ltb_lt _ _) HL), (proj2 (Z.ltb_lt (posts_per_day cfg) _)) by lia.
    done.
  - unfold like_tweet. munfold. rewrite _check_quota_no_reset by done.
    cbn. unfold exceeds.
    rewrite (proj2 (Z.ltb_lt _ _) HL), (proj2 (Z.ltb_lt (likes_per_day cfg) _)) by lia.
    done.
  - unfold get_tweet_replies. munfold. rewrite _check_quota_no_reset by done.
    cbn. unfold exceeds.
    rewrite (proj2 (Z.ltb_lt _ _) HL), (proj2 (Z.ltb_lt (reads_per_day cfg) _)) by lia.
    done.
Qed.

Lemma X2_at_the_limit_nothing_is_sent_witness :
  post_tweet calm_world basic_config "hello" None None late_evening_sys
    = (None, set_tick 1 late_evening_sys).
Proof.
  refine (proj1 (X2_at_the_limit_nothing_is_sent calm_world basic_config late_evening_sys
            "hello" None None "t1" 10 _) _).
  - cbn. unfold day_us. lia.
  - split; [cbn; lia|by vm_compute].
Defined.


(** X4: [like_tweet] answers [True] only after the like was asked of the
    platform as its latest call, and then the likes counter is one above what
    the quota check left; when it answers [False] the counters are what the
    check left.  A call never asks for a like of another tweet, and for at
    most one of its own. *)
Theorem X4_like_tweet_accounting (w : World) (cfg : Config) (tweet_id : string) (s : Sys) :
  let s1 := (_check_quota w cfg "likes" 1 s).2 in
  let r := like_tweet w cfg tweet_id s in
  (if r.1
   then head (trace r.2) = Some (ELike tweet_id) /\
        quota_usage r.2 = <["likes" := usage_of "likes" s1 + 1]> (quota_usage s1) /\
        count_events is_like (trace r.2) = count_events is_like (trace s) + 1
   else quota_usage r.2 = quota_usage s1 /\
        count_events is_like (trace r.2) <= count_events is_like (trace s) + 1) /\
  last_quota_reset r.2 = last_quota_reset s1 /\
  (forall other, other <> tweet_id ->
     likes_of other (trace r.2) = likes_of other (trace s)).
Proof.
  cbv zeta. unfold like_tweet. munfold.
  pose proof (_check_quota_trace w cfg "likes" 1 s) as Ht.
  destruct (_check_quota w cfg "likes" 1 s) as [ok s1]. cbn in Ht.
  unfold count_events, likes_of. rewrite <- Ht.
  assert (forall other, other <> tweet_id -> String.eqb tweet_id other = false) as Hne.
  { intros other H. apply String.eqb_neq. congruence. }
  destruct ok; cbn; [|split_and!; [done|lia|done|done]].
  unfold _update_quota. munfold.
  mbreak; try congruence; split_and!; try done; try lia;
    intros other Ho; cbn; by rewrite ?(Hne other Ho).
Qed.

(** X6: after [reset_quota_counters] every counter reads zero, and the
    next quota check, whenever it comes and whatever the clock says then,
    compares the request with zero: a request for one unit is granted under
    every configuration. *)
Theorem X6_reset_quota_counters_then_check (w : World) (cfg : Config)
    (operation : string) (count : Z) (s : Sys) :
  let s0 := (reset_quota_counters w s).2 in
  quota_usage s0 = fresh_usage /\
  last_quota_reset s0 = utcnow w (tick s) /\
  (forall s1, quota_usage s1 = quota_usage s0 ->
     (_check_quota w cfg operation count s1).1
       = negb (exceeds (daily_limit_of cfg operation) 0 count) /\
     (_check_quota w cfg operation 1 s1).1 = true).
Proof.
  cbv zeta. unfold reset_quota_counters. munfold. cbn.
  split_and!; try done. intros s1 Hq.
  assert (forall c, (_check_quota w cfg operation c s1).1
                    = negb (exceeds (daily_limit_of cfg operation) 0 c)) as H.
  { intros c.
    destruct (_check_quota_cases w cfg operation c s1) as (s2 & -> & _ & _ & _ & _ & _ & _ & Hc).
    cbn. f_equal. f_equal.
    apply usage_of_fresh_usage. destruct Hc as [(-> & _)|(-> & _)]; done. }
  split; [apply H|].
  rewrite H. unfold exceeds. destruct (daily_limit_of cfg operation) as [L|]; [|done].
  destruct (0 <? L) eqn:E1; [|done]. destruct (L <? 0 + 1) eqn:E2; [|done].
  apply Z.ltb_lt in E1, E2. lia.
Qed.



(** ** Properties handed on from step to step *)

Section Preserves.

Variable P : Sys -> Prop.

Lemma preserves_ret {A} (a : A) : preserves P (mret a).
Proof. by intros s. Qed.

Lemma preserves_bind {A C} (m : M A) (k : A -> M C) :
  preserves P m -> (forall a, preserves P (k a)) -> preserves P (m ≫= k).
Proof.
  intros Hm Hk s Hs. unfold mbind, M_bind, bind.
  specialize (Hm s Hs). destruct (m s) as [a s1]. cbn in *. by apply Hk.
Qed.

Lemma preserves_foldM {A C} (f : C -> A -> M C) (l : list A) (c : C) :
  (forall c a, preserves P (f c a)) -> preserves P (foldM f l c).
Proof.
  intros Hf. revert c. induction l as [|a l IH]; intros c; cbn.
  - apply preserves_ret.
  - apply preserves_bind; [apply Hf | intros; apply IH].
Qed.

Lemma preserves_keeps {A B} (V : Sys -> B) (m : M A) :
  (forall s s', V s' = V s -> P s -> P s') -> keeps V m -> preserves P m.
Proof. intros HV Hm s Hs. apply (HV s); [apply Hm|done]. Qed.

End Preserves.

Create HintDb pres discriminated.

Ltac pres_step :=
  lazymatch goal with
  | |- preserves _ (mret _) => apply preserves_ret
  | |- preserves _ (ret _) => apply (preserves_ret _)
  | |- preserves _ (mbind _ _) => apply preserves_bind; [|intros ?]
  | |- preserves _ (foldM _ _ _) => apply preserves_foldM; intros
  | |- preserves _ (match ?x with _ => _ end) => destruct x
  | |- preserves _ _ => solve [eauto with pres]
  end.

Ltac pres_auto := repeat pres_step.

(** The loop of [get_tweet_replies] only reads the clock. *)
Lemma collect_replies_keeps {B} (V : Sys -> B) (w : World) bot tweet_id tweets_data :
  (forall n s, V (set_tick n s) = V s) ->
  keeps V (collect_replies w bot tweet_id tweets_data).
Proof.
  intros HV. induction tweets_data as [|tweet rest IH]; cbn.
  - apply keeps_ret.
  - destruct (negb _); [done|]. destruct (is_own _ _); [done|].
    apply keeps_bind.
    + destruct (rt_created_at tweet); [apply keeps_ret|by apply keeps_ask].
    + intros created. apply keeps_bind; [done|]. intros. apply keeps_ret.
Qed.

(** ** The counters stay within their limits *)

Section QuotaInvariant.

Variable w : World.
Variable cfg : Config.

Lemma quota_respected_of_usage s s' :
  quota_usage s' = quota_usage s -> quota_respected cfg s -> quota_respected cfg s'.
Proof.
  intros Hq Hs operation L HL Hpos. unfold usage_of. rewrite Hq. by apply Hs.
Qed.

Lemma quota_respected_fresh s :
  quota_usage s = fresh_usage -> quota_respected cfg s.
Proof.
  intros Hq operation L HL Hpos. rewrite (usage_of_fresh_usage operation s Hq). lia.
Qed.

Lemma quota_respected_update operation count s s' :
  quota_respected cfg s ->
  exceeds (daily_limit_of cfg operation) (usage_of operation s) count = false ->
  quota_usage s' = <[operation := usage_of operation s + count]> (quota_usage s) ->
  quota_respected cfg s'.
Proof.
  intros Hs Hex Hq op L HL Hpos. unfold usage_of at 1. rewrite Hq.
  destruct (decide (operation = op)) as [->|Hne].
  - rewrite lookup_insert_eq. cbn. unfold exceeds in Hex. rewrite HL in Hex.
    rewrite (proj2 (Z.ltb_lt _ _) Hpos) in Hex. cbn in Hex.
    apply Z.ltb_ge in Hex. lia.
  - rewrite lookup_insert_ne by done. by apply Hs.
Qed.

(** A smaller charge than the one that was checked is within the limit as
    well. *)
Lemma exceeds_le limit current_usage count count' :
  count' <= count ->
  exceeds limit current_usage count = false ->
  exceeds limit current_usage count' = false.
Proof.
  intros Hle. unfold exceeds. destruct limit as [L|]; [|done].
  destruct (0 <? L); [|done]. cbn. rewrite !Z.ltb_ge. lia.
Qed.

Lemma _check_quota_respected operation count :
  preserves (quota_respected cfg) (_check_quota w cfg operation count).
Proof.
  intros s Hs.
  destruct (_check_quota_cases w cfg operation count s)
    as (s1 & -> & _ & _ & _ & _ & _ & _ & [(Hq & _)|(Hq & _)]); cbn.
  - by apply (quota_respected_of_usage s).
  - by apply quota_respected_fresh.
Qed.

Lemma _check_quota_granted operation count s :
  quota_respected cfg s ->
  let r := _check_quota w cfg operation count s in
  quota_respected cfg r.2 /\
  (r.1 = true ->
     exceeds (daily_limit_of cfg operation) (usage_of operation r.2) count = false).
Proof.
  intros Hs. cbv zeta. split; [by apply _check_quota_respected|].
  destruct (_check_quota_cases w cfg operation count s) as (s1 & -> & _). cbn.
  by intros ->%negb_true_iff.
Qed.

Lemma post_tweet_respected text image reply_to :
  preserves (quota_respected cfg) (post_tweet w cfg text image reply_to).
Proof.
  intros s Hs. unfold post_tweet. munfold.
  destruct (_check_quota_granted "posts" 1 s Hs) as [H1 H2].
  destruct (_check_quota w cfg "posts" 1 s) as [ok s1]. cbn in H1, H2.
  destruct ok; cbn; [|done]. specialize (H2 eq_refl).
  unfold _update_quota. munfold.
  mbreak; try congruence;
    first [ by apply (quota_respected_of_usage s1)
          | by apply (quota_respected_update "posts" 1 s1) ].
Qed.

Lemma like_tweet_respected tweet_id :
  preserves (quota_respected cfg) (like_tweet w cfg tweet_id).
Proof.
  intros s Hs. unfold like_tweet. munfold.
  destruct (_check_quota_granted "likes" 1 s Hs) as [H1 H2].
  destruct (_check_quota w cfg "likes" 1 s) as [ok s1]. cbn in H1, H2.
  destruct ok; cbn; [|done]. specialize (H2 eq_refl).
  unfold _update_quota. munfold.
  mbreak; try congruence;
    first [ by apply (quota_respected_of_usage s1)
          | by apply (quota_respected_update "likes" 1 s1) ].
Qed.

Lemma get_tweet_replies_respected tweet_id max_results :
  answers_at_most w max_results ->
  preserves (quota_respected cfg) (get_tweet_replies w cfg tweet_id max_results).
Proof.
  intros Hw s Hs. unfold get_tweet_replies. munfold.
  destruct (_check_quota_granted "reads" max_results s Hs) as [H1 H2].
  destruct (_check_quota w cfg "reads" max_results s) as [ok s1]. cbn in H1, H2.
  destruct ok; cbn -[collect_replies]; [|done]. specialize (H2 eq_refl).
  destruct (search_recent_tweets w (tick s1) tweet_id) as [|tweets_data] eqn:Hresp;
    cbn -[collect_replies]; [done|].
  destruct tweets_data as [|tweet rest]; cbn -[collect_replies]; [done|].
  set (s2 := set_tick _ _).
  pose proof (collect_replies_keeps quota_usage w (bot_user_id s1) tweet_id
                (tweet :: rest) (fun _ _ => eq_refl) s2) as Hc.
  destruct (collect_replies _ _ _ _ s2) as [replies s3]. cbn -[length] in *.
  apply (quota_respected_update "reads" (Z.of_nat (length (tweet :: rest))) s1); try done.
  - apply (exceeds_le _ _ max_results); [|done]. by apply (Hw _ _ _ Hresp).
  - unfold _update_quota. munfold. cbn -[length]. unfold usage_of. by rewrite Hc.
Qed.

End QuotaInvariant.

(** X5: a counter that is within its daily limit stays within it through
    [post_tweet] and [like_tweet], whatever the clock and the platform do;
    through [get_tweet_replies] as well, when at least ten results are asked
    for and the platform answers with no more tweets than the page size it was
    asked for.  (Below ten the method checks the quota for [max_results] and
    asks the platform for ten.) *)
Theorem X5_usage_stays_within_limit (w : World) (cfg : Config)
    (text : string) (image reply_to : option string) (tweet_id : string) (max_results : Z) :
  preserves (quota_respected cfg) (post_tweet w cfg text image reply_to) /\
  preserves (quota_respected cfg) (like_tweet w cfg tweet_id) /\
  (10 <= max_results -> answers_at_most w (search_page_size max_results) ->
   preserves (quota_respected cfg) (get_tweet_replies w cfg tweet_id max_results)).
Proof.
  split_and!.
  - apply post_tweet_respected.
  - apply like_tweet_respected.
  - intros Hmax Hw. apply get_tweet_replies_respected.
    intros i q l Hl. specialize (Hw i q l Hl). unfold search_page_size in Hw. lia.
Qed.

Lemma X5_usage_stays_within_limit_witness :
  usage_of "likes"
    (like_tweet calm_world basic_config "r1" (initial_sys (Some "bot") (Some []))).2 <= 100.
Proof.
  refine (proj1 (proj2 (X5_usage_stays_within_limit calm_world basic_config
            "hello" None None "r1" 10))
            (initial_sys (Some "bot") (Some [])) _ "likes" 100 eq_refl _).
  - by apply quota_respected_fresh.
  - lia.
Defined.

#[global] Hint Resolve _check_quota_respected post_tweet_respected like_tweet_respected
  get_tweet_replies_respected : pres.

#[global] Hint Extern 5 (preserves (quota_respected _) _) =>
  apply (preserves_keeps _ quota_usage);
    [ intros ? ? ?; by apply quota_respected_of_usage | keeps_auto ] : pres.

Ltac unfold_handler :=
  unfold check_and_handle_replies, manual_deep_scan, deep_scan_tweet, deep_scan_reply,
    handle_tweet, process_page, handle_reply, engage, like_if_enabled, answer_if_enabled,
    _auto_like_reply, _auto_reply_to_comment, _generate_reply_content,
    save_reply, mark_reply_liked, get_existing_reply_ids.

Ltac unfold_job :=
  unfold _generate_and_post_job, _is_in_posting_hours, count_skipped, count_failed,
    count_successful.



(** ** The [replies] table *)

#[global] Hint Extern 1 (keeps _ (collect_replies _ _ _ _)) =>
  apply collect_replies_keeps; intros; reflexivity : keeps.

Ltac unfold_gateway :=
  unfold post_tweet, like_tweet, get_tweet_replies, _check_quota, _update_quota.

Lemma existsb_has_reply_id rid (rows : list ReplyRow) :
  existsb (has_reply_id rid) rows = bool_decide (rid ∈ map row_reply_id rows).
Proof.
  induction rows as [|row rows IH]; cbn.
  - by rewrite bool_decide_eq_false_2 by (by intros ?%elem_of_nil).
  - rewrite IH. unfold has_reply_id at 1.
    destruct (String.eqb (row_reply_id row) rid) eqn:E; cbn.
    + apply String.eqb_eq in E. subst. symmetry. apply bool_decide_eq_true_2. by left.
    + apply String.eqb_neq in E. apply bool_decide_ext.
      rewrite elem_of_cons. naive_solver.
Qed.

Lemma reply_exists_stored rid s :
  reply_exists rid s = (bool_decide (rid ∈ stored_ids s), s).
Proof.
  unfold reply_exists, stored_ids. munfold. cbn.
  destruct (supabase s) as [rows|]; cbn.
  - by rewrite existsb_has_reply_id.
  - by rewrite bool_decide_eq_false_2 by (by intros ?%elem_of_nil).
Qed.

Lemma filter_update_liked_other rid other (rows : list ReplyRow) :
  other <> rid ->
  List.filter (has_reply_id other) (update_liked rid rows)
  = List.filter (has_reply_id other) rows.
Proof.
  intros Hne. unfold update_liked.
  induction rows as [|row rows IH]; cbn [map List.filter]; [done|].
  rewrite IH.
  assert (has_reply_id other (if has_reply_id rid row then with_liked row else row)
          = has_reply_id other row) as -> by (by destruct (has_reply_id rid row)).
  destruct (has_reply_id other row) eqn:E1; [|done].
  destruct (has_reply_id rid row) eqn:E2; [|done].
  unfold has_reply_id in *. apply String.eqb_eq in E1, E2. congruence.
Qed.

Lemma filter_update_liked_same rid (rows : list ReplyRow) :
  List.filter (has_reply_id rid) (update_liked rid rows)
  = map with_liked (List.filter (has_reply_id rid) rows).
Proof.
  unfold update_liked.
  induction rows as [|row rows IH]; cbn [map List.filter]; [done|].
  rewrite IH.
  assert (has_reply_id rid (if has_reply_id rid row then with_liked row else row)
          = has_reply_id rid row) as ->
    by (destruct (has_reply_id rid row) eqn:E; exact E).
  by destruct (has_reply_id rid row).
Qed.

Lemma update_liked_idempotent rid (rows : list ReplyRow) :
  update_liked rid (update_liked rid rows) = update_liked rid rows.
Proof.
  unfold update_liked. rewrite map_map. apply map_ext. intros row.
  destruct (has_reply_id rid row) eqn:E; [|by rewrite E].
  unfold has_reply_id in *. cbn. by rewrite E.
Qed.

(** X9: [reply_exists] only reads; it answers [True] exactly for the
    identifiers the table holds, [False] for every identifier when the
    database client is missing; and the batch query
    [get_existing_reply_ids] answers, among the identifiers it is given,
    exactly those for which [reply_exists] answers [True], without changing
    anything either. *)
Theorem X9_reply_exists_agrees_with_batch (rid : string) (ids : list string) (s : Sys) :
  reply_exists rid s = (bool_decide (rid ∈ stored_ids s), s) /\
  (supabase s = None -> (reply_exists rid s).1 = false) /\
  (get_existing_reply_ids ids s).2 = s /\
  (rid ∈ (get_existing_reply_ids ids s).1
     <-> rid ∈ ids /\ (reply_exists rid s).1 = true).
Proof.
  split_and!.
  - apply reply_exists_stored.
  - intros Hdb. unfold reply_exists. munfold. cbn. by rewrite Hdb.
  - unfold get_existing_reply_ids. munfold. cbn.
    by destruct (supabase s), ids.
  - rewrite get_existing_reply_ids_spec, reply_exists_stored. cbn.
    by rewrite bool_decide_eq_true.
Qed.

(** X10: saving and looking up.  After [save_reply] the identifier of the
    reply exists in the table exactly when there is a database client, which
    is also exactly when an identifier is answered; the answered identifier is
    that of a row holding the reply; a reply that was not stored gets one row,
    carrying its fields under the key the database chose; and the rows of every
    other reply are what they were. *)
Theorem X10_save_reply_then_exists (w : World) (reply : Reply) (s : Sys) :
  let r := save_reply w reply s in
  (reply_exists (reply_id reply) r.2).1 = connected s /\
  (is_Some r.1 <-> connected s = true) /\
  (forall id, r.1 = Some id ->
     exists row, row ∈ rows_of (reply_id reply) r.2 /\ row_id row = id) /\
  (connected s = true -> rows_of (reply_id reply) s = [] ->
     rows_of (reply_id reply) r.2
     = [mkRow (new_row_id w (tick s)) (reply_id reply) (original_tweet_id reply)
              (author_id reply) (content reply) (created_at reply) (liked reply)]) /\
  (forall other, other <> reply_id reply -> rows_of other r.2 = rows_of other s).
Proof.
  cbv zeta. unfold reply_exists, save_reply, rows_of, connected. munfold.
  cbn -[has_reply_id].
  destruct (supabase s) as [rows|] eqn:Hdb; cbn -[has_reply_id].
  2:{ rewrite Hdb. split_and!; try done. }
  set (new_row := mkRow (new_row_id w (tick s)) (reply_id reply) (original_tweet_id reply)
                    (author_id reply) (content reply) (created_at reply) (liked reply)).
  assert (has_reply_id (reply_id reply) new_row = true) as Hsame.
  { unfold has_reply_id. cbn. apply String_eqb_refl. }
  assert (forall other, other <> reply_id reply -> has_reply_id other new_row = false)
    as Hother.
  { intros other Hne. unfold has_reply_id. cbn. apply String.eqb_neq. congruence. }
  destruct (List.filter _ rows) as [|existing rest] eqn:Hf; cbn -[has_reply_id].
  - fold new_row.
    rewrite existsb_app. cbn -[has_reply_id]. rewrite Hsame, orb_true_r.
    rewrite !List.filter_app, Hf. cbn -[has_reply_id]. rewrite Hsame.
    split_and!; try done.
    + intros id [= <-]. exists new_row. split; [by left|done].
    + intros other Hne. rewrite List.filter_app. cbn -[has_reply_id].
      rewrite (Hother other Hne). by rewrite app_nil_r.
  - assert (In existing (List.filter (has_reply_id (reply_id reply)) rows)) as Hex
      by (rewrite Hf; by left).
    pose proof Hex as Hex2. apply filter_In in Hex2 as [Hin Hid].
    assert (existsb (has_reply_id (reply_id reply)) rows = true) as Hexists.
    { apply existsb_exists. eauto. }
    destruct (liked reply); cbn -[has_reply_id]; rewrite ?Hdb.
    + split_and!; try done.
      * rewrite existsb_has_reply_id, update_liked_ids, <- existsb_has_reply_id. done.
      * intros id [= <-]. rewrite filter_update_liked_same, Hf. cbn.
        exists (with_liked existing). split; [by left|done].
      * intros other Hne. by apply filter_update_liked_other.
    + split_and!; try done.
      intros id [= <-]. rewrite Hf. exists existing. split; [by left|done].
Qed.


Section OneRow.

Variable w : World.
Variable cfg : Config.

Lemma one_row_of_supabase s s' :
  supabase s' = supabase s -> one_row_per_reply s -> one_row_per_reply s'.
Proof. intros H. unfold one_row_per_reply, stored_ids. by rewrite H. Qed.

Lemma save_reply_one_row reply : preserves one_row_per_reply (save_reply w reply).
Proof.
  intros s Hs. unfold one_row_per_reply in *.
  pose proof (save_reply_effect w reply s) as H. cbv zeta in H.
  destruct H as (_ & H1 & H2 & H3 & _).
  destruct (decide (reply_id reply ∈ stored_ids s)) as [Hin|Hnew].
  - by rewrite H1.
  - destruct (supabase s) as [rows|] eqn:Hdb.
    + rewrite H2 by done. apply NoDup_app. split_and!; [done| |apply NoDup_singleton].
      intros x Hx ->%list_elem_of_singleton. done.
    + by rewrite H3.
Qed.

Lemma mark_reply_liked_one_row rid : preserves one_row_per_reply (mark_reply_liked rid).
Proof.
  intros s Hs. unfold one_row_per_reply in *.
  unfold mark_reply_liked, stored_ids in *. munfold. cbn.
  destruct (supabase s) as [rows|] eqn:Hdb; cbn in *; rewrite ?Hdb; [|constructor].
  by rewrite update_liked_ids.
Qed.

End OneRow.

#[global] Hint Resolve save_reply_one_row mark_reply_liked_one_row : pres.

#[global] Hint Extern 5 (preserves one_row_per_reply _) =>
  apply (preserves_keeps _ supabase);
    [ intros ? ? ?; by apply one_row_of_supabase
    | unfold _auto_like_reply, _auto_reply_to_comment, _generate_reply_content,
        get_existing_reply_ids;
      unfold_gateway; keeps_auto ] : pres.

Ltac unfold_loops :=
  unfold check_and_handle_replies, manual_deep_scan, deep_scan_tweet, deep_scan_reply,
    handle_tweet, process_page, handle_reply, engage, like_if_enabled, answer_if_enabled.

(** X11: one row per reply.  A table in which no reply is held by two rows
    stays so through [save_reply] and [mark_reply_liked], and so through a
    whole polling cycle and a whole manual deep scan, which saves every reply
    it meets without asking first whether it is stored. *)
Theorem X11_one_row_per_reply (w : World) (cfg : Config)
    (reply : Reply) (rid : string) (days : Z) :
  preserves one_row_per_reply (save_reply w reply) /\
  preserves one_row_per_reply (mark_reply_liked rid) /\
  preserves one_row_per_reply (check_and_handle_replies w cfg) /\
  preserves one_row_per_reply (manual_deep_scan w cfg days).
Proof.
  split_and!.
  - apply save_reply_one_row.
  - apply mark_reply_liked_one_row.
  - unfold_loops. cbv zeta. pres_auto.
  - unfold_loops. cbv zeta. pres_auto.
Qed.

Lemma X11_one_row_per_reply_witness :
  NoDup (stored_ids (manual_deep_scan one_reply_world basic_config 30 example_sys).2).
Proof.
  refine (proj2 (proj2 (proj2 (X11_one_row_per_reply one_reply_world basic_config
            (reply_of "r1") "r1" 30))) example_sys _).
  unfold one_row_per_reply. cbn.
  apply NoDup_cons. split; [|apply NoDup_singleton].
  intros H%list_elem_of_singleton. discriminate.
Defined.


(** ** What the statistics of a scan account for *)

Section Accounting.

Variable w : World.
Variable cfg : Config.

Lemma accounted_refl p : accounted p p.
Proof. unfold accounted. cbv zeta. split_and!; try done; lia. Qed.

Lemma accounted_trans p1 p2 p3 : accounted p1 p2 -> accounted p2 p3 -> accounted p1 p3.
Proof.
  unfold accounted. cbv zeta.
  intros (A1 & A2 & A3 & A4 & A5 & A6 & A7) (B1 & B2 & B3 & B4 & B5 & B6 & B7).
  split_and!; try congruence; lia.
Qed.

(** Only the trace matters of the state. *)
Lemma accounted_of_trace st s s' : trace s' = trace s -> accounted (st, s) (st, s').
Proof. intros H. unfold accounted. cbn. rewrite H. split_and!; try done; lia. Qed.

Lemma foldM_accounted {A} (f : CycleStats -> A -> M CycleStats) (l : list A) :
  (forall st a s, accounted (st, s) (f st a s)) ->
  forall st s, accounted (st, s) (foldM f l st s).
Proof.
  intros Hf. induction l as [|a l IH]; intros st s; cbn.
  - apply accounted_refl.
  - munfold. specialize (Hf st a s). destruct (f st a s) as [st1 s1].
    by apply (accounted_trans _ (st1, s1)).
Qed.

Lemma like_tweet_tally tweet_id s :
  let r := like_tweet w cfg tweet_id s in
  count_events is_autoreplied (trace r.2) = count_events is_autoreplied (trace s) /\
  count_events is_create (trace r.2) = count_events is_create (trace s) /\
  (if r.1
   then count_events is_like (trace r.2) = count_events is_like (trace s) + 1
   else count_events is_like (trace s) <= count_events is_like (trace r.2)
          <= count_events is_like (trace s) + 1).
Proof.
  cbv zeta. unfold like_tweet. munfold.
  pose proof (_check_quota_trace w cfg "likes" 1 s) as Ht.
  destruct (_check_quota w cfg "likes" 1 s) as [ok s1]. cbn in Ht.
  unfold count_events. rewrite <- Ht.
  destruct ok; cbn; [|lia].
  unfold _update_quota. munfold.
  mbreak; try congruence; lia.
Qed.

Lemma _auto_like_reply_tally rid s :
  let r := _auto_like_reply w cfg rid s in
  count_events is_autoreplied (trace r.2) = count_events is_autoreplied (trace s) /\
  count_events is_create (trace r.2) = count_events is_create (trace s) /\
  (if r.1
   then count_events is_like (trace r.2) = count_events is_like (trace s) + 1
   else count_events is_like (trace s) <= count_events is_like (trace r.2)
          <= count_events is_like (trace s) + 1).
Proof.
  cbv zeta. unfold _auto_like_reply. munfold. cbn.
  destruct (truthy (bot_user_id s)); cbn.
  - set (s0 := set_tick _ _).
    pose proof (like_tweet_tally rid s0) as Hl. cbv zeta in Hl.
    assert (forall p, p (EGetTweet rid) = false ->
              count_events p (trace s0) = count_events p (trace s)) as H1.
    { intros p Hp. unfold count_events. cbn. by rewrite Hp. }
    rewrite !H1 in Hl by done.
    destruct (get_tweet w (tick s) rid) as [|[author|]]; cbn; try done.
    destruct (opt_string_eqb author (bot_user_id s)); cbn; [|done].
    rewrite !H1 by done. lia.
  - apply like_tweet_tally.
Qed.

Lemma post_tweet_tally text image reply_to s :
  let r := post_tweet w cfg text image reply_to s in
  count_events is_autoreplied (trace r.2) = count_events is_autoreplied (trace s) /\
  count_events is_like (trace r.2) = count_events is_like (trace s) /\
  (if truthy r.1
   then count_events is_create (trace r.2) = count_events is_create (trace s) + 1
   else count_events is_create (trace s) <= count_events is_create (trace r.2)
          <= count_events is_create (trace s) + 1).
Proof.
  cbv zeta. unfold post_tweet. munfold.
  pose proof (_check_quota_trace w cfg "posts" 1 s) as Ht.
  destruct (_check_quota w cfg "posts" 1 s) as [ok s1]. cbn in Ht.
  unfold count_events. rewrite <- Ht.
  destruct ok; cbn; [|lia].
  unfold _update_quota. munfold.
  mbreak; try congruence; lia.
Qed.

Lemma _auto_reply_to_comment_tally reply s :
  let r := _auto_reply_to_comment w cfg reply s in
  count_events is_like (trace r.2) = count_events is_like (trace s) /\
  (if r.1
   then count_events is_autoreplied (trace r.2)
          = count_events is_autoreplied (trace s) + 1 /\
        count_events is_create (trace r.2) = count_events is_create (trace s) + 1
   else count_events is_autoreplied (trace r.2) = count_events is_autoreplied (trace s) /\
        count_events is_create (trace s) <= count_events is_create (trace r.2)).
Proof.
  cbv zeta. unfold _auto_reply_to_comment, _generate_reply_content. munfold. cbn.
  destruct (_ <=? _); cbn; [lia|].
  destruct (llm_generate_reply w _ reply) as [text|]; cbn;
    [|unfold count_events; cbn; lia].
  destruct (_ && _); cbn; [|unfold count_events; cbn; lia].
  set (s0 := set_tick _ _).
  assert (forall p, p (EGetUser (author_id reply)) = false ->
            p (ELLM (reply_id reply)) = false ->
            count_events p (trace s0) = count_events p (trace s)) as H0.
  { intros p H1 H2. unfold count_events. cbn. by rewrite H1, H2. }
  pose proof (post_tweet_tally text None (Some (reply_id reply)) s0) as Hp.
  cbv zeta in Hp. rewrite !H0 in Hp by done.
  destruct (post_tweet w cfg text None (Some (reply_id reply)) s0) as [tweet_id s1].
  cbn in Hp. destruct (truthy tweet_id); cbn.
  - unfold count_events in *. cbn. lia.
  - lia.
Qed.

Lemma answer_if_enabled_tally reply st0 s0 :
  let r := answer_if_enabled w cfg reply st0 s0 in
  checked_tweets r.1 = checked_tweets st0 /\
  startup_check r.1 = startup_check st0 /\
  new_replies r.1 = new_replies st0 /\
  likes_sent r.1 = likes_sent st0 /\
  count_events is_like (trace r.2) = count_events is_like (trace s0) /\
  replies_sent r.1 - replies_sent st0
    = count_events is_autoreplied (trace r.2) - count_events is_autoreplied (trace s0) /\
  replies_sent r.1 - replies_sent st0
    <= count_events is_create (trace r.2) - count_events is_create (trace s0) /\
  0 <= replies_sent r.1 - replies_sent st0 <= 1.
Proof.
  cbv zeta. unfold answer_if_enabled. munfold.
  destruct (auto_reply_enabled cfg); [|cbn; split_and!; try done; lia].
  pose proof (_auto_reply_to_comment_tally reply s0) as Ha. cbv zeta in Ha.
  destruct (_auto_reply_to_comment w cfg reply s0) as [[] s1]; cbn in *;
    split_and!; try done; lia.
Qed.

Lemma like_if_enabled_tally reply st0 s0 :
  let r := like_if_enabled w cfg reply st0 s0 in
  checked_tweets r.1 = checked_tweets st0 /\
  startup_check r.1 = startup_check st0 /\
  new_replies r.1 = new_replies st0 /\
  replies_sent r.1 = replies_sent st0 /\
  count_events is_autoreplied (trace r.2) = count_events is_autoreplied (trace s0) /\
  count_events is_create (trace r.2) = count_events is_create (trace s0) /\
  0 <= likes_sent r.1 - likes_sent st0
    <= count_events is_like (trace r.2) - count_events is_like (trace s0) /\
  likes_sent r.1 - likes_sent st0 <= 1.
Proof.
  cbv zeta. unfold like_if_enabled. munfold.
  destruct (auto_like_replies cfg); [|cbn; split_and!; try done; lia].
  pose proof (_auto_like_reply_tally (reply_id reply) s0) as Hl. cbv zeta in Hl.
  destruct (_auto_like_reply w cfg (reply_id reply) s0) as [[] s1]; cbn in Hl |- *.
  - pose proof (mark_reply_liked_trace (reply_id reply) s1) as Hm.
    destruct (mark_reply_liked (reply_id reply) s1) as [b s2]. cbn in Hm |- *.
    rewrite Hm. split_and!; try done; lia.
  - split_and!; try done; lia.
Qed.

Lemma engage_accounted reply st s :
  accounted (st, s) (engage w cfg reply (count_new st) s).
Proof.
  unfold engage. munfold.
  pose proof (like_if_enabled_tally reply (count_new st) s) as Hl. cbv zeta in Hl.
  destruct (like_if_enabled w cfg reply (count_new st) s) as [st1 s1]. cbn in Hl.
  pose proof (answer_if_enabled_tally reply st1 s1) as Ha. cbv zeta in Ha.
  destruct (answer_if_enabled w cfg reply st1 s1) as [st2 s2]. cbn in Ha.
  destruct Hl as (L1 & L2 & L3 & L4 & L5 & L6 & L7 & L8).
  destruct Ha as (H1 & H2 & H3 & H4 & H5 & H6 & H7 & H8).
  unfold accounted. cbn in *. split_and!; try congruence; lia.
Qed.

Lemma get_tweet_replies_tally p tweet_id max_results s :
  (forall q, p (ESearch q) = false) ->
  count_events p (trace (get_tweet_replies w cfg tweet_id max_results s).2)
  = count_events p (trace s).
Proof.
  intros Hp. unfold get_tweet_replies. munfold.
  pose proof (_check_quota_trace w cfg "reads" max_results s) as Ht.
  destruct (_check_quota w cfg "reads" max_results s) as [ok s1]. cbn in Ht.
  rewrite <- Ht.
  destruct ok; cbn -[collect_replies]; [|done].
  assert (count_events p (ESearch tweet_id :: trace s1) = count_events p (trace s1)) as Hs.
  { unfold count_events. cbn. by rewrite Hp. }
  destruct (search_recent_tweets w (tick s1) tweet_id) as [|[|tweet rest]];
    cbn -[collect_replies]; try done.
  set (s2 := set_tick _ _).
  pose proof (collect_replies_keeps trace w (bot_user_id s1) tweet_id (tweet :: rest)
                (fun _ _ => eq_refl) s2) as Hc.
  destruct (collect_replies _ _ _ _ s2) as [replies s3]. cbn -[count_events] in *.
  by rewrite Hc.
Qed.

Lemma accounted_same_stats st s s' :
  count_events is_autoreplied (trace s') = count_events is_autoreplied (trace s) ->
  count_events is_create (trace s') = count_events is_create (trace s) ->
  count_events is_like (trace s') = count_events is_like (trace s) ->
  accounted (st, s) (st, s').
Proof. intros H1 H2 H3. unfold accounted. cbn. rewrite H1, H2, H3. split_and!; try done; lia. Qed.

Lemma handle_reply_accounted E st reply s :
  accounted (st, s) (handle_reply w cfg E st reply s).
Proof.
  unfold handle_reply. munfold. cbn.
  destruct (bool_decide _); cbn; [apply accounted_refl|].
  destruct (bool_decide _); cbn; [by apply accounted_of_trace|].
  set (s0 := set_processed _ s).
  pose proof (save_reply_trace w reply s0) as Hs.
  destruct (save_reply w reply s0) as [saved_id s1]. cbn in Hs.
  destruct (truthy saved_id); cbn.
  - apply (accounted_trans _ (st, s1)); [by apply accounted_of_trace|].
    apply engage_accounted.
  - unfold accounted. cbn. rewrite Hs. cbn. split_and!; try done; lia.
Qed.

Lemma process_page_accounted replies st s :
  accounted (st, s) (process_page w cfg replies st s).
Proof.
  unfold process_page. munfold.
  pose proof (get_existing_reply_ids_id (map reply_id replies) s) as Hid.
  destruct (get_existing_reply_ids (map reply_id replies) s) as [existing s1].
  cbn in Hid. subst s1.
  apply foldM_accounted. intros. apply handle_reply_accounted.
Qed.

Lemma handle_tweet_accounted st tweet_id s :
  accounted (st, s) (handle_tweet w cfg st tweet_id s).
Proof.
  unfold handle_tweet. munfold.
  pose proof (fun p H => get_tweet_replies_tally p tweet_id 10 s H) as Ht.
  destruct (get_tweet_replies w cfg tweet_id 10 s) as [replies s1]. cbn in Ht.
  assert (accounted (st, s) (st, s1)) as H01 by (apply accounted_same_stats; by apply Ht).
  destruct replies as [|reply rest]; [done|].
  apply (accounted_trans _ (st, s1)); [done|]. apply process_page_accounted.
Qed.

Lemma deep_scan_reply_accounted cache st reply s :
  accounted (st, s) (deep_scan_reply w cfg cache st reply s).
Proof.
  unfold deep_scan_reply. munfold.
  destruct (bool_decide _); [apply accounted_refl|].
  pose proof (save_reply_trace w reply s) as Hs.
  destruct (save_reply w reply s) as [saved_id s1]. cbn in Hs.
  apply (accounted_trans _ (st, s1)); [by apply accounted_of_trace|].
  apply engage_accounted.
Qed.

Lemma deep_scan_tweet_accounted cache st tweet_id s :
  accounted (st, s) (deep_scan_tweet w cfg cache st tweet_id s).
Proof.
  unfold deep_scan_tweet. munfold.
  pose proof (fun p H => get_tweet_replies_tally p tweet_id 10 s H) as Ht.
  destruct (get_tweet_replies w cfg tweet_id 10 s) as [replies s1]. cbn in Ht.
  apply (accounted_trans _ (st, s1)); [apply accounted_same_stats; by apply Ht|].
  apply foldM_accounted. intros. apply deep_scan_reply_accounted.
Qed.

(** A cycle with a database client, from its first statistics on. *)
Lemma cycle_accounted s :
  connected s = true ->
  let tweets := get_recent_tweets w (tick s) (if startup_check_done s then 24 else 168) in
  exists stats,
    (check_and_handle_replies w cfg s).1 = Some stats /\
    accounted (mkStats (Z.of_nat (length tweets)) 0 0 0 0 (negb (startup_check_done s)), s)
              (stats, (check_and_handle_replies w cfg s).2).
Proof.
  intros Hdb. cbv zeta. unfold connected in Hdb.
  unfold check_and_handle_replies. munfold. cbn.
  destruct (supabase s) as [rows|]; [|done]. cbn.
  set (tweets := get_recent_tweets w (tick s) _).
  set (st0 := mkStats _ _ _ _ _ _).
  set (s0 := set_startup true _).
  pose proof (foldM_accounted (handle_tweet w cfg) tweets
                (fun st a s => handle_tweet_accounted st a s) st0 s0) as Hloop.
  destruct (foldM (handle_tweet w cfg) tweets st0 s0) as [stats s1]. cbn.
  exists stats. split; [done|].
  apply (accounted_trans _ (st0, s0)); [by apply accounted_of_trace|].
  apply (accounted_trans _ (stats, s1)); [done|]. by apply accounted_of_trace.
Qed.

Lemma deep_scan_accounted days s :
  connected s = true ->
  let tweets := get_recent_tweets w (tick s) (days * 24) in
  exists stats,
    (manual_deep_scan w cfg days s).1 = Some stats /\
    accounted (mkStats (Z.of_nat (length tweets)) 0 0 0 0 false, s)
              (stats, (manual_deep_scan w cfg days s).2).
Proof.
  intros Hdb. cbv zeta. unfold connected in Hdb.
  unfold manual_deep_scan. munfold. cbn.
  destruct (supabase s) as [rows|]; [|done]. cbn.
  set (tweets := get_recent_tweets w (tick s) _).
  set (st0 := mkStats _ _ _ _ _ _).
  set (s0 := set_processed _ _).
  pose proof (foldM_accounted (deep_scan_tweet w cfg (processed_replies s)) tweets
                (fun st a s1 => deep_scan_tweet_accounted (processed_replies s) st a s1)
                st0 s0) as Hloop.
  destruct (foldM (deep_scan_tweet w cfg (processed_replies s)) tweets st0 s0)
    as [stats s1]. cbn.
  exists stats. split; [done|].
  apply (accounted_trans _ (st0, s0)); [by apply accounted_of_trace|].
  apply (accounted_trans _ (stats, s1)); [done|]. by apply accounted_of_trace.
Qed.

End Accounting.

(** X13: the statistics a polling cycle answers are true to what it did.
    With a database client, the cycle answers statistics in which the tweets
    checked are the owned tweets it was given for its lookback (168 hours on
    the first cycle, 24 afterwards), the replies sent are exactly the
    auto-replies counted for their conversations during the cycle, each of
    them a tweet submitted to the platform, the likes sent were all asked of
    the platform, and neither exceeds the number of new replies. *)
Theorem X13_cycle_statistics_are_accounted_for (w : World) (cfg : Config) (s : Sys) :
  connected s = true ->
  exists stats,
    (check_and_handle_replies w cfg s).1 = Some stats /\
    let s' := (check_and_handle_replies w cfg s).2 in
    checked_tweets stats
      = Z.of_nat (length (get_recent_tweets w (tick s)
                            (if startup_check_done s then 24 else 168))) /\
    startup_check stats = negb (startup_check_done s) /\
    replies_sent stats
      = count_events is_autoreplied (trace s') - count_events is_autoreplied (trace s) /\
    replies_sent stats
      <= count_events is_create (trace s') - count_events is_create (trace s) /\
    0 <= likes_sent stats
      <= count_events is_like (trace s') - count_events is_like (trace s) /\
    0 <= replies_sent stats <= new_replies stats /\
    likes_sent stats <= new_replies stats.
Proof.
  intros Hdb. destruct (cycle_accounted w cfg s Hdb) as (stats & Hres & Hacc).
  exists stats. split; [done|]. cbv zeta. unfold accounted in Hacc. cbn in Hacc.
  destruct Hacc as (A1 & A2 & A3 & A4 & A5 & A6 & A7).
  split_and!; try done; lia.
Qed.

Lemma X13_cycle_statistics_are_accounted_for_witness :
  exists stats,
    (check_and_handle_replies one_reply_world basic_config
       (initial_sys (Some "bot") (Some []))).1 = Some stats /\
    replies_sent stats = 1.
Proof.
  destruct (X13_cycle_statistics_are_accounted_for one_reply_world basic_config
              (initial_sys (Some "bot") (Some [])) eq_refl)
    as (stats & Hres & _ & _ & Hsent & _).
  exists stats. split; [exact Hres|].
  rewrite Hsent. by vm_compute.
Defined.

(** ** The startup check and the manual deep scan *)

Section Scans.

Variable w : World.
Variable cfg : Config.

Lemma handle_tweet_startup st tweet_id :
  keeps startup_check_done (handle_tweet w cfg st tweet_id).
Proof. unfold_handler. unfold_gateway. cbv zeta. keeps_auto. Qed.

Lemma deep_scan_tweet_startup cache st tweet_id :
  keeps startup_check_done (deep_scan_tweet w cfg cache st tweet_id).
Proof. unfold_handler. unfold_gateway. cbv zeta. keeps_auto. Qed.

Lemma cycle_startup s :
  startup_check_done (check_and_handle_replies w cfg s).2
  = (connected s || startup_check_done s).
Proof.
  unfold check_and_handle_replies, connected. munfold. cbn.
  destruct (supabase s) as [rows|]; cbn; [|done].
  set (tweets := get_recent_tweets w (tick s) _).
  set (st0 := mkStats _ _ _ _ _ _).
  set (s0 := set_startup true _).
  pose proof (keeps_foldM startup_check_done (handle_tweet w cfg) tweets st0
                handle_tweet_startup s0) as Hloop.
  by destruct (foldM (handle_tweet w cfg) tweets st0 s0) as [stats s1].
Qed.

Lemma cycle_disconnected s :
  connected s = false -> check_and_handle_replies w cfg s = (None, s).
Proof.
  unfold check_and_handle_replies, connected. munfold. cbn.
  by destruct (supabase s).
Qed.

Lemma deep_scan_reply_skips_cached r cache st reply :
  r ∈ cache -> keeps (acts_view r) (deep_scan_reply w cfg cache st reply).
Proof.
  intros Hr s. unfold deep_scan_reply. munfold.
  destruct (bool_decide (reply_id reply ∈ cache)) eqn:Hc; [done|].
  apply bool_decide_eq_false in Hc.
  assert (reply_id reply <> r) as Hne by (intros Heq; apply Hc; by rewrite Heq).
  pose proof (save_reply_trace w reply s) as Hs.
  destruct (save_reply w reply s) as [saved_id s1]. cbn in Hs.
  pose proof (engage_effect w cfg r reply (count_new st) s1) as (_ & _ & _ & He).
  rewrite (He Hne). unfold acts_view. by rewrite Hs.
Qed.

Lemma deep_scan_tweet_skips_cached r cache st tweet_id :
  r ∈ cache -> keeps (acts_view r) (deep_scan_tweet w cfg cache st tweet_id).
Proof.
  intros Hr. unfold deep_scan_tweet. apply keeps_bind.
  - apply get_tweet_replies_acts.
  - intros replies. apply keeps_foldM. intros. by apply deep_scan_reply_skips_cached.
Qed.

Lemma handle_tweet_connected st tweet_id :
  keeps connected (handle_tweet w cfg st tweet_id).
Proof.
  unfold handle_tweet. apply keeps_bind.
  - apply keeps_connected_of_data, get_tweet_replies_data.
  - intros [|reply rest]; [apply keeps_ret|].
    unfold process_page. apply keeps_bind.
    + intros s. pose proof (get_existing_reply_ids_id (map reply_id (reply :: rest)) s) as Hid.
      unfold id in Hid. by rewrite Hid.
    + intros existing. apply keeps_foldM. intros. apply handle_reply_connected.
Qed.

Lemma cycle_connected : keeps connected (check_and_handle_replies w cfg).
Proof.
  pose proof handle_tweet_connected.
  unfold check_and_handle_replies. cbv zeta. keeps_auto.
Qed.

End Scans.

(** X14: the startup check.  A cycle without a database client changes
    nothing, so the startup check stays due; a cycle with one leaves it done.
    [force_startup_check] with a database client looks back 168 hours,
    whatever the flag was, says so in its statistics, and leaves the check
    done, so that the cycle after it is an ordinary one that looks back 24
    hours; without a client it answers the error and leaves the check due. *)
Theorem X14_startup_check (w : World) (cfg : Config) (s : Sys) :
  let c := check_and_handle_replies w cfg s in
  let f := force_startup_check w cfg s in
  (connected s = false -> c = (None, s) /\ f = (None, set_startup false s)) /\
  (connected s = true ->
     startup_check_done c.2 = true /\ startup_check_done f.2 = true /\
     exists stats, f.1 = Some stats /\ startup_check stats = true /\
       checked_tweets stats = Z.of_nat (length (get_recent_tweets w (tick s) 168))) /\
  (connected s = true ->
     exists stats, (check_and_handle_replies w cfg f.2).1 = Some stats /\
       startup_check stats = false /\
       checked_tweets stats = Z.of_nat (length (get_recent_tweets w (tick f.2) 24))).
Proof.
  cbv zeta.
  assert (force_startup_check w cfg s = check_and_handle_replies w cfg (set_startup false s))
    as Hf by done.
  rewrite Hf. split_and!.
  - intros Hdb. split; by apply cycle_disconnected.
  - intros Hdb. rewrite !cycle_startup.
    change (connected (set_startup false s)) with (connected s). rewrite Hdb.
    split_and!; try done.
    destruct (cycle_accounted w cfg (set_startup false s) Hdb) as (stats & Hres & Hacc).
    exists stats. split; [done|]. unfold accounted in Hacc. cbn in Hacc.
    by destruct Hacc as (A1 & A2 & _).
  - intros Hdb.
    set (s1 := (check_and_handle_replies w cfg (set_startup false s)).2).
    assert (connected s1 = true) as Hdb1 by (unfold s1; by rewrite cycle_connected).
    assert (startup_check_done s1 = true) as Hflag.
    { unfold s1. rewrite cycle_startup.
      change (connected (set_startup false s)) with (connected s). by rewrite Hdb. }
    destruct (cycle_accounted w cfg s1 Hdb1) as (stats & Hres & Hacc).
    exists stats. split; [done|]. unfold accounted in Hacc. cbn in Hacc.
    destruct Hacc as (-> & -> & _). by rewrite Hflag.
Qed.

(** X15: the manual deep scan leaves the handler as it found it: the cache
    of processed replies is afterwards exactly what it was before (the replies
    the scan acted on are not added to it), the startup check is neither done
    nor undone, and without a database client nothing at all happens.  The
    replies of the cache are passed over: for none of them a like is asked or
    an auto-reply counted. *)
Theorem X15_manual_deep_scan_restores_cache (w : World) (cfg : Config) (days : Z) (s : Sys) :
  let r := manual_deep_scan w cfg days s in
  processed_replies r.2 = processed_replies s /\
  startup_check_done r.2 = startup_check_done s /\
  (connected s = false -> r = (None, s)) /\
  (forall cached, cached ∈ processed_replies s ->
     likes_of cached (trace r.2) = likes_of cached (trace s) /\
     autoreplies_to cached (trace r.2) = autoreplies_to cached (trace s)).
Proof.
  cbv zeta. unfold manual_deep_scan, connected. munfold. cbn.
  destruct (supabase s) as [rows|] eqn:Hdb; cbn; [|done].
  set (tweets := get_recent_tweets w (tick s) _).
  set (st0 := mkStats _ _ _ _ _ _).
  set (s0 := set_processed _ _).
  pose proof (keeps_foldM startup_check_done (deep_scan_tweet w cfg (processed_replies s))
                tweets st0 (deep_scan_tweet_startup w cfg (processed_replies s)) s0) as Hflag.
  pose proof (fun cached (H : cached ∈ processed_replies s) =>
                keeps_foldM (acts_view cached)
                  (deep_scan_tweet w cfg (processed_replies s)) tweets st0
                  (fun st a => deep_scan_tweet_skips_cached w cfg cached
                                 (processed_replies s) st a H) s0) as Hacts.
  destruct (foldM (deep_scan_tweet w cfg (processed_replies s)) tweets st0 s0)
    as [stats s1]. cbn in *.
  split_and!; try done.
  intros cached Hc. specialize (Hacts cached Hc).
  unfold acts_view in Hacts. injection Hacts as H1 H2. split; [exact H1|exact H2].
Qed.

(** X16: the statistics of a manual deep scan are true to what it did, in
    the way those of a polling cycle are: the tweets checked are the owned
    tweets of the last [days * 24] hours, the replies sent are exactly the
    auto-replies counted during the scan, each of them submitted to the
    platform, the likes sent were all asked of the platform, and neither
    exceeds the number of replies the scan took for new. *)
Theorem X16_deep_scan_statistics_are_accounted_for (w : World) (cfg : Config)
    (days : Z) (s : Sys) :
  connected s = true ->
  exists stats,
    (manual_deep_scan w cfg days s).1 = Some stats /\
    let s' := (manual_deep_scan w cfg days s).2 in
    checked_tweets stats = Z.of_nat (length (get_recent_tweets w (tick s) (days * 24))) /\
    startup_check stats = false /\
    replies_sent stats
      = count_events is_autoreplied (trace s') - count_events is_autoreplied (trace s) /\
    replies_sent stats
      <= count_events is_create (trace s') - count_events is_create (trace s) /\
    0 <= likes_sent stats
      <= count_events is_like (trace s') - count_events is_like (trace s) /\
    0 <= replies_sent stats <= new_replies stats /\
    likes_sent stats <= new_replies stats.
Proof.
  intros Hdb. destruct (deep_scan_accounted w cfg days s Hdb) as (stats & Hres & Hacc).
  exists stats. split; [done|]. cbv zeta. unfold accounted in Hacc. cbn in Hacc.
  destruct Hacc as (A1 & A2 & A3 & A4 & A5 & A6 & A7).
  split_and!; try done; lia.
Qed.

Lemma X16_deep_scan_statistics_are_accounted_for_witness :
  exists stats,
    (manual_deep_scan one_reply_world basic_config 30 after_restart).1 = Some stats /\
    replies_sent stats = 1.
Proof.
  destruct (X16_deep_scan_statistics_are_accounted_for one_reply_world basic_config 30
              after_restart eq_refl)
    as (stats & Hres & _ & _ & Hsent & _).
  exists stats. split; [exact Hres|].
  rewrite Hsent. by vm_compute.
Defined.

(** ** One reply at a time *)

Lemma dict_get_set_eq key v d : dict_get key (dict_set key v d) = Some v.
Proof.
  induction d as [|[k x] d IH]; cbn.
  - by rewrite String_eqb_refl.
  - destruct (String.eqb k key) eqn:E; cbn; by rewrite E.
Qed.

Lemma dict_get_set_ne key other v d :
  other <> key -> dict_get other (dict_set key v d) = dict_get other d.
Proof.
  intros Hne. induction d as [|[k x] d IH]; cbn.
  - destruct (String.eqb key other) eqn:E; [|done].
    apply String.eqb_eq in E. congruence.
  - destruct (String.eqb k key) eqn:E; cbn.
    + apply String.eqb_eq in E. subst k.
      destruct (String.eqb key other) eqn:E2; [|done].
      apply String.eqb_eq in E2. congruence.
    + by rewrite IH.
Qed.

Section OneReply.

Variable w : World.
Variable cfg : Config.

Lemma post_tweet_trace_no_image text reply_to s :
  let r := post_tweet w cfg text None reply_to s in
  let submitted := ECreateTweet text (if truthy reply_to then reply_to else None) in
  (truthy r.1 = true -> trace r.2 = submitted :: trace s) /\
  (trace r.2 = trace s \/ trace r.2 = submitted :: trace s) /\
  conversation_replies r.2 = conversation_replies s.
Proof.
  cbv zeta. split_and!; [| |apply post_tweet_conversations].
  all: unfold post_tweet; munfold.
  all: pose proof (_check_quota_trace w cfg "posts" 1 s) as Ht.
  all: destruct (_check_quota w cfg "posts" 1 s) as [ok s1]; cbn in Ht.
  all: rewrite <- Ht; destruct ok; cbn; try done; try (by left).
  all: unfold _update_quota; munfold; mbreak; try done; try (by right).
Qed.

End OneReply.


Section OwnReply.

Variable w : World.
Variable cfg : Config.
Variable bot : option string.
Variable rid : string.
Hypothesis bot_known : truthy bot = true.
Hypothesis attributed : forall n, get_tweet w n rid = GetTweetData (Some bot).

Lemma like_tweet_liked_times n q : preserves (liked_times bot rid n) (like_tweet w cfg q).
Proof.
  intros s [Hb Hl]. unfold liked_times.
  pose proof (like_tweet_data w cfg q s) as Hd.
  assert (bot_user_id (like_tweet w cfg q s).2 = bot) as Hb'
    by (unfold data_view in Hd; congruence).
  split; [done|].
  destruct (decide (q = rid)) as [->|Hne].
  - pose proof (_check_quota_data w cfg "likes" 1 s) as Hcd.
    pose proof (_check_quota_trace w cfg "likes" 1 s) as Hct.
    unfold like_tweet. munfold.
    destruct (_check_quota w cfg "likes" 1 s) as [ok s1]. cbn in Hcd, Hct.
    assert (bot_user_id s1 = bot) as Hb1 by (unfold data_view in Hcd; congruence).
    destruct ok; cbn; [|by rewrite Hct].
    rewrite attributed, Hb1. cbn.
    rewrite (proj2 (is_own_true bot bot)) by done. cbn. by rewrite Hct.
  - pose proof (like_tweet_other w cfg rid q Hne s) as Ho.
    unfold acts_view in Ho. congruence.
Qed.

Lemma liked_times_of_view n s s' :
  (bot_user_id s', likes_of rid (trace s')) = (bot_user_id s, likes_of rid (trace s)) ->
  liked_times bot rid n s -> liked_times bot rid n s'.
Proof. intros [= H1 H2] [Hb Hl]. unfold liked_times. by rewrite H1, H2. Qed.

End OwnReply.

#[global] Hint Resolve like_tweet_liked_times : pres.

#[global] Hint Extern 5 (preserves (liked_times _ ?r _) _) =>
  apply (preserves_keeps _ (fun s => (bot_user_id s, likes_of r (trace s))));
    [ intros ? ? ?; by apply liked_times_of_view
    | unfold _auto_reply_to_comment, _generate_reply_content, get_existing_reply_ids,
        save_reply, mark_reply_liked, post_tweet, get_tweet_replies, _check_quota,
        _update_quota;
      keeps_auto ] : pres.

(** X18: no like for a reply that the platform attributes to the bot.
    With the account identifier known, if the look-up of a tweet always names
    the bot as its author, then no like is ever asked for that tweet: not by
    [like_tweet], not by [_auto_like_reply], and not in the course of a whole
    polling cycle or a whole manual deep scan, whatever else they find. *)
Theorem X18_no_like_for_a_reply_of_the_bot (w : World) (cfg : Config)
    (rid : string) (days : Z) (s : Sys) :
  truthy (bot_user_id s) = true ->
  (forall n, get_tweet w n rid = GetTweetData (Some (bot_user_id s))) ->
  likes_of rid (trace (like_tweet w cfg rid s).2) = likes_of rid (trace s) /\
  likes_of rid (trace (_auto_like_reply w cfg rid s).2) = likes_of rid (trace s) /\
  likes_of rid (trace (check_and_handle_replies w cfg s).2) = likes_of rid (trace s) /\
  likes_of rid (trace (manual_deep_scan w cfg days s).2) = likes_of rid (trace s).
Proof.
  intros Hbot Hown.
  assert (liked_times (bot_user_id s) rid (likes_of rid (trace s)) s) as Hs by done.
  split_and!.
  - by apply (like_tweet_liked_times w cfg (bot_user_id s) rid Hbot Hown _ rid s).
  - assert (preserves (liked_times (bot_user_id s) rid (likes_of rid (trace s)))
              (_auto_like_reply w cfg rid)) as H
      by (unfold _auto_like_reply; pres_auto).
    by apply H.
  - assert (preserves (liked_times (bot_user_id s) rid (likes_of rid (trace s)))
              (check_and_handle_replies w cfg)) as H
      by (unfold_loops; unfold _auto_like_reply; cbv zeta; pres_auto).
    by apply H.
  - assert (preserves (liked_times (bot_user_id s) rid (likes_of rid (trace s)))
              (manual_deep_scan w cfg days)) as H
      by (unfold_loops; unfold _auto_like_reply; cbv zeta; pres_auto).
    by apply H.
Qed.

Lemma X18_no_like_for_a_reply_of_the_bot_witness :
  likes_of "r1"
    (trace (check_and_handle_replies own_reply_world basic_config
              (initial_sys (Some "bot") (Some []))).2)
  = likes_of "r1" (trace (initial_sys (Some "bot") (Some []))).
Proof.
  refine (proj1 (proj2 (proj2 (X18_no_like_for_a_reply_of_the_bot own_reply_world
            basic_config "r1" 30 (initial_sys (Some "bot") (Some [])) _ _)))).
  - reflexivity.
  - intros n. reflexivity.
Defined.

(** ** Discovery *)

Section Discovery.

Variable w : World.
Variable cfg : Config.

Lemma collect_replies_shape bot tweet_id tweets_data : forall s,
  let replies := (collect_replies w bot tweet_id tweets_data s).1 in
  (length replies <= length tweets_data)%nat /\
  Forall (fun reply =>
            original_tweet_id reply = tweet_id /\ liked reply = false /\
            is_own bot (author_id reply) = false /\
            exists tweet, tweet ∈ tweets_data /\ rt_id tweet = reply_id reply /\
              rt_conversation_id tweet = Some tweet_id /\
              rt_author_id tweet = author_id reply /\ rt_text tweet = content reply)
         replies.
Proof.
  induction tweets_data as [|tweet rest IH]; intros s; cbv zeta; cbn.
  - split; [lia|constructor].
  - assert (forall s0,
              let replies := (collect_replies w bot tweet_id rest s0).1 in
              (length replies <= S (length rest))%nat /\
              Forall (fun reply =>
                original_tweet_id reply = tweet_id /\ liked reply = false /\
                is_own bot (author_id reply) = false /\
                exists tw, tw ∈ tweet :: rest /\ rt_id tw = reply_id reply /\
                  rt_conversation_id tw = Some tweet_id /\
                  rt_author_id tw = author_id reply /\ rt_text tw = content reply)
                replies) as IH'.
    { intros s0. cbv zeta. destruct (IH s0) as [Hlen Hall]. split; [lia|].
      eapply Forall_impl; [exact Hall|]. cbn.
      intros reply (H1 & H2 & H3 & tw & H4 & H5). split_and!; try done.
      exists tw. split; [by right|done]. }
    destruct (opt_string_eqb (rt_conversation_id tweet) (Some tweet_id)) eqn:Hconv; cbn;
      [|apply IH'].
    destruct (is_own bot (rt_author_id tweet)) eqn:Hown; [apply IH'|].
    apply opt_string_eqb_true in Hconv.
    munfold.
    destruct (rt_created_at tweet) as [t|]; cbn.
    + specialize (IH s). cbv zeta in IH.
      specialize (IH' s). cbv zeta in IH'.
      destruct (collect_replies w bot tweet_id rest s) as [replies s2]. cbn in *.
      split; [lia|]. constructor; [|apply IH'].
      cbn. split_and!; try done. exists tweet. split; [by left|done].
    + specialize (IH (set_tick (S (tick s)) s)). cbv zeta in IH.
      specialize (IH' (set_tick (S (tick s)) s)). cbv zeta in IH'.
      destruct (collect_replies w bot tweet_id rest _) as [replies s2]. cbn in *.
      split; [lia|]. constructor; [|apply IH'].
      cbn. split_and!; try done. exists tweet. split; [by left|done].
Qed.

End Discovery.

(** X19: what discovery hands over.  Every reply [get_tweet_replies]
    answers was among the tweets the search answered, belongs to the
    conversation of the tweet asked for, carries that tweet as its original,
    the author and text the platform gave, [liked] false, and is not by the
    bot when the account identifier is known.  When the quota check grants
    the search, the reads counter rises by the number of tweets the platform
    answered, whether or not they were kept. *)
Theorem X19_discovered_replies (w : World) (cfg : Config)
    (tweet_id : string) (max_results : Z) (s : Sys) :
  let r := get_tweet_replies w cfg tweet_id max_results s in
  let s1 := (_check_quota w cfg "reads" max_results s).2 in
  Forall (fun reply =>
            original_tweet_id reply = tweet_id /\ liked reply = false /\
            is_own (bot_user_id s) (author_id reply) = false /\
            exists tweets_data tweet,
              search_recent_tweets w (S (tick s)) tweet_id = SearchData tweets_data /\
              tweet ∈ tweets_data /\ rt_id tweet = reply_id reply /\
              rt_conversation_id tweet = Some tweet_id /\
              rt_author_id tweet = author_id reply /\ rt_text tweet = content reply)
         r.1 /\
  (forall tweets_data,
     (_check_quota w cfg "reads" max_results s).1 = true ->
     search_recent_tweets w (S (tick s)) tweet_id = SearchData tweets_data ->
     (length r.1 <= length tweets_data)%nat /\
     usage_of "reads" r.2 = usage_of "reads" s1 + Z.of_nat (length tweets_data)).
Proof.
  cbv zeta. unfold get_tweet_replies. munfold.
  destruct (_check_quota_cases w cfg "reads" max_results s)
    as (s1 & Hq & _ & Hd & _ & _ & Htick & _).
  rewrite Hq. cbn [fst snd].
  assert (bot_user_id s1 = bot_user_id s) as Hb by (unfold data_view in Hd; congruence).
  destruct (negb (exceeds _ _ _)); cbn -[collect_replies].
  2:{ split; [constructor|done]. }
  rewrite Htick.
  destruct (search_recent_tweets w (S (tick s)) tweet_id) as [|tweets_data] eqn:Hresp;
    cbn -[collect_replies].
  { split; [constructor|done]. }
  destruct tweets_data as [|tweet rest]; cbn -[collect_replies].
  { split; [constructor|]. intros data _ [= <-]. cbn. split; [lia|]. unfold usage_of. cbn. lia. }
  set (s2 := set_tick _ _).
  pose proof (collect_replies_shape w (bot_user_id s1) tweet_id (tweet :: rest) s2) as Hc.
  pose proof (collect_replies_keeps quota_usage w (bot_user_id s1) tweet_id
                (tweet :: rest) (fun _ _ => eq_refl) s2) as Hk.
  cbv zeta in Hc.
  destruct (collect_replies _ _ _ _ s2) as [replies s3]. cbn -[length] in *.
  destruct Hc as [Hlen Hall]. split.
  - eapply Forall_impl; [exact Hall|]. cbn -[length].
    intros reply (H1 & H2 & H3 & tw & H4 & H5). rewrite <- Hb. split_and!; try done.
    by exists (tweet :: rest), tw.
  - intros data _ [= <-]. split; [done|].
    unfold _update_quota. munfold. cbn -[length]. unfold usage_of at 1. cbn -[length].
    rewrite lookup_insert_eq. cbn -[length]. unfold usage_of. by rewrite Hk.
Qed.

(** ** Sorting by decreasing key *)

Section SortDesc.

Context {A : Type} (key : A -> Z).

Lemma insert_by_perm x l : insert_by key x l ≡ₚ x :: l.
Proof.
  induction l as [|y l IH]; cbn; [done|].
  destruct (key x <? key y); [|done].
  rewrite IH. apply Permutation_swap.
Qed.

Lemma sort_desc_by_perm l : sort_desc_by key l ≡ₚ l.
Proof.
  induction l as [|x l IH]; cbn; [done|].
  change (foldr (insert_by key) [] l) with (sort_desc_by key l).
  by rewrite insert_by_perm, IH.
Qed.

Lemma insert_by_sorted x l :
  StronglySorted (fun a b => key b <= key a) l ->
  StronglySorted (fun a b => key b <= key a) (insert_by key x l).
Proof.
  induction 1 as [|y l Hl IH Hy]; cbn.
  - repeat constructor.
  - destruct (key x <? key y) eqn:E.
    + apply Z.ltb_lt in E. constructor; [done|].
      rewrite insert_by_perm. constructor; [lia|done].
    + apply Z.ltb_ge in E. constructor; [by constructor|].
      constructor; [done|].
      eapply Forall_impl; [exact Hy|]. cbn. intros. lia.
Qed.

Lemma sort_desc_by_sorted l :
  StronglySorted (fun a b => key b <= key a) (sort_desc_by key l).
Proof.
  induction l as [|x l IH]; cbn; [constructor|]. by apply insert_by_sorted.
Qed.

(** Equal keys keep their order. *)
Lemma insert_by_stable k x l :
  List.filter (fun a => key a =? k) (insert_by key x l)
  = List.filter (fun a => key a =? k) (x :: l).
Proof.
  induction l as [|y l IH]; [done|].
  cbn [insert_by]. destruct (key x <? key y) eqn:E; [|done].
  apply Z.ltb_lt in E.
  cbn [List.filter]. rewrite IH. cbn [List.filter].
  destruct (key x =? k) eqn:Ex; destruct (key y =? k) eqn:Ey; try done.
  apply Z.eqb_eq in Ex, Ey. lia.
Qed.

Lemma sort_desc_by_stable k l :
  List.filter (fun a => key a =? k) (sort_desc_by key l)
  = List.filter (fun a => key a =? k) l.
Proof.
  induction l as [|x l IH]; [done|].
  cbn [sort_desc_by foldr].
  change (foldr (insert_by key) [] l) with (sort_desc_by key l).
  rewrite insert_by_stable. cbn [List.filter]. by rewrite IH.
Qed.

(** The front of a sorted list against the rest of it. *)
Lemma sorted_take_drop n l :
  StronglySorted (fun a b => key b <= key a) l ->
  forall kept x, kept ∈ take n l -> x ∈ drop n l -> key x <= key kept.
Proof.
  intros Hs. revert n. induction Hs as [|y l Hl IH Hy]; intros n kept x Hk Hx.
  - rewrite take_nil in Hk. by apply elem_of_nil in Hk.
  - destruct n as [|n]; cbn in *; [by apply elem_of_nil in Hk|].
    apply elem_of_cons in Hk as [->|Hk].
    + apply (subseteq_drop n l) in Hx.
      rewrite Forall_forall in Hy. by apply Hy.
    + by apply (IH n).
Qed.

End SortDesc.

Lemma insert_desc_insert_by x l : insert_desc x l = insert_by snd x l.
Proof. induction l as [|y l IH]; cbn; [done|]. by rewrite IH. Qed.

Lemma sorted_desc_sort_desc_by l : sorted_desc l = sort_desc_by snd l.
Proof.
  induction l as [|x l IH]; cbn; [done|].
  unfold sorted_desc, sort_desc_by in IH. by rewrite IH, insert_desc_insert_by.
Qed.

(** X20: the clean-up of the conversation counters keeps the highest.  A
    table of at most 100 conversations is left alone; a larger one is cut down
    to exactly 50 entries, all of them entries of the table, and every entry
    that is dropped has a counter no higher than every entry that is kept;
    among entries of equal counter the earlier inserted come first. *)
Theorem X20_trim_conversations_keeps_the_highest (d : list (string * Z)) :
  ((length d <= conversations_cap)%nat -> trim_conversations d = d) /\
  ((conversations_cap < length d)%nat ->
     length (trim_conversations d) = conversations_keep /\
     exists dropped,
       (trim_conversations d ++ dropped)%list ≡ₚ d /\
       (forall kept x, kept ∈ trim_conversations d -> x ∈ dropped -> x.2 <= kept.2) /\
       (forall count,
          List.filter (fun kv => kv.2 =? count) (trim_conversations d ++ dropped)%list
          = List.filter (fun kv => kv.2 =? count) d)).
Proof.
  unfold trim_conversations. split; intros Hlen.
  - rewrite bool_decide_eq_false_2; [done|lia].
  - rewrite bool_decide_eq_true_2 by done.
    rewrite sorted_desc_sort_desc_by.
    pose proof (sort_desc_by_perm snd d) as Hperm.
    split.
    + rewrite length_take, Hperm. unfold conversations_cap, conversations_keep in *. lia.
    + exists (drop conversations_keep (sort_desc_by snd d)). split_and!.
      * by rewrite take_drop.
      * apply (sorted_take_drop snd). apply sort_desc_by_sorted.
      * intros count. rewrite take_drop. apply (sort_desc_by_stable snd).
Qed.

Lemma X20_trim_conversations_keeps_the_highest_witness :
  trim_conversations [("t1", 1); ("t2", 3)] = [("t1", 1); ("t2", 3)].
Proof.
  apply (proj1 (X20_trim_conversations_keeps_the_highest [("t1", 1); ("t2", 3)])).
  cbn. unfold conversations_cap. lia.
Defined.

(** X21: a polling cycle bounds the handler's tables.  With a database
    client, and a [set] that lists its elements each once, a cycle ends with
    at most 1000 identifiers in the cache of processed replies and at most
    100 conversations in the table of counters, however many replies it met;
    and counters that were within the cap of the configuration are still
    within it. *)
Theorem X21_cycle_bounds_its_tables (w : World) (cfg : Config) (s : Sys) :
  set_iter_lists_elements w ->
  connected s = true ->
  let s' := (check_and_handle_replies w cfg s).2 in
  (size (processed_replies s') <= cache_cap)%nat /\
  (length (conversation_replies s') <= conversations_cap)%nat /\
  (counters_within (max_replies_per_conversation cfg) s ->
   counters_within (max_replies_per_conversation cfg) s').
Proof.
  intros Hiter Hdb. cbv zeta. split_and!; [| |apply cycle_counters].
  all: unfold check_and_handle_replies, connected in *; munfold; cbn.
  all: destruct (supabase s) as [rows|]; [|done]; cbn.
  all: destruct (foldM _ _ _ _) as [stats s1]; cbn.
  - apply (trim_processed_bounds w Hiter).
  - unfold trim_conversations.
    destruct (bool_decide _) eqn:E.
    + rewrite length_take. unfold conversations_cap, conversations_keep. lia.
    + apply bool_decide_eq_false in E. lia.
Qed.

Lemma X21_cycle_bounds_its_tables_witness :
  (size (processed_replies
           (check_and_handle_replies one_reply_world basic_config
              (initial_sys (Some "bot") (Some []))).2) <= cache_cap)%nat.
Proof.
  refine (proj1 (X21_cycle_bounds_its_tables one_reply_world basic_config
            (initial_sys (Some "bot") (Some [])) _ eq_refl)).
  intros cache. reflexivity.
Defined.

(** ** The scheduler's jobs *)

Section Jobs.

Variable w : World.
Variable cfg : Config.

Lemma post_tweet_job_stats text image reply_to :
  keeps job_stats (post_tweet w cfg text image reply_to).
Proof. unfold_gateway. keeps_auto. Qed.

Lemma cycle_job_stats : keeps job_stats (check_and_handle_replies w cfg).
Proof. unfold_handler. unfold_gateway. cbv zeta. keeps_auto. Qed.

Lemma cycle_result s :
  is_Some (check_and_handle_replies w cfg s).1 <-> connected s = true.
Proof.
  unfold check_and_handle_replies, connected. munfold. cbn.
  destruct (supabase s); cbn.
  - destruct (foldM _ _ _ _). cbn. split; [done|by eexists].
  - split; [by intros [? ?]|done].
Qed.

Lemma _generate_and_post_job_tally s :
  let s' := (_generate_and_post_job w cfg s).2 in
  firings s' = firings s + 1 /\
  successful s <= successful s' /\ failed s <= failed s' /\ skipped s <= skipped s'.
Proof.
  cbv zeta. unfold_job. munfold. cbn. unfold firings.
  destruct (in_posting_hours _ _ _); cbn; [|lia].
  destruct (_check_posting_quota _ _); cbn; [|lia].
  destruct (generate_complete_post w _) as [|[text|] image]; cbn; try lia.
  destruct (String.eqb text ""); cbn; [lia|].
  set (s0 := set_tick _ _).
  pose proof (post_tweet_job_stats text image None s0) as Hk.
  destruct (post_tweet w cfg text image None s0) as [tweet_id s1].
  unfold job_stats in Hk. cbn in Hk. injection Hk as H1 H2 H3.
  destruct (truthy tweet_id); cbn; lia.
Qed.

Lemma _check_replies_job_tally reply_check_24h s :
  let s' := (_check_replies_job w cfg reply_check_24h s).2 in
  firings s' = firings s + 1 /\
  successful s <= successful s' /\ failed s <= failed s' /\ skipped s <= skipped s'.
Proof.
  cbv zeta. unfold _check_replies_job.
  set (body := check_and_handle_replies w cfg ≫= _).
  assert (forall s0, job_stats s0 = job_stats s ->
            firings (body s0).2 = firings s + 1 /\
            successful s <= successful (body s0).2 /\
            failed s <= failed (body s0).2 /\ skipped s <= skipped (body s0).2)
    as Hcycle.
  { intros s0 H0. subst body. unfold count_failed, count_successful. munfold.
    pose proof (cycle_job_stats s0) as Hk.
    destruct (check_and_handle_replies w cfg s0) as [stats s1].
    unfold job_stats, firings in *. cbn in Hk. rewrite H0 in Hk.
    injection Hk as H1 H2 H3.
    destruct stats; cbn; lia. }
  clearbody body.
  unfold _is_in_posting_hours, count_skipped. munfold.
  destruct reply_check_24h; cbn.
  - apply (Hcycle s eq_refl).
  - destruct (in_posting_hours _ _ _); cbn; [|unfold firings; cbn; lia].
    apply (Hcycle (set_tick (S (tick s)) s) eq_refl).
Qed.

End Jobs.



(** ** The length of the posting window *)

Lemma time_key_injective (a b : Time) :
  valid_time a -> valid_time b -> time_key a = time_key b -> a = b.
Proof.
  unfold valid_time, time_key.
  destruct a as [h1 m1 s1 u1], b as [h2 m2 s2 u2]. cbn. intros Ha Hb H.
  assert (h1 = h2 /\ m1 = m2 /\ s1 = s2 /\ u1 = u2) as (-> & -> & -> & ->) by lia.
  done.
Qed.

(** X24: the minutes [_calculate_active_hours] counts.  For two times of
    day, the count lies between 1 and 1440; when the window does not wrap it
    is the distance from start to end; a window and the window with the
    bounds exchanged add up to a whole day; and equal bounds count as a whole
    day, not as an empty window. *)
Theorem X24_active_minutes (start_time end_time : Time) :
  valid_time start_time -> valid_time end_time ->
  0 < active_minutes start_time end_time <= 1440 /\
  (minute_of_day start_time < minute_of_day end_time ->
     active_minutes start_time end_time
     = minute_of_day end_time - minute_of_day start_time) /\
  (minute_of_day start_time <> minute_of_day end_time ->
     active_minutes start_time end_time + active_minutes end_time start_time = 1440) /\
  (minute_of_day start_time = minute_of_day end_time ->
     active_minutes start_time end_time = 1440).
Proof.
  unfold valid_time, active_minutes, minute_of_day. intros Ha Hb.
  destruct (_ <=? _) eqn:E1; [apply Z.leb_le in E1|apply Z.leb_gt in E1];
    (destruct (hour start_time * 60 + minute start_time
               <=? hour end_time * 60 + minute end_time) eqn:E2;
     [apply Z.leb_le in E2|apply Z.leb_gt in E2]);
    split_and!; intros; lia.
Qed.

Lemma X24_active_minutes_witness :
  active_minutes (hm 9 0) (hm 21 0) = minute_of_day (hm 21 0) - minute_of_day (hm 9 0).
Proof.
  refine (proj1 (proj2 (X24_active_minutes (hm 9 0) (hm 21 0) _ _)) _).
  - unfold valid_time. cbn. lia.
  - unfold valid_time. cbn. lia.
  - unfold minute_of_day. cbn. lia.
Defined.

(** X25: a window whose start and end are the same time.  The cadence of
    the posting job is computed as for a window of 24 hours, while the test
    the job makes when it fires lets a single instant through: the start
    itself, to the microsecond. *)
Theorem X25_window_of_equal_bounds (bound now : Time) :
  valid_time bound -> valid_time now ->
  active_minutes bound bound = 1440 /\
  (in_posting_hours bound bound now = true <-> now = bound).
Proof.
  intros Hb Hn. split.
  - unfold active_minutes. by rewrite Z.leb_refl; lia.
  - unfold in_posting_hours, time_le. rewrite Z.leb_refl.
    rewrite andb_true_iff, !Z.leb_le. split.
    + intros [H1 H2]. apply time_key_injective; [done|done|lia].
    + intros ->. lia.
Qed.

Lemma X25_window_of_equal_bounds_witness :
  active_minutes (hm 9 0) (hm 9 0) = 1440.
Proof.
  refine (proj1 (X25_window_of_equal_bounds (hm 9 0) (hm 9 0) _ _)).
  - unfold valid_time. cbn. lia.
  - unfold valid_time. cbn. lia.
Defined.

(** ** Metrics and the search for viral tweets *)

Section Reads.

Variable w : World.
Variable cfg : Config.
Variable get_tweet_with_metrics : nat -> string -> MetricsResp.
Variable search_viral : nat -> string -> ViralResp.

Lemma get_tweet_metrics_respected tweet_id :
  preserves (quota_respected cfg)
    (get_tweet_metrics w cfg get_tweet_with_metrics tweet_id).
Proof.
  intros s Hs. unfold get_tweet_metrics. munfold.
  destruct (_check_quota_granted w cfg "reads" 1 s Hs) as [H1 H2].
  destruct (_check_quota w cfg "reads" 1 s) as [ok s1]. cbn in H1, H2.
  destruct ok; cbn; [|done]. specialize (H2 eq_refl).
  unfold _update_quota. munfold.
  mbreak; try congruence;
    first [ by apply (quota_respected_of_usage cfg s1)
          | by apply (quota_respected_update cfg "reads" 1 s1) ].
Qed.

Lemma search_viral_tweets_respected keywords max_results :
  (forall i q tweets_data,
     search_viral i q = ViralData tweets_data ->
     Z.of_nat (length tweets_data) <= max_results) ->
  preserves (quota_respected cfg)
    (search_viral_tweets w cfg search_viral keywords max_results).
Proof.
  intros Hw s Hs. unfold search_viral_tweets. munfold.
  destruct (_check_quota_granted w cfg "reads" max_results s Hs) as [H1 H2].
  destruct (_check_quota w cfg "reads" max_results s) as [ok s1]. cbn in H1, H2.
  destruct ok; cbn -[length]; [|done]. specialize (H2 eq_refl).
  destruct (search_viral _ _) as [|tweets_data] eqn:Hresp; cbn -[length]; [done|].
  destruct tweets_data as [|tweet rest]; cbn -[length]; [done|].
  apply (quota_respected_update cfg "reads" (Z.of_nat (length (tweet :: rest))) s1);
    try done.
  apply (exceeds_le _ _ max_results); [|done]. by apply (Hw _ _ _ Hresp).
Qed.

End Reads.


(** X27: [search_viral_tweets] answers the tweets the platform found, each
    with the score likes + 3 * retweets + 2 * replies of its metrics (a
    missing metric counting as zero), ordered by decreasing score, tweets of
    equal score in the order the platform gave them; the reads counter rises
    by the number of tweets found.  When the quota check refuses, the
    platform is not asked and the answer is empty.  A counter within its
    limit stays within it when the platform answers with no more tweets than
    [max_results]. *)
Theorem X27_search_viral_tweets (w : World) (cfg : Config)
    (search_viral : nat -> string -> ViralResp)
    (keywords : list string) (max_results : Z) (s : Sys) :
  let check := _check_quota w cfg "reads" max_results s in
  let query := "(" +:+ join_or keywords +:+ ") lang:fr -is:retweet" in
  let r := search_viral_tweets w cfg search_viral keywords max_results s in
  StronglySorted (fun a b => virality_score b <= virality_score a) r.1 /\
  Forall (fun tweet =>
            virality_score tweet
            = default 0 (vt_metrics tweet !! "like_count")
              + default 0 (vt_metrics tweet !! "retweet_count") * 3
              + default 0 (vt_metrics tweet !! "reply_count") * 2) r.1 /\
  (check.1 = false -> r = ([], check.2)) /\
  (forall tweets_data,
     check.1 = true ->
     search_viral (S (tick s)) query = ViralData tweets_data ->
     r.1 ≡ₚ map score_of tweets_data /\
     (forall score,
        List.filter (fun tweet => virality_score tweet =? score) r.1
        = List.filter (fun tweet => virality_score tweet =? score)
            (map score_of tweets_data)) /\
     usage_of "reads" r.2 = usage_of "reads" check.2 + Z.of_nat (length tweets_data)) /\
  ((forall i q tweets_data,
      search_viral i q = ViralData tweets_data ->
      Z.of_nat (length tweets_data) <= max_results) ->
   preserves (quota_respected cfg)
     (search_viral_tweets w cfg search_viral keywords max_results)).
Proof.
  cbv zeta.
  destruct (_check_quota_cases w cfg "reads" max_results s)
    as (s1 & Hq & _ & _ & _ & _ & Htick & _).
  split_and!; [| | | |apply search_viral_tweets_respected].
  all: unfold search_viral_tweets; munfold; rewrite Hq; cbn [fst snd].
  - destruct (negb (exceeds _ _ _)); cbn -[sort_desc_by map]; [|constructor].
    destruct (search_viral _ _) as [|[|tweet rest]]; cbn -[sort_desc_by map];
      try constructor.
    apply sort_desc_by_sorted.
  - destruct (negb (exceeds _ _ _)); cbn -[sort_desc_by map]; [|constructor].
    destruct (search_viral _ _) as [|[|tweet rest]]; cbn -[sort_desc_by map];
      try constructor.
    rewrite (sort_desc_by_perm virality_score).
    apply Forall_forall. intros t Ht.
    apply list_elem_of_In, in_map_iff in Ht as (raw & <- & _). done.
  - by destruct (negb (exceeds _ _ _)).
  - intros data Hok Hresp. destruct (negb (exceeds _ _ _)); [|done].
    cbn -[length sort_desc_by map]. rewrite Htick, Hresp.
    destruct data as [|tweet rest]; cbn -[length sort_desc_by map].
    + split_and!; try done. unfold usage_of. cbn. lia.
    + split_and!.
      * apply sort_desc_by_perm.
      * intros score. apply (sort_desc_by_stable virality_score).
      * unfold _update_quota. munfold. cbn -[length]. unfold usage_of at 1.
        cbn -[length]. by rewrite lookup_insert_eq.
Qed.

(** ** The two tests of the posting quota *)

(** X28: the scheduler's test of the posting quota against the gateway's.
    Less than a day after the last reset the two agree: the posting job lets a
    firing through exactly when [post_tweet] would pass its quota check.  From
    a day on the gateway's check always passes, since it resets the counters
    first, whereas the scheduler's test still reads the old counter.  In
    every case a firing the scheduler lets through is not refused by the
    gateway. *)
Theorem X28_the_two_posting_checks (w : World) (cfg : Config) (s : Sys) :
  let gateway := (_check_quota w cfg "posts" 1 s).1 in
  let scheduler := _check_posting_quota (usage_of "posts" s) (posts_limit_status cfg) in
  (utcnow w (tick s) - last_quota_reset s < day_us -> gateway = scheduler) /\
  (day_us <= utcnow w (tick s) - last_quota_reset s -> gateway = true) /\
  (scheduler = true -> gateway = true).
Proof.
  cbv zeta. split_and!.
  - intros Hclock. rewrite _check_quota_no_reset by (by apply timedelta_days_lt_1).
    cbn. unfold exceeds, _check_posting_quota, posts_limit_status.
    destruct (0 <? posts_per_day cfg); cbn; [|done].
    f_equal.
    destruct (posts_per_day cfg <? usage_of "posts" s + 1) eqn:E1;
      destruct (posts_per_day cfg <=? usage_of "posts" s) eqn:E2; try done;
      [apply Z.ltb_lt in E1; apply Z.leb_gt in E2|apply Z.ltb_ge in E1; apply Z.leb_le in E2];
      lia.
  - intros Hclock. rewrite _check_quota_reset by (by apply timedelta_days_ge_1).
    cbn. unfold exceeds. destruct (0 <? posts_per_day cfg) eqn:E; [|done]. cbn.
    apply Z.ltb_lt in E. apply negb_true_iff, Z.ltb_ge. lia.
  - intros Hs. by apply (_check_quota_after_posting_check w cfg s s).
Qed.

(** ** What the [liked] column says *)

Section Truthful.

Variable w : World.
Variable cfg : Config.

Lemma truthful_of_view s s' :
  (supabase s', trace s') = (supabase s, trace s) ->
  likes_recorded_truthfully s -> likes_recorded_truthfully s'.
Proof. intros [= H1 H2] Hs. unfold likes_recorded_truthfully. by rewrite H1, H2. Qed.

Lemma truthful_emit e : preserves likes_recorded_truthfully (emit e).
Proof.
  intros s Hs row Hrow Hl. cbn in *. apply elem_of_cons. right. by apply Hs.
Qed.

Lemma save_reply_truthful reply :
  liked reply = false -> preserves likes_recorded_truthfully (save_reply w reply).
Proof.
  intros Hl s Hs. unfold save_reply. munfold. cbn. rewrite Hl.
  destruct (supabase s) as [rows|] eqn:Hdb; cbn; [|done].
  destruct (List.filter _ rows) as [|existing rest]; cbn; [|done].
  intros row Hrow Hliked. cbn in *.
  apply elem_of_app in Hrow as [Hrow|Hrow].
  - apply Hs; [|done]. by rewrite Hdb.
  - apply list_elem_of_singleton in Hrow. subst row. cbn in Hliked. congruence.
Qed.

Lemma mark_reply_liked_truthful rid s :
  likes_recorded_truthfully s -> ELike rid ∈ trace s ->
  likes_recorded_truthfully (mark_reply_liked rid s).2.
Proof.
  intros Hs Hlike. unfold mark_reply_liked. munfold. cbn.
  destruct (supabase s) as [rows|] eqn:Hdb; cbn; [|done].
  intros row Hrow Hliked. cbn in *.
  unfold update_liked in Hrow.
  apply list_elem_of_In, in_map_iff in Hrow as (row0 & <- & Hin).
  destruct (has_reply_id rid row0) eqn:Hid.
  - unfold has_reply_id in Hid. apply String.eqb_eq in Hid. cbn. by rewrite Hid.
  - apply Hs; [|done]. rewrite Hdb. by apply list_elem_of_In.
Qed.

End Truthful.

#[global] Hint Resolve truthful_emit save_reply_truthful : pres.

#[global] Hint Extern 5 (preserves likes_recorded_truthfully _) =>
  apply (preserves_keeps _ (fun s => (supabase s, trace s)));
    [ intros ? ? ?; by apply truthful_of_view | keeps_auto ] : pres.

Section TruthfulScans.

Variable w : World.
Variable cfg : Config.

Lemma like_tweet_true tweet_id s :
  (like_tweet w cfg tweet_id s).1 = true ->
  ELike tweet_id ∈ trace (like_tweet w cfg tweet_id s).2.
Proof.
  unfold like_tweet. munfold.
  destruct (_check_quota w cfg "likes" 1 s) as [ok s1].
  destruct ok; cbn; [|done].
  unfold _update_quota. munfold.
  mbreak; try done; intros _; by left.
Qed.

Lemma _auto_like_reply_true rid s :
  (_auto_like_reply w cfg rid s).1 = true ->
  ELike rid ∈ trace (_auto_like_reply w cfg rid s).2.
Proof.
  unfold _auto_like_reply. munfold. cbn.
  destruct (truthy (bot_user_id s)); cbn; [|apply like_tweet_true].
  destruct (get_tweet w (tick s) rid) as [|[author|]]; cbn;
    try apply like_tweet_true.
  destruct (opt_string_eqb author (bot_user_id s)); cbn; [done|apply like_tweet_true].
Qed.

Lemma _auto_like_reply_truthful rid :
  preserves likes_recorded_truthfully (_auto_like_reply w cfg rid).
Proof. unfold _auto_like_reply. unfold_gateway. pres_auto. Qed.

Lemma like_if_enabled_truthful reply st :
  preserves likes_recorded_truthfully (like_if_enabled w cfg reply st).
Proof.
  intros s Hs. unfold like_if_enabled. munfold.
  destruct (auto_like_replies cfg); [|done].
  pose proof (_auto_like_reply_truthful (reply_id reply) s Hs) as H1.
  pose proof (_auto_like_reply_true (reply_id reply) s) as H2.
  destruct (_auto_like_reply w cfg (reply_id reply) s) as [[] s1]; cbn in *; [|done].
  pose proof (mark_reply_liked_truthful (reply_id reply) s1 H1 (H2 eq_refl)) as H3.
  by destruct (mark_reply_liked (reply_id reply) s1).
Qed.

Lemma answer_if_enabled_truthful reply st :
  preserves likes_recorded_truthfully (answer_if_enabled w cfg reply st).
Proof.
  unfold answer_if_enabled, _auto_reply_to_comment, _generate_reply_content.
  unfold_gateway. pres_auto.
Qed.

Lemma get_tweet_replies_truthful tweet_id max_results :
  preserves likes_recorded_truthfully (get_tweet_replies w cfg tweet_id max_results).
Proof. unfold_gateway. pres_auto. Qed.

Lemma get_tweet_replies_not_liked tweet_id max_results s :
  Forall (fun reply => liked reply = false)
         (get_tweet_replies w cfg tweet_id max_results s).1.
Proof.
  unfold get_tweet_replies. munfold.
  destruct (_check_quota w cfg "reads" max_results s) as [ok s1].
  destruct ok; cbn -[collect_replies]; [|constructor].
  destruct (search_recent_tweets w (tick s1) tweet_id) as [|[|tweet rest]];
    cbn -[collect_replies]; try constructor.
  set (s2 := set_tick _ _).
  pose proof (collect_replies_shape w (bot_user_id s1) tweet_id (tweet :: rest) s2) as Hc.
  cbv zeta in Hc. destruct Hc as [_ Hall].
  destruct (collect_replies _ _ _ _ s2) as [replies s3]. cbn -[length] in *.
  eapply Forall_impl; [exact Hall|]. cbn. tauto.
Qed.

Lemma preserves_foldM_Forall {A C} (P : Sys -> Prop) (R : A -> Prop)
    (f : C -> A -> M C) (l : list A) :
  Forall R l -> (forall c a, R a -> preserves P (f c a)) ->
  forall c, preserves P (foldM f l c).
Proof.
  intros Hl Hf. induction Hl as [|a l Ha Hl IH]; intros c; cbn.
  - apply preserves_ret.
  - apply preserves_bind; [by apply Hf | intros; apply IH].
Qed.

Lemma handle_reply_truthful E st reply :
  liked reply = false ->
  preserves likes_recorded_truthfully (handle_reply w cfg E st reply).
Proof.
  intros Hl. unfold handle_reply, engage. cbv zeta.
  pose proof like_if_enabled_truthful. pose proof answer_if_enabled_truthful.
  pres_auto.
Qed.

Lemma deep_scan_reply_truthful cache st reply :
  liked reply = false ->
  preserves likes_recorded_truthfully (deep_scan_reply w cfg cache st reply).
Proof.
  intros Hl. unfold deep_scan_reply, engage. cbv zeta.
  pose proof like_if_enabled_truthful. pose proof answer_if_enabled_truthful.
  pres_auto.
Qed.

Lemma handle_tweet_truthful st tweet_id :
  preserves likes_recorded_truthfully (handle_tweet w cfg st tweet_id).
Proof.
  intros s Hs. unfold handle_tweet. munfold.
  pose proof (get_tweet_replies_truthful tweet_id 10 s Hs) as H1.
  pose proof (get_tweet_replies_not_liked tweet_id 10 s) as H2.
  destruct (get_tweet_replies w cfg tweet_id 10 s) as [replies s1]. cbn in H1, H2.
  destruct replies as [|reply rest]; [done|].
  unfold process_page. munfold.
  pose proof (get_existing_reply_ids_id (map reply_id (reply :: rest)) s1) as Hid.
  destruct (get_existing_reply_ids (map reply_id (reply :: rest)) s1) as [existing s2].
  cbn in Hid. subst s2.
  apply (preserves_foldM_Forall _ (fun reply => liked reply = false)); try done.
  intros. by apply handle_reply_truthful.
Qed.

Lemma deep_scan_tweet_truthful cache st tweet_id :
  preserves likes_recorded_truthfully (deep_scan_tweet w cfg cache st tweet_id).
Proof.
  intros s Hs. unfold deep_scan_tweet. munfold.
  pose proof (get_tweet_replies_truthful tweet_id 10 s Hs) as H1.
  pose proof (get_tweet_replies_not_liked tweet_id 10 s) as H2.
  destruct (get_tweet_replies w cfg tweet_id 10 s) as [replies s1]. cbn in H1, H2.
  apply (preserves_foldM_Forall _ (fun reply => liked reply = false)); try done.
  intros. by apply deep_scan_reply_truthful.
Qed.

End TruthfulScans.

(** X29: the [liked] column tells the truth.  If every row marked as liked
    belongs to a reply for which a like was asked of the platform, this is
    still so after a polling cycle and after a manual deep scan: the scans
    store the replies they discover as not liked, and mark a row only after
    the like of its reply went through. *)
Theorem X29_liked_column_is_truthful (w : World) (cfg : Config) (days : Z) :
  preserves likes_recorded_truthfully (check_and_handle_replies w cfg) /\
  preserves likes_recorded_truthfully (manual_deep_scan w cfg days).
Proof.
  pose proof (handle_tweet_truthful w cfg).
  pose proof (deep_scan_tweet_truthful w cfg).
  split.
  - unfold check_and_handle_replies. cbv zeta. pres_auto.
  - unfold manual_deep_scan. cbv zeta. pres_auto.
Qed.

Lemma X29_liked_column_is_truthful_witness :
  ELike "r1" ∈ trace (check_and_handle_replies one_reply_world basic_config
                        (initial_sys (Some "bot") (Some []))).2.
Proof.
  refine (proj1 (X29_liked_column_is_truthful one_reply_world basic_config 30)
            (initial_sys (Some "bot") (Some [])) _
            (mkRow "row-3" "r1" "t1" (Some "alice") "nice" 0 true) _ eq_refl).
  - intros row Hrow. cbn in Hrow. by apply elem_of_nil in Hrow.
  - vm_compute. by left.
Defined.

(** ** Pages smaller than ten *)

(** X30: why ten.  [get_tweet_replies] checks the quota for [max_results]
    reads but never asks the platform for fewer than ten tweets, and counts
    what comes back.  So for every positive [max_results] below ten and every
    reads limit of at least ten there is a state within the limit, and a
    platform that answers with no more than the page it was asked for, from
    which one call takes the reads counter above the limit. *)
Theorem X30_small_pages_can_pass_the_reads_limit (cfg : Config) (max_results : Z) :
  10 <= reads_per_day cfg ->
  0 < max_results < 10 ->
  let s := reads_used (reads_per_day cfg - max_results) in
  let r := get_tweet_replies full_pages_world cfg "t1" max_results s in
  usage_within cfg "reads" s /\
  answers_at_most full_pages_world (search_page_size max_results) /\
  length r.1 = 10%nat /\
  usage_of "reads" r.2 = reads_per_day cfg - max_results + 10 /\
  ~ usage_within cfg "reads" r.2.
Proof.
  intros HL Hmax. cbv zeta.
  assert (usage_of "reads" (reads_used (reads_per_day cfg - max_results))
          = reads_per_day cfg - max_results) as Hu by done.
  assert (get_tweet_replies full_pages_world cfg "t1" max_results
            (reads_used (reads_per_day cfg - max_results))
          = (replicate 10 (mkReply "r1" "t1" (Some "alice") "nice" 0 false),
             set_quota (<["reads" := reads_per_day cfg - max_results + 10]>)
               (set_tick 2 (set_trace (cons (ESearch "t1"))
                  (reads_used (reads_per_day cfg - max_results)))))) as Hr.
  { unfold get_tweet_replies. munfold.
    rewrite _check_quota_no_reset by (apply timedelta_days_lt_1; cbn; unfold day_us; lia).
    rewrite Hu. cbn [fst snd daily_limit_of String.eqb Ascii.eqb Bool.eqb negb].
    unfold exceeds at 1.
    rewrite (proj2 (Z.ltb_lt 0 (reads_per_day cfg))) by lia.
    rewrite (proj2 (Z.ltb_ge _ _)) by lia.
    reflexivity. }
  rewrite Hr. cbn [fst snd]. split_and!.
  - intros L [= <-] _. rewrite Hu. lia.
  - intros i q tweets_data [= <-]. unfold search_page_size. cbn. lia.
  - done.
  - unfold usage_of. cbn. by rewrite lookup_insert_eq.
  - intros H. specialize (H (reads_per_day cfg) eq_refl).
    unfold usage_of in H. cbn in H. rewrite lookup_insert_eq in H. cbn in H. lia.
Qed.

Lemma X30_small_pages_can_pass_the_reads_limit_witness :
  usage_of "reads"
    (get_tweet_replies full_pages_world basic_config "t1" 5 (reads_used (100 - 5))).2
  = 100 - 5 + 10.
Proof.
  refine (proj1 (proj2 (proj2 (proj2
            (X30_small_pages_can_pass_the_reads_limit basic_config 5 _ _))))).
  - cbn. lia.
  - lia.
Defined.
